(** * Budget tracker: the month-sheet parser and the workbook aggregator

    A shallow embedding of [parse_month_sheet] and [load_workbook] of
    [app.py], and the properties of the sheet parser and of the
    aggregation that the specification states.

    - Text is a [string] of code points below 256 (Latin-1); [strip] and
      [lower] are Python's [str.strip()] and [str.lower()] on that range.
    - A sheet is a [DataFrame]: a width ([shape1], Python's [df.shape[1]])
      and its rows.  [iat] raises [IndexError] out of range, as
      [df.iat[i, c]] does.
    - Numbers are kept abstract (any [number] with [str_number], Python's
      [str] on it): the parser never computes with a number.
    - Code that may raise lives in the [result] monad. *)

From Stdlib Require Import String Ascii List Arith Bool Lia ZArith.
From Stdlib Require DecimalString.
Import ListNotations.
Local Open Scope string_scope.
Local Open Scope list_scope.
Local Open Scope nat_scope.

(* ================================================================= *)
(** ** Python strings *)

(** [str.isspace] on one character: 9-13, 28-32, 0x85 and 0xA0. *)
Definition isspace (a : ascii) : bool :=
  let n := nat_of_ascii a in
  ((9 <=? n) && (n <=? 13)) || ((28 <=? n) && (n <=? 32))
  || (n =? 133) || (n =? 160).

(** [str.lower] on one character: A-Z and the Latin-1 capitals
    0xC0-0xDE (the multiplication sign 0xD7 apart) move up by 32. *)
Definition lower_char (a : ascii) : ascii :=
  let n := nat_of_ascii a in
  if ((65 <=? n) && (n <=? 90))
     || ((192 <=? n) && (n <=? 222) && negb (n =? 215))
  then ascii_of_nat (n + 32) else a.

Fixpoint lower (s : string) : string :=
  match s with
  | EmptyString => EmptyString
  | String a s' => String (lower_char a) (lower s')
  end.

Fixpoint lstrip (s : string) : string :=
  match s with
  | EmptyString => EmptyString
  | String a s' => if isspace a then lstrip s' else s
  end.

Fixpoint rstrip (s : string) : string :=
  match s with
  | EmptyString => EmptyString
  | String a s' =>
      match rstrip s' with
      | EmptyString => if isspace a then EmptyString else String a EmptyString
      | r => String a r
      end
  end.

(** [s.strip()] *)
Definition strip (s : string) : string := rstrip (lstrip s).

(** [s.startswith(p)] *)
Definition startswith (s p : string) : bool := String.prefix p s.

(** [s in {k1, ..., kn}] for a set literal of strings. *)
Definition in_set (s : string) (ks : list string) : bool :=
  existsb (String.eqb s) ks.

(* ================================================================= *)
(** ** Exceptions *)

Inductive exn : Type := IndexError.

Inductive result (A : Type) : Type :=
| Ok (a : A)
| Raise (e : exn).
Arguments Ok {A} a.
Arguments Raise {A} e.

Definition bind {A B} (m : result A) (k : A -> result B) : result B :=
  match m with
  | Ok a => k a
  | Raise e => Raise e
  end.

Notation "x <- m ;; k" := (bind m (fun x => k))
  (at level 61, m at next level, right associativity).

(** Numbers are any type with Python's [str] on it. *)
Class NumberStr (number : Type) : Type := str_number : number -> string.

(** The numbers of the scenarios: integers, printed in decimal. *)
Definition str_Z (z : Z) : string :=
  DecimalString.NilZero.string_of_int (Z.to_int z).
#[global] Instance NumberStr_Z : NumberStr Z := str_Z.

Section Sheet.

Context {number : Type} {NS : NumberStr number}.

(* ================================================================= *)
(** ** Cells and data frames *)

(** A cell of a sheet read with [header=None]: text, a number, or the
    missing value (NaN). *)
Inductive cell : Type :=
| Text (s : string)
| Number (n : number)
| NaN.

(** A frame: its width and its rows.  A row shorter than the width reads
    as NaN to its right; what a row holds beyond the width is never read
    by [iat]. *)
Record DataFrame : Type := mkDataFrame {
  shape1 : nat;               (* df.shape[1] *)
  rows : list (list cell);
}.

(** [len(df)] *)
Definition len (df : DataFrame) : nat := length (rows df).

(** The cell at row [i], column [c], with no bounds check. *)
Definition cell_at (df : DataFrame) (i c : nat) : cell :=
  nth c (nth i (rows df) []) NaN.

(** [df.iat[i, c]] for [i], [c] >= 0 *)
Definition iat (df : DataFrame) (i c : nat) : result cell :=
  if (i <? len df) && (c <? shape1 df) then Ok (cell_at df i c)
  else Raise IndexError.

(** [pd.isna(x)] and [pd.notna(x)] on a cell *)
Definition isna (x : cell) : bool :=
  match x with NaN => true | _ => false end.
Definition notna (x : cell) : bool := negb (isna x).

(** [isinstance(x, str)] *)
Definition isinstance_str (x : cell) : bool :=
  match x with Text _ => true | _ => false end.

(** [str(x)] *)
Definition str (x : cell) : string :=
  match x with
  | Text s => s
  | Number n => str_number n
  | NaN => "nan"
  end.

(* ================================================================= *)
(** ** Records

    The dictionaries the parser appends.  A field is [None] where the code
    stores Python's [None], and [Some c] where it stores the cell [c]. *)

Record CategoryRecord : Type := mkCategory {
  Category : string;
  Planned : option cell;
  Actual : option cell;
}.

Record FundRecord : Type := mkFund {
  Fund : string;
  Amount : option cell;
}.

Record LoanRecord : Type := mkLoan {
  Loan : string;
  Loan_Outstanding : option cell;
}.

Record FriendRecord : Type := mkFriend {
  Friend : string;
  Friend_Outstanding : option cell;
}.

(* ================================================================= *)
(** ** Locating a header *)

(** [for i in range(len(df)): cell = df.iat[i, col];
     if isinstance(cell, str) and test(cell.strip().lower()): found i]
    over the row numbers [ixs]. *)
Fixpoint first_header (df : DataFrame) (col : nat) (test : string -> bool)
    (ixs : list nat) : result (option nat) :=
  match ixs with
  | [] => Ok None
  | i :: ixs' =>
      x <- iat df i col ;;
      if isinstance_str x && test (lower (strip (str x)))
      then Ok (Some i)
      else first_header df col test ixs'
  end.

Definition find_header (df : DataFrame) (col : nat) (test : string -> bool)
    : result (option nat) :=
  first_header df col test (seq 0 (len df)).

(** The inner helper [find_row_index(col, keyword)]. *)
Definition find_row_index (df : DataFrame) (col : nat) (keyword : string)
    : result (option nat) :=
  find_header df col (fun s => String.eqb s keyword).

(** The rows a [while i < len(df)] loop started at [start + 1] visits. *)
Definition rows_below (df : DataFrame) (start : nat) : list nat :=
  seq (start + 1) (len df - (start + 1)).

(* ================================================================= *)
(** ** The five section loops *)

Definition home_stop : list string :=
  ["bangalore"; "funds"; "salary"; "loans/interest - home side";
   "friends side"; "loans/interest"].

Definition bangalore_stop : list string :=
  ["funds"; "salary"; "loans/interest - home side";
   "friends side"; "loans/interest"].

Definition funds_skip : list string := ["planned payments"; "salary"].

(** [df.iat[i, 1] if not pd.isna(df.iat[i, 1]) else None] *)
Definition read_planned (df : DataFrame) (i : nat) : result (option cell) :=
  x <- iat df i 1 ;;
  if negb (isna x) then (y <- iat df i 1 ;; Ok (Some y)) else Ok None.

(** [df.iat[i, 2] if df.shape[1] > 2 else None], then
    [actual_cell if (actual_cell is not None and pd.notna(actual_cell)
                     and not isinstance(actual_cell, str)) else None] *)
Definition read_actual (df : DataFrame) (i : nat) : result (option cell) :=
  actual_cell <- (if 2 <? shape1 df then (y <- iat df i 2 ;; Ok (Some y))
                  else Ok None) ;;
  Ok (match actual_cell with
      | Some x => if notna x && negb (isinstance_str x) then Some x else None
      | None => None
      end).

(** [df.iat[k, c] if df.shape[1] > c and pd.notna(df.iat[k, c]) else None] *)
Definition read_amount (df : DataFrame) (k c : nat) : result (option cell) :=
  if c <? shape1 df then
    x <- iat df k c ;;
    if notna x then (y <- iat df k c ;; Ok (Some y)) else Ok None
  else Ok None.

(** The loop under 'Home'. *)
Fixpoint home_loop (df : DataFrame) (ixs : list nat)
    (categories : list CategoryRecord) : result (list CategoryRecord) :=
  match ixs with
  | [] => Ok categories
  | i :: ixs' =>
      name <- iat df i 0 ;;
      if isna name then Ok categories else
      let name_str := strip (str name) in
      let lower_name := lower name_str in
      if in_set lower_name home_stop then Ok categories else
      planned <- read_planned df i ;;
      actual <- read_actual df i ;;
      home_loop df ixs' (categories ++ [mkCategory name_str planned actual])
  end.

(** The loop under 'Bangalore'. *)
Fixpoint bangalore_loop (df : DataFrame) (js : list nat)
    (categories : list CategoryRecord) : result (list CategoryRecord) :=
  match js with
  | [] => Ok categories
  | j :: js' =>
      name <- iat df j 0 ;;
      if isna name then Ok categories else
      let name_str := strip (str name) in
      let lower_name := lower name_str in
      if in_set lower_name bangalore_stop then Ok categories else
      planned <- read_planned df j ;;
      actual <- read_actual df j ;;
      bangalore_loop df js'
        (categories
           ++ [mkCategory ("Bangalore - " ++ name_str)%string planned actual])
  end.

(** The loop under 'Funds'. *)
Fixpoint funds_loop (df : DataFrame) (ks : list nat)
    (funds : list FundRecord) : result (list FundRecord) :=
  match ks with
  | [] => Ok funds
  | k :: ks' =>
      cat <- iat df k 7 ;;
      if isna cat then Ok funds else
      let cat_str := strip (str cat) in
      let lower_cat := lower cat_str in
      if in_set lower_cat funds_skip then funds_loop df ks' funds else
      amount <- read_amount df k 8 ;;
      funds_loop df ks' (funds ++ [mkFund cat_str amount])
  end.

(** The loop under 'Loans/Interest ...'. *)
Fixpoint loans_home_loop (df : DataFrame) (ks : list nat)
    (loans_home : list LoanRecord) : result (list LoanRecord) :=
  match ks with
  | [] => Ok loans_home
  | k :: ks' =>
      loan_name <- iat df k 10 ;;
      if isna loan_name then Ok loans_home else
      let loan_str := strip (str loan_name) in
      if startswith (lower loan_str) "friends side" then Ok loans_home else
      amount <- read_amount df k 11 ;;
      loans_home_loop df ks' (loans_home ++ [mkLoan loan_str amount])
  end.

(** The loop under 'Friends Side'. *)
Fixpoint loans_friends_loop (df : DataFrame) (ks : list nat)
    (loans_friends : list FriendRecord) : result (list FriendRecord) :=
  match ks with
  | [] => Ok loans_friends
  | k :: ks' =>
      friend_name <- iat df k 10 ;;
      if isna friend_name then Ok loans_friends else
      let friend_str := strip (str friend_name) in
      amount <- read_amount df k 11 ;;
      loans_friends_loop df ks' (loans_friends ++ [mkFriend friend_str amount])
  end.

(* ================================================================= *)
(** ** The five sections and [parse_month_sheet] *)

(** Parse main categories under 'Home'. *)
Definition home_section (df : DataFrame) (categories : list CategoryRecord)
    : result (list CategoryRecord) :=
  start <- find_row_index df 0 "home" ;;
  match start with
  | Some start => home_loop df (rows_below df start) categories
  | None => Ok categories
  end.

(** Parse optional Bangalore section. *)
Definition bangalore_section (df : DataFrame)
    (categories : list CategoryRecord) : result (list CategoryRecord) :=
  bang_idx <- find_row_index df 0 "bangalore" ;;
  match bang_idx with
  | Some bang_idx => bangalore_loop df (rows_below df bang_idx) categories
  | None => Ok categories
  end.

(** Parse funds section: the header 'Funds' resides in column 7. *)
Definition funds_section (df : DataFrame) (funds : list FundRecord)
    : result (list FundRecord) :=
  if 7 <? shape1 df then
    funds_header_idx <- find_header df 7 (fun s => String.eqb s "funds") ;;
    match funds_header_idx with
    | Some h => funds_loop df (rows_below df h) funds
    | None => Ok funds
    end
  else Ok funds.

(** Parse loans (Home side). *)
Definition loans_home_section (df : DataFrame) (loans_home : list LoanRecord)
    : result (list LoanRecord) :=
  if 10 <? shape1 df then
    loans_header_idx <-
      find_header df 10 (fun s => startswith s "loans/interest") ;;
    match loans_header_idx with
    | Some h => loans_home_loop df (rows_below df h) loans_home
    | None => Ok loans_home
    end
  else Ok loans_home.

(** Parse loans (Friends side). *)
Definition loans_friends_section (df : DataFrame)
    (loans_friends : list FriendRecord) : result (list FriendRecord) :=
  if 10 <? shape1 df then
    friends_header_idx <-
      find_header df 10 (fun s => startswith s "friends side") ;;
    match friends_header_idx with
    | Some h => loans_friends_loop df (rows_below df h) loans_friends
    | None => Ok loans_friends
    end
  else Ok loans_friends.

Definition parsed : Type :=
  (list CategoryRecord * list FundRecord
   * list LoanRecord * list FriendRecord)%type.

Definition parse_month_sheet (df : DataFrame) : result parsed :=
  let categories := [] in
  let funds := [] in
  let loans_home := [] in
  let loans_friends := [] in
  categories <- home_section df categories ;;
  categories <- bangalore_section df categories ;;
  funds <- funds_section df funds ;;
  loans_home <- loans_home_section df loans_home ;;
  loans_friends <- loans_friends_section df loans_friends ;;
  Ok (categories, funds, loans_home, loans_friends).

(* ================================================================= *)
(** ** [load_workbook]

    The workbook is the ordered sequence of its sheets, each a name and
    the frame [pd.read_excel(xls, sheet_name=..., header=None)] gives; a
    table is the list of the row dictionaries its [pd.DataFrame] is built
    from. *)

Record CategoryRow : Type := mkCategoryRow {
  cat_Month : string;
  cat_Category : string;
  cat_Planned : option cell;
  cat_Actual : option cell;
}.

Record FundRow : Type := mkFundRow {
  fund_Month : string;
  fund_Fund : string;
  fund_Amount : option cell;
}.

Record LoanRow : Type := mkLoanRow {
  loan_Month : string;
  loan_Loan : string;
  loan_Outstanding : option cell;
}.

Record FriendRow : Type := mkFriendRow {
  friend_Month : string;
  friend_Friend : string;
  friend_Outstanding : option cell;
}.

Definition tables : Type :=
  (list CategoryRow * list FundRow * list LoanRow * list FriendRow)%type.

(** [for x in xs: rows.append(row(x))] *)
Definition append_each {A B} (row : A -> B) (xs : list A) (rows : list B)
    : list B :=
  fold_left (fun rows x => rows ++ [row x]) xs rows.

(** The body of [for sheet_name in xls.sheet_names]. *)
Definition sheet_step (st : tables) (sheet : string * DataFrame)
    : result tables :=
  let '(cat_rows, funds_rows, loans_home_rows, loans_friends_rows) := st in
  let '(sheet_name, df) := sheet in
  p <- parse_month_sheet df ;;
  let '(categories, funds, loans_home, loans_friends) := p in
  let cat_rows :=
    append_each (fun cat => mkCategoryRow sheet_name (Category cat)
                              (Planned cat) (Actual cat))
      categories cat_rows in
  let funds_rows :=
    append_each (fun f => mkFundRow sheet_name (Fund f) (Amount f))
      funds funds_rows in
  let loans_home_rows :=
    append_each (fun l => mkLoanRow sheet_name (Loan l) (Loan_Outstanding l))
      loans_home loans_home_rows in
  let loans_friends_rows :=
    append_each (fun l => mkFriendRow sheet_name (Friend l)
                            (Friend_Outstanding l))
      loans_friends loans_friends_rows in
  Ok (cat_rows, funds_rows, loans_home_rows, loans_friends_rows).

Fixpoint sheets_loop (sheets : list (string * DataFrame)) (st : tables)
    : result tables :=
  match sheets with
  | [] => Ok st
  | sheet :: sheets' => st' <- sheet_step st sheet ;; sheets_loop sheets' st'
  end.

Definition load_workbook (sheets : list (string * DataFrame))
    : result tables :=
  sheets_loop sheets ([], [], [], []).

(* ================================================================= *)
(** ** Vocabulary of the statements

    What the specification calls the header row of a section, its scanned
    rows and the record of a row, written without bounds checks; the
    theorems relate the loops above to them. *)

(** The cell at [(i, col)] is text that passes [test] once trimmed and
    lowercased. *)
Definition is_header (df : DataFrame) (col : nat) (test : string -> bool)
    (i : nat) : bool :=
  isinstance_str (cell_at df i col)
  && test (lower (strip (str (cell_at df i col)))).

(** The trimmed name of row [i] in column [col]. *)
Definition name_of (df : DataFrame) (i col : nat) : string :=
  strip (str (cell_at df i col)).

(** Row [i] ends a scan of column [col]: blank name, or a stop keyword. *)
Definition ends_scan (df : DataFrame) (col : nat) (stop : string -> bool)
    (i : nat) : bool :=
  isna (cell_at df i col) || stop (lower (name_of df i col)).

(** The rows of [ixs] up to the first one that ends the scan. *)
Fixpoint scanned (df : DataFrame) (col : nat) (stop : string -> bool)
    (ixs : list nat) : list nat :=
  match ixs with
  | [] => []
  | i :: ixs' =>
      if ends_scan df col stop i then []
      else i :: scanned df col stop ixs'
  end.

(** A value cell kept whenever it is not blank. *)
Definition present (x : cell) : option cell :=
  if isna x then None else Some x.

(** A value cell kept only when it is a number. *)
Definition numeric (x : cell) : option cell :=
  match x with Number _ => Some x | _ => None end.

Definition home_record (df : DataFrame) (i : nat) : CategoryRecord :=
  mkCategory (name_of df i 0) (present (cell_at df i 1))
    (if 2 <? shape1 df then numeric (cell_at df i 2) else None).

Definition bangalore_record (df : DataFrame) (i : nat) : CategoryRecord :=
  mkCategory ("Bangalore - " ++ name_of df i 0)%string
    (present (cell_at df i 1))
    (if 2 <? shape1 df then numeric (cell_at df i 2) else None).

Definition fund_record (df : DataFrame) (k : nat) : FundRecord :=
  mkFund (name_of df k 7)
    (if 8 <? shape1 df then present (cell_at df k 8) else None).

Definition loan_record (df : DataFrame) (k : nat) : LoanRecord :=
  mkLoan (name_of df k 10)
    (if 11 <? shape1 df then present (cell_at df k 11) else None).

Definition friend_record (df : DataFrame) (k : nat) : FriendRecord :=
  mkFriend (name_of df k 10)
    (if 11 <? shape1 df then present (cell_at df k 11) else None).

Definition is_home_stop (s : string) : bool := in_set s home_stop.
Definition is_bangalore_stop (s : string) : bool := in_set s bangalore_stop.
Definition is_funds_skip (s : string) : bool := in_set s funds_skip.
Definition is_friends_side (s : string) : bool := startswith s "friends side".
Definition no_stop (s : string) : bool := false.

(** The funds rows that are not skipped. *)
Definition kept_fund (df : DataFrame) (k : nat) : bool :=
  negb (is_funds_skip (lower (name_of df k 7))).

(** The first row of the frame that is a header of column [col]. *)
Definition header_row (df : DataFrame) (col : nat) (test : string -> bool)
    : option nat :=
  find (is_header df col test) (seq 0 (len df)).

Definition is_keyword (keyword s : string) : bool := String.eqb s keyword.
Definition is_loans_header (s : string) : bool :=
  startswith s "loans/interest".

(** The rows scanned below the header of a section, none without header. *)
Definition section_rows (df : DataFrame) (col : nat)
    (test stop : string -> bool) : list nat :=
  match header_row df col test with
  | Some h => scanned df col stop (rows_below df h)
  | None => []
  end.

Definition home_rows (df : DataFrame) : list nat :=
  section_rows df 0 (is_keyword "home") is_home_stop.
Definition bangalore_rows (df : DataFrame) : list nat :=
  section_rows df 0 (is_keyword "bangalore") is_bangalore_stop.
Definition fund_rows (df : DataFrame) : list nat :=
  if 7 <? shape1 df
  then filter (kept_fund df) (section_rows df 7 (is_keyword "funds") no_stop)
  else [].
Definition loan_rows (df : DataFrame) : list nat :=
  if 10 <? shape1 df
  then section_rows df 10 is_loans_header is_friends_side
  else [].
Definition friend_rows (df : DataFrame) : list nat :=
  if 10 <? shape1 df
  then section_rows df 10 is_friends_side no_stop
  else [].

(** One record per scanned row, in row order. *)
Definition records_of (df : DataFrame) : parsed :=
  (map (home_record df) (home_rows df)
     ++ map (bangalore_record df) (bangalore_rows df),
   map (fund_record df) (fund_rows df),
   map (loan_record df) (loan_rows df),
   map (friend_record df) (friend_rows df)).

(** The frame with only its first [b] rows. *)
Definition cut_above (b : nat) (df : DataFrame) : DataFrame :=
  mkDataFrame (shape1 df) (firstn b (rows df)).

(** The columns the parser reads. *)
Definition parser_columns : list nat := [0; 1; 2; 7; 8; 10; 11].

(** Two frames of one size agree on the columns [cols]. *)
Definition agree_on (cols : list nat) (df1 df2 : DataFrame) : Prop :=
  len df1 = len df2 /\ shape1 df1 = shape1 df2 /\
  forall i c, i < len df1 -> c < shape1 df1 -> In c cols ->
    cell_at df1 i c = cell_at df2 i c.

(** The two frames give the same reads on the rows [ixs] of the columns
    [cols]. *)
Definition reads_alike (cols : list nat) (df1 df2 : DataFrame)
    (ixs : list nat) : Prop :=
  forall i c, In i ixs -> In c cols -> iat df1 i c = iat df2 i c.

(** Tagging the records of one sheet with its name. *)
Definition tag_category (month : string) (r : CategoryRecord) : CategoryRow :=
  mkCategoryRow month (Category r) (Planned r) (Actual r).
Definition tag_fund (month : string) (r : FundRecord) : FundRow :=
  mkFundRow month (Fund r) (Amount r).
Definition tag_loan (month : string) (r : LoanRecord) : LoanRow :=
  mkLoanRow month (Loan r) (Loan_Outstanding r).
Definition tag_friend (month : string) (r : FriendRecord) : FriendRow :=
  mkFriendRow month (Friend r) (Friend_Outstanding r).

(** What the specification says the aggregator returns: every sheet is
    parsed, in order, and the four tables are the concatenations of the
    tagged records. *)
Fixpoint parse_all (sheets : list (string * DataFrame))
    : result (list (string * parsed)) :=
  match sheets with
  | [] => Ok []
  | (name, df) :: sheets' =>
      p <- parse_month_sheet df ;;
      ps <- parse_all sheets' ;;
      Ok ((name, p) :: ps)
  end.

Definition aggregate_spec (sheets : list (string * DataFrame))
    : result tables :=
  ps <- parse_all sheets ;;
  Ok (flat_map (fun '(name, (c, _, _, _)) => map (tag_category name) c) ps,
      flat_map (fun '(name, (_, f, _, _)) => map (tag_fund name) f) ps,
      flat_map (fun '(name, (_, _, l, _)) => map (tag_loan name) l) ps,
      flat_map (fun '(name, (_, _, _, l)) => map (tag_friend name) l) ps).

End Sheet.

Arguments cell number : clear implicits.
Arguments DataFrame number : clear implicits.

(* ================================================================= *)
(** ** The frames of the scenarios *)

Definition blank : cell Z := NaN.

(** One column: 'home' above one name. *)
Definition df_narrow_home : DataFrame Z :=
  mkDataFrame 1 [[Text "home"]; [Text "Rent"]].

(** One row and no column at all. *)
Definition df_no_columns : DataFrame Z := mkDataFrame 0 [[]].

(** One column: 'home' above the same name twice. *)
Definition df_narrow_twice : DataFrame Z :=
  mkDataFrame 1 [[Text "home"]; [Text "Rent"]; [Text "Rent"]].

(** A row of twelve cells, blank outside the columns the parser reads. *)
Definition sheet_row (c0 c1 c2 c7 c8 c10 c11 : cell Z) : list (cell Z) :=
  [c0; c1; c2; blank; blank; blank; blank; c7; c8; blank; c10; c11].

(** Text in every value column. *)
Definition df_text_values : DataFrame Z :=
  mkDataFrame 12
    [sheet_row (Text "Home") blank blank
               (Text "Funds") blank (Text "Loans/Interest") blank;
     sheet_row (Text "Rent") (Text "tbd") (Text "paid")
               (Text "Car") (Text "none") (Text "Mortgage") (Text "closed");
     sheet_row (Text "Bangalore") blank blank
               blank blank (Text "Friends Side") blank;
     sheet_row (Text "Power") (Text "n/a") (Text "due")
               blank blank (Text "Alex") (Text "soon")].

(** A blank name in rows 2 and 5 of the name columns, names below them. *)
Definition df_blank_row : DataFrame Z :=
  mkDataFrame 12
    [sheet_row (Text "Home") blank blank
               (Text "Funds") blank (Text "Loans/Interest") blank;
     sheet_row (Text "Rent") (Number 10%Z) (Number 11%Z)
               (Text "Car") (Number 12%Z) (Text "Mortgage") (Number 13%Z);
     sheet_row blank (Number 1%Z) (Number 2%Z)
               blank (Number 3%Z) blank (Number 4%Z);
     sheet_row (Text "Bangalore") blank blank
               (Text "Trip") (Number 22%Z) (Text "Friends Side") blank;
     sheet_row (Text "Power") (Number 30%Z) (Number 31%Z)
               blank blank (Text "Alex") (Number 33%Z);
     sheet_row blank blank blank blank blank blank blank;
     sheet_row (Text "Late") (Number 40%Z) (Number 41%Z)
               blank blank (Text "Sam") (Number 43%Z)].

(** Column 0 = Home, Rent, Food, Bangalore, Power, Funds. *)
Definition df_categories : DataFrame Z :=
  mkDataFrame 3
    [[Text "Home"; blank; blank];
     [Text "Rent"; Number 1000%Z; Number 1200%Z];
     [Text "Food"; Number 500%Z; blank];
     [Text "Bangalore"; blank; blank];
     [Text "Power"; Number 200%Z; Number 250%Z];
     [Text "Funds"; blank; blank]].

(** Column 7 = Funds, Planned Payments, Emergency, Salary, Car. *)
Definition df_funds : DataFrame Z :=
  mkDataFrame 9
    [repeat blank 7 ++ [Text "Funds"; blank];
     repeat blank 7 ++ [Text "Planned Payments"; Number 5000%Z];
     repeat blank 7 ++ [Text "Emergency"; Number 2000%Z];
     repeat blank 7 ++ [Text "Salary"; Number 50000%Z];
     repeat blank 7 ++ [Text "Car"; Number 1000%Z]].

(** Column 10 = Loans/Interest - Home Side, Mortgage, Friends Side, Alex. *)
Definition df_loans : DataFrame Z :=
  mkDataFrame 12
    [repeat blank 10 ++ [Text "Loans/Interest - Home Side"; blank];
     repeat blank 10 ++ [Text "Mortgage"; Number 15000%Z];
     repeat blank 10 ++ [Text "Friends Side"; blank];
     repeat blank 10 ++ [Text "Alex"; Number 300%Z]].

(** [df_categories] with a note written in column 3. *)
Definition df_categories_noted : DataFrame Z :=
  mkDataFrame 4
    [[Text "Home"; blank; blank; Text "Funds"];
     [Text "Rent"; Number 1000%Z; Number 1200%Z; Number 7%Z];
     [Text "Food"; Number 500%Z; blank; blank]].
Definition df_categories_plain : DataFrame Z :=
  mkDataFrame 4
    [[Text "Home"; blank; blank; blank];
     [Text "Rent"; Number 1000%Z; Number 1200%Z; blank];
     [Text "Food"; Number 500%Z; blank; Text "home"]].

(* ================================================================= *)
(** ** [month_to_datetime]

    [datetime.strptime] for the two formats the function uses, after
    CPython's [_strptime]: the format becomes a regular expression, with
    [%d] = 3[0-1]|[1-2]\d|0[1-9]|[1-9]| [1-9], [%b] = the abbreviated
    month names (those of the C locale), matched without regard to case,
    [%y] = \d\d and [%Y] = \d\d\d\d.  The first match is taken; data left
    after it, or a date that does not exist, is a [ValueError], here
    [None]. *)

(** A [datetime] at midnight. *)
Record datetime : Type := mkDatetime {
  dt_year : nat;
  dt_month : nat;
  dt_day : nat;
}.

(** What [month_to_datetime] returns: a [datetime], or [pd.NaT]. *)
Inductive month_dt : Type :=
| Timestamp (t : datetime)
| NaT.

Definition is_digit (a : ascii) : bool :=
  let n := nat_of_ascii a in (48 <=? n) && (n <=? 57).

Definition is_nonzero_digit (a : ascii) : bool :=
  let n := nat_of_ascii a in (49 <=? n) && (n <=? 57).

Definition digit_value (a : ascii) : nat := nat_of_ascii a - 48.

Definition month_abbr : list string :=
  ["jan"; "feb"; "mar"; "apr"; "may"; "jun";
   "jul"; "aug"; "sep"; "oct"; "nov"; "dec"].

(** The place of [s] in [l], counted from [k]. *)
Fixpoint index_from (k : nat) (s : string) (l : list string) : option nat :=
  match l with
  | [] => None
  | x :: l' => if String.eqb s x then Some k else index_from (S k) s l'
  end.

(** The alternatives of [%d] that match at the head of [s], in the order
    of the expression, each with the day it reads and what it leaves. *)
Definition day_candidates (s : string) : list (nat * string) :=
  match s with
  | EmptyString => []
  | String a EmptyString =>
      if is_nonzero_digit a then [(digit_value a, EmptyString)] else []
  | String a (String b r) =>
      (if Ascii.eqb a "3" && (Ascii.eqb b "0" || Ascii.eqb b "1")
       then [(10 * digit_value a + digit_value b, r)] else [])
      ++ (if (Ascii.eqb a "1" || Ascii.eqb a "2") && is_digit b
          then [(10 * digit_value a + digit_value b, r)] else [])
      ++ (if Ascii.eqb a "0" && is_nonzero_digit b
          then [(10 * digit_value a + digit_value b, r)] else [])
      ++ (if is_nonzero_digit a then [(digit_value a, String b r)] else [])
      ++ (if Ascii.eqb a " " && is_nonzero_digit b
          then [(digit_value b, r)] else [])
  end.

(** The literal [-] of the format. *)
Definition literal_dash (s : string) : option string :=
  match s with
  | String a r => if Ascii.eqb a "-" then Some r else None
  | EmptyString => None
  end.

(** [%b]: three letters that are a month's abbreviation once lowercased;
    the month's number and what is left. *)
Definition abbreviated_month (s : string) : option (nat * string) :=
  match s with
  | String a (String b (String c r)) =>
      match index_from 1
              (lower (String a (String b (String c EmptyString))))
              month_abbr with
      | Some k => Some (k, r)
      | None => None
      end
  | _ => None
  end.

(** [n] digits: their value and what is left. *)
Fixpoint digits (n : nat) (s : string) : option (nat * string) :=
  match n with
  | 0 => Some (0, s)
  | S n' =>
      match s with
      | String a r =>
          if is_digit a then
            match digits n' r with
            | Some (v, r') => Some (digit_value a * 10 ^ n' + v, r')
            | None => None
            end
          else None
      | EmptyString => None
      end
  end.

(** The expression after the day: [-%b-] and a year of [n] digits. *)
Definition month_and_year (n : nat) (s : string)
    : option (nat * nat * string) :=
  match literal_dash s with
  | None => None
  | Some r1 =>
      match abbreviated_month r1 with
      | None => None
      | Some (k, r2) =>
          match literal_dash r2 with
          | None => None
          | Some r3 =>
              match digits n r3 with
              | None => None
              | Some (y, r4) => Some (k, y, r4)
              end
          end
      end
  end.

(** The first alternative of the day after which the rest matches. *)
Fixpoint first_match (n : nat) (candidates : list (nat * string))
    : option (nat * nat * nat * string) :=
  match candidates with
  | [] => None
  | (d, r) :: candidates' =>
      match month_and_year n r with
      | Some (k, y, rest) => Some (d, k, y, rest)
      | None => first_match n candidates'
      end
  end.

Definition is_leap (y : nat) : bool :=
  (y mod 4 =? 0) && (negb (y mod 100 =? 0) || (y mod 400 =? 0)).

Definition days_in_month (y m : nat) : nat :=
  match m with
  | 2 => if is_leap y then 29 else 28
  | 4 | 6 | 9 | 11 => 30
  | _ => 31
  end.

(** [datetime.strptime(data, '%d-%b-%y')], and with [%Y] when
    [four_digits]. *)
Definition strptime (four_digits : bool) (data : string) : option datetime :=
  match first_match (if four_digits then 4 else 2) (day_candidates data) with
  | None => None
  | Some (d, k, y, rest) =>
      if negb (String.eqb rest EmptyString) then None
      else
        let year :=
          if four_digits then y
          else if y <=? 68 then y + 2000 else y + 1900 in
        if (year =? 0) || (days_in_month year k <? d) then None
        else Some (mkDatetime year k d)
  end.

Definition month_to_datetime (month_str : string) : month_dt :=
  match strptime false ("1-" ++ month_str)%string with
  | Some t => Timestamp t
  | None =>
      match strptime true ("1-" ++ month_str)%string with
      | Some t => Timestamp t
      | None => NaT
      end
  end.

(** The labels that read as a date, in words of their characters: three
    characters that are, lowercased, the abbreviation of the month of
    [t], a dash, and the year of [t] in two digits (00 to 68 for 2000 to
    2068, 69 to 99 for 1969 to 1999) or in four digits, 0000 apart; [t]
    is the first day of its month. *)
Definition month_label (m : string) (t : datetime) : Prop :=
  exists a b c yr,
    m = String a (String b (String c (String "-" yr)))
    /\ 1 <= dt_month t
    /\ nth_error month_abbr (dt_month t - 1)
       = Some (lower (String a (String b (String c EmptyString))))
    /\ dt_day t = 1
    /\ ((exists d1 d2,
           yr = String d1 (String d2 EmptyString)
           /\ is_digit d1 = true /\ is_digit d2 = true
           /\ dt_year t
              = if 10 * digit_value d1 + digit_value d2 <=? 68
                then 10 * digit_value d1 + digit_value d2 + 2000
                else 10 * digit_value d1 + digit_value d2 + 1900)
        \/ (exists d1 d2 d3 d4,
              yr = String d1 (String d2 (String d3 (String d4 EmptyString)))
              /\ is_digit d1 = true /\ is_digit d2 = true
              /\ is_digit d3 = true /\ is_digit d4 = true
              /\ dt_year t
                 = 1000 * digit_value d1 + 100 * digit_value d2
                   + 10 * digit_value d3 + digit_value d4
              /\ dt_year t <> 0)).

(* ================================================================= *)
(** ** The pages: session state, log-in, upload, and the rows kept

    One run of the script reads its widgets ([st.text_input],
    [st.button], [st.file_uploader]: the arguments below) and
    [st.session_state], and may write the session state.  What a run
    renders is left out. *)

Section App.

Context {number : Type} {NS : NumberStr number}.

(** [st.session_state], by the keys the script uses; [None] is a key that
    is not there. *)
Record SessionState : Type := mkSessionState {
  logged_in : option bool;
  new_cat_data : option (list (@CategoryRow number));
  new_funds_data : option (list (@FundRow number));
  new_loans_home : option (list (@LoanRow number));
  new_loans_friends : option (list (@FriendRow number));
}.

(** [st.secrets['credentials']], a string under each key that is there. *)
Record Credentials : Type := mkCredentials {
  cred_username : option string;
  cred_password : option string;
}.

(** [creds.get(key, default)] *)
Definition get_or (v : option string) (default : string) : string :=
  match v with
  | Some s => s
  | None => default
  end.

Definition set_logged_in (ss : SessionState) (b : bool) : SessionState :=
  mkSessionState (Some b) (new_cat_data ss) (new_funds_data ss)
    (new_loans_home ss) (new_loans_friends ss).

(** [st.session_state['logged_in']], once the key is there. *)
Definition is_logged_in (ss : SessionState) : bool :=
  match logged_in ss with
  | Some b => b
  | None => false
  end.

(** [st.secrets]: nothing configured (no secrets file, none set in the
    Cloud UI), or a configuration, with the table under ['credentials']
    when it has one. *)
Inductive Secrets : Type :=
| NoSecrets
| SecretsFile (credentials : option Credentials).

(** How a run of the authentication layer ends.  [st.secrets] reads its
    configuration when it is first asked for a key, and raises when there
    is none; the membership test of line 436 passes on the exception (it
    handles [KeyError] only), which ends the run before the session state
    is touched.  Otherwise the layer runs to its end: the new session
    state, and whether the run goes on ([false] is [st.stop()]). *)
Inductive login_outcome : Type :=
| SecretsNotFound
| LoginRun (ss : SessionState) (goes_on : bool).

(** The authentication layer of [main]. *)
Definition login_block (secrets : Secrets) (ss : SessionState)
    (username_input password_input : string) (login_clicked : bool)
    : login_outcome :=
  let default_user := "admin" in
  let default_pass := "password" in
  match secrets with
  | NoSecrets => SecretsNotFound
  | SecretsFile credentials =>
      let creds :=
        match credentials with
        | Some c => c
        | None => mkCredentials None None
        end in
      let username_secret := get_or (cred_username creds) default_user in
      let password_secret := get_or (cred_password creds) default_pass in
      let ss :=
        match logged_in ss with
        | None => set_logged_in ss false
        | Some _ => ss
        end in
      if negb (is_logged_in ss) then
        let ss :=
          if login_clicked then
            if String.eqb username_input username_secret
               && String.eqb password_input password_secret
            then set_logged_in ss true
            else ss
          else ss in
        if negb (is_logged_in ss) then LoginRun ss false
        else LoginRun ss true
      else LoginRun ss true
  end.

(** The widgets of one visit to the log-in form. *)
Record LoginAttempt : Type := mkLoginAttempt {
  attempt_username : string;
  attempt_password : string;
  attempt_clicked : bool;
}.

(** The session state after a sequence of runs of the log-in layer; a run
    that raises leaves it as it was. *)
Definition login_runs (secrets : Secrets)
    (attempts : list LoginAttempt) (ss : SessionState) : SessionState :=
  fold_left
    (fun ss a =>
       match login_block secrets ss (attempt_username a)
               (attempt_password a) (attempt_clicked a) with
       | LoginRun ss' _ => ss'
       | SecretsNotFound => ss
       end)
    attempts ss.

(** The credentials the log-in layer compares the form with, given the
    table under ['credentials'], if any. *)
Definition username_secret (credentials : option Credentials) : string :=
  get_or (match credentials with
          | Some c => cred_username c
          | None => None
          end) "admin".
Definition password_secret (credentials : option Credentials) : string :=
  get_or (match credentials with
          | Some c => cred_password c
          | None => None
          end) "password".

(** The Login button was clicked on a form that holds the credentials. *)
Definition good_attempt (credentials : option Credentials)
    (a : LoginAttempt) : bool :=
  attempt_clicked a
  && String.eqb (attempt_username a) (username_secret credentials)
  && String.eqb (attempt_password a) (password_secret credentials).

(** What [pd.read_excel] makes of the uploaded file. *)
Inductive read_excel_result : Type :=
| ReadFailed
| Sheet (df : DataFrame number).

(** What the upload section reports: nothing without a file, the error
    of the [except] branch, or the four counts of the success message and
    whether the rows were saved. *)
Inductive upload_report : Type :=
| NoUpload
| UploadFailed
| Parsed (counts : nat * nat * nat * nat) (saved : bool).

(** [setdefault(key, pd.DataFrame())], then
    [pd.concat([st.session_state[key], new_rows], ignore_index=True)] *)
Definition concat_into {A} (table : option (list A)) (new_rows : list A)
    : option (list A) :=
  Some (match table with
        | Some rows => rows
        | None => []
        end ++ new_rows).

(** The section "Upload a New Month's Sheet" of [show_add_data]. *)
Definition upload_block (ss : SessionState)
    (uploaded_file : option read_excel_result) (new_month_name : string)
    (save_clicked : bool) : SessionState * upload_report :=
  match uploaded_file with
  | None => (ss, NoUpload)
  | Some ReadFailed => (ss, UploadFailed)
  | Some (Sheet df) =>
      match parse_month_sheet df with
      | Raise _ => (ss, UploadFailed)
      | Ok (categories, funds_list, loans_home_list, loans_friends_list) =>
          let counts :=
            (List.length categories, List.length funds_list,
             List.length loans_home_list, List.length loans_friends_list) in
          if negb (String.eqb new_month_name EmptyString) then
            let new_cat_rows :=
              map (fun c => mkCategoryRow new_month_name (Category c)
                              (Planned c) (Actual c)) categories in
            let new_fund_rows :=
              map (fun f => mkFundRow new_month_name (Fund f) (Amount f))
                funds_list in
            let new_loans_home_rows :=
              map (fun l => mkLoanRow new_month_name (Loan l)
                              (Loan_Outstanding l)) loans_home_list in
            let new_loans_friends_rows :=
              map (fun l => mkFriendRow new_month_name (Friend l)
                              (Friend_Outstanding l)) loans_friends_list in
            if save_clicked then
              (mkSessionState (logged_in ss)
                 (concat_into (new_cat_data ss) new_cat_rows)
                 (concat_into (new_funds_data ss) new_fund_rows)
                 (concat_into (new_loans_home ss) new_loans_home_rows)
                 (concat_into (new_loans_friends ss) new_loans_friends_rows),
               Parsed counts true)
            else (ss, Parsed counts false)
          else (ss, Parsed counts false)
      end
  end.

(** [pd.concat([table, st.session_state[key]], ignore_index=True)] when
    the key is in the session state, [table] otherwise. *)
Definition merged {A} (table : list A) (extra : option (list A)) : list A :=
  match extra with
  | Some rows => table ++ rows
  | None => table
  end.

(** [df['Month_dt'] = df['Month'].apply(month_to_datetime)], then
    [df.dropna(subset=['Month_dt'])]: the rows left, each with its date. *)
Definition with_month_dt {A} (Month : A -> string) (df : list A)
    : list (A * datetime) :=
  flat_map (fun row =>
              match month_to_datetime (Month row) with
              | Timestamp t => [(row, t)]
              | NaT => []
              end) df.

(** [month_to_datetime] reads the label. *)
Definition readable_month (label : string) : bool :=
  match month_to_datetime label with
  | Timestamp _ => true
  | NaT => false
  end.

(** The frame of [show_dashboard] once [dropna] has run (lines 245 to
    252), before it is sorted; [None] is the warning shown for an empty
    table. *)
Definition dashboard_rows (cat_df : list (@CategoryRow number))
    : option (list (@CategoryRow number * datetime)) :=
  match cat_df with
  | [] => None
  | _ :: _ => Some (with_month_dt cat_Month cat_df)
  end.

(** The frame [main] hands to the Dashboard page. *)
Definition main_dashboard_rows (cat_df : list (@CategoryRow number))
    (ss : SessionState) : option (list (@CategoryRow number * datetime)) :=
  dashboard_rows (merged cat_df (new_cat_data ss)).

(** How the funds block of [show_funds_loans] (lines 377 to 386) ends:
    the "No funds data" notice; a [KeyError] at line 385; or the frame
    left by [dropna], which line 389 pivots. *)
Inductive funds_outcome : Type :=
| NoFundsNotice
| MonthKeyError
| FundsFrame (rows : list (@FundRow number * datetime)).

(** The funds block of [show_funds_loans].  Every table of the script is
    built from a list of records ([pd.DataFrame(funds_rows)] in
    [load_workbook], [pd.DataFrame([...])] in the upload section), so
    that a table without a row is a frame without a column: when the
    workbook has no fund and the session holds a table without a row,
    [funds['Month']] raises [KeyError] and the page ends there, above the
    loans. *)
Definition funds_block (funds_df : list (@FundRow number))
    (ss : SessionState) : funds_outcome :=
  match funds_df, new_funds_data ss with
  | [], None => NoFundsNotice
  | _, _ =>
      match merged funds_df (new_funds_data ss) with
      | [] => MonthKeyError
      | funds => FundsFrame (with_month_dt fund_Month funds)
      end
  end.

End App.

Arguments SessionState number : clear implicits.

(* ================================================================= *)
(** ** More frames *)

(** Names made of spaces in row 1 of the three name columns. *)
Definition df_space_names : DataFrame Z :=
  mkDataFrame 12
    [sheet_row (Text "Home") blank blank
               (Text "Funds") blank (Text "Friends Side") blank;
     sheet_row (Text "  ") (Number 10%Z) (Number 11%Z)
               (Text "  ") (Number 12%Z) (Text "  ") (Number 13%Z);
     sheet_row (Text "Rent") (Number 20%Z) (Number 21%Z)
               (Text "Car") (Number 22%Z) (Text "Alex") (Number 23%Z)].

(** The Bangalore section above the Home section, no blank row between. *)
Definition df_bangalore_first : DataFrame Z :=
  mkDataFrame 3
    [[Text "Bangalore"; blank; blank];
     [Text "Power"; Number 200%Z; Number 250%Z];
     [Text "Home"; blank; blank];
     [Text "Rent"; Number 1000%Z; Number 1200%Z];
     [Text "Food"; Number 500%Z; blank]].

(** Names and amounts, and no header in any column. *)
Definition df_no_headers : DataFrame Z :=
  mkDataFrame 12
    [sheet_row (Text "Rent") (Number 10%Z) (Number 11%Z)
               (Text "Car") (Number 12%Z) (Text "Alex") (Number 13%Z);
     sheet_row (Text "Food") (Number 20%Z) blank
               (Text "Trip") blank (Text "Sam") blank].

(** The frame [pd.read_excel] gives for a sheet without any cell: no row
    and no column. *)
Definition df_empty_sheet : DataFrame Z := mkDataFrame 0 [].

(** A session in which no key is set yet. *)
Definition fresh_session : SessionState Z :=
  mkSessionState None None None None None.

(* ================================================================= *)
(** * Properties *)

Section Properties.

Context {number : Type} {NS : NumberStr number}.
Implicit Types (df : DataFrame number) (x : cell number).

(** ** Reading cells *)

Lemma iat_ok df i c :
  i < len df -> c < shape1 df -> iat df i c = Ok (cell_at df i c).
Proof.
  intros Hi Hc. unfold iat.
  apply Nat.ltb_lt in Hi, Hc. now rewrite Hi, Hc.
Qed.

Lemma iat_no_column df i c : shape1 df <= c -> iat df i c = Raise IndexError.
Proof.
  intros Hc. unfold iat.
  apply Nat.ltb_ge in Hc. rewrite Hc. now rewrite andb_false_r.
Qed.

Lemma iat_inv df i c x :
  iat df i c = Ok x -> i < len df /\ c < shape1 df /\ x = cell_at df i c.
Proof.
  unfold iat. destruct (i <? len df) eqn:Hi; [|discriminate].
  destruct (c <? shape1 df) eqn:Hc; [|discriminate].
  simpl. intros [= <-].
  apply Nat.ltb_lt in Hi, Hc. auto.
Qed.

Lemma numeric_notna_not_str x :
  (if notna x && negb (isinstance_str x) then Some x else None) = numeric x.
Proof. now destruct x. Qed.

Lemma read_planned_ok df i :
  i < len df -> 1 < shape1 df ->
  read_planned df i = Ok (present (cell_at df i 1)).
Proof.
  intros Hi Hw. unfold read_planned.
  rewrite (iat_ok df i 1) by assumption. simpl.
  now destruct (cell_at df i 1).
Qed.

Lemma read_actual_ok df i :
  i < len df ->
  read_actual df i
  = Ok (if 2 <? shape1 df then numeric (cell_at df i 2) else None).
Proof.
  intros Hi. unfold read_actual.
  destruct (2 <? shape1 df) eqn:Hw; simpl; [|reflexivity].
  apply Nat.ltb_lt in Hw. rewrite (iat_ok df i 2) by assumption. simpl.
  now rewrite numeric_notna_not_str.
Qed.

Lemma read_amount_ok df k c :
  k < len df ->
  read_amount df k c
  = Ok (if c <? shape1 df then present (cell_at df k c) else None).
Proof.
  intros Hk. unfold read_amount.
  destruct (c <? shape1 df) eqn:Hw; [|reflexivity].
  apply Nat.ltb_lt in Hw. rewrite (iat_ok df k c) by assumption. simpl.
  now destruct (cell_at df k c).
Qed.

(** ** One turn of each loop *)

Lemma home_loop_step df i ixs acc :
  i < len df -> 1 < shape1 df ->
  home_loop df (i :: ixs) acc
  = if ends_scan df 0 is_home_stop i then Ok acc
    else home_loop df ixs (acc ++ [home_record df i]).
Proof.
  intros Hi Hw. cbn [home_loop].
  rewrite (iat_ok df i 0) by lia. cbn [bind].
  unfold ends_scan, name_of, is_home_stop, home_record, name_of.
  destruct (isna (cell_at df i 0)); [reflexivity|]. cbn [orb].
  destruct (in_set _ home_stop); [reflexivity|].
  rewrite read_planned_ok, read_actual_ok by assumption. reflexivity.
Qed.

Lemma bangalore_loop_step df j js acc :
  j < len df -> 1 < shape1 df ->
  bangalore_loop df (j :: js) acc
  = if ends_scan df 0 is_bangalore_stop j then Ok acc
    else bangalore_loop df js (acc ++ [bangalore_record df j]).
Proof.
  intros Hj Hw. cbn [bangalore_loop].
  rewrite (iat_ok df j 0) by lia. cbn [bind].
  unfold ends_scan, name_of, is_bangalore_stop, bangalore_record, name_of.
  destruct (isna (cell_at df j 0)); [reflexivity|]. cbn [orb].
  destruct (in_set _ bangalore_stop); [reflexivity|].
  rewrite read_planned_ok, read_actual_ok by assumption. reflexivity.
Qed.

Lemma funds_loop_step df k ks acc :
  k < len df -> 7 < shape1 df ->
  funds_loop df (k :: ks) acc
  = if ends_scan df 7 no_stop k then Ok acc
    else if kept_fund df k then funds_loop df ks (acc ++ [fund_record df k])
    else funds_loop df ks acc.
Proof.
  intros Hk Hw. cbn [funds_loop].
  rewrite (iat_ok df k 7) by lia. cbn [bind].
  unfold ends_scan, kept_fund, is_funds_skip, no_stop, fund_record, name_of.
  rewrite orb_false_r.
  destruct (isna (cell_at df k 7)); [reflexivity|].
  destruct (in_set _ funds_skip); [reflexivity|]. cbn [negb].
  rewrite read_amount_ok by assumption. reflexivity.
Qed.

Lemma loans_home_loop_step df k ks acc :
  k < len df -> 10 < shape1 df ->
  loans_home_loop df (k :: ks) acc
  = if ends_scan df 10 is_friends_side k then Ok acc
    else loans_home_loop df ks (acc ++ [loan_record df k]).
Proof.
  intros Hk Hw. cbn [loans_home_loop].
  rewrite (iat_ok df k 10) by lia. cbn [bind].
  unfold ends_scan, is_friends_side, loan_record, name_of.
  destruct (isna (cell_at df k 10)); [reflexivity|]. cbn [orb].
  destruct (startswith _ "friends side"); [reflexivity|].
  rewrite read_amount_ok by assumption. reflexivity.
Qed.

Lemma loans_friends_loop_step df k ks acc :
  k < len df -> 10 < shape1 df ->
  loans_friends_loop df (k :: ks) acc
  = if ends_scan df 10 no_stop k then Ok acc
    else loans_friends_loop df ks (acc ++ [friend_record df k]).
Proof.
  intros Hk Hw. cbn [loans_friends_loop].
  rewrite (iat_ok df k 10) by lia. cbn [bind].
  unfold ends_scan, no_stop, friend_record, name_of.
  rewrite orb_false_r.
  destruct (isna (cell_at df k 10)); [reflexivity|].
  rewrite read_amount_ok by assumption. reflexivity.
Qed.

(** ** A whole scan *)

Lemma home_loop_scanned df ixs acc :
  1 < shape1 df -> Forall (fun i => i < len df) ixs ->
  home_loop df ixs acc
  = Ok (acc ++ map (home_record df) (scanned df 0 is_home_stop ixs)).
Proof.
  intros Hw HF. revert acc.
  induction HF as [|i ixs Hi _ IH]; intros acc.
  - cbn. now rewrite app_nil_r.
  - rewrite home_loop_step by assumption. cbn [scanned].
    destruct (ends_scan df 0 is_home_stop i).
    + cbn. now rewrite app_nil_r.
    + rewrite IH. cbn [map]. now rewrite <- app_assoc.
Qed.

Lemma bangalore_loop_scanned df ixs acc :
  1 < shape1 df -> Forall (fun i => i < len df) ixs ->
  bangalore_loop df ixs acc
  = Ok (acc
        ++ map (bangalore_record df) (scanned df 0 is_bangalore_stop ixs)).
Proof.
  intros Hw HF. revert acc.
  induction HF as [|i ixs Hi _ IH]; intros acc.
  - cbn. now rewrite app_nil_r.
  - rewrite bangalore_loop_step by assumption. cbn [scanned].
    destruct (ends_scan df 0 is_bangalore_stop i).
    + cbn. now rewrite app_nil_r.
    + rewrite IH. cbn [map]. now rewrite <- app_assoc.
Qed.

Lemma funds_loop_scanned df ixs acc :
  7 < shape1 df -> Forall (fun i => i < len df) ixs ->
  funds_loop df ixs acc
  = Ok (acc ++ map (fund_record df)
                 (filter (kept_fund df) (scanned df 7 no_stop ixs))).
Proof.
  intros Hw HF. revert acc.
  induction HF as [|i ixs Hi _ IH]; intros acc.
  - cbn. now rewrite app_nil_r.
  - rewrite funds_loop_step by assumption. cbn [scanned].
    destruct (ends_scan df 7 no_stop i).
    + cbn. now rewrite app_nil_r.
    + cbn [filter]. destruct (kept_fund df i).
      * rewrite IH. cbn [map]. now rewrite <- app_assoc.
      * apply IH.
Qed.

Lemma loans_home_loop_scanned df ixs acc :
  10 < shape1 df -> Forall (fun i => i < len df) ixs ->
  loans_home_loop df ixs acc
  = Ok (acc ++ map (loan_record df) (scanned df 10 is_friends_side ixs)).
Proof.
  intros Hw HF. revert acc.
  induction HF as [|i ixs Hi _ IH]; intros acc.
  - cbn. now rewrite app_nil_r.
  - rewrite loans_home_loop_step by assumption. cbn [scanned].
    destruct (ends_scan df 10 is_friends_side i).
    + cbn. now rewrite app_nil_r.
    + rewrite IH. cbn [map]. now rewrite <- app_assoc.
Qed.

Lemma loans_friends_loop_scanned df ixs acc :
  10 < shape1 df -> Forall (fun i => i < len df) ixs ->
  loans_friends_loop df ixs acc
  = Ok (acc ++ map (friend_record df) (scanned df 10 no_stop ixs)).
Proof.
  intros Hw HF. revert acc.
  induction HF as [|i ixs Hi _ IH]; intros acc.
  - cbn. now rewrite app_nil_r.
  - rewrite loans_friends_loop_step by assumption. cbn [scanned].
    destruct (ends_scan df 10 no_stop i).
    + cbn. now rewrite app_nil_r.
    + rewrite IH. cbn [map]. now rewrite <- app_assoc.
Qed.

(** ** The header search *)

Lemma first_header_find df col test ixs :
  col < shape1 df -> Forall (fun i => i < len df) ixs ->
  first_header df col test ixs = Ok (find (is_header df col test) ixs).
Proof.
  intros Hc HF. induction HF as [|i ixs Hi _ IH]; [reflexivity|].
  cbn [first_header find]. rewrite (iat_ok df i col) by assumption.
  cbn [bind]. unfold is_header at 1.
  destruct (isinstance_str (cell_at df i col) && _); [reflexivity|apply IH].
Qed.

Lemma seq_below a n m : a + n <= m -> Forall (fun i => i < m) (seq a n).
Proof.
  intros H. apply Forall_forall. intros i Hi.
  apply in_seq in Hi. lia.
Qed.

Lemma rows_below_in_frame df h : Forall (fun i => i < len df) (rows_below df h).
Proof.
  unfold rows_below. apply Forall_forall. intros i Hi.
  apply in_seq in Hi. lia.
Qed.

Lemma find_header_ok df col test :
  col < shape1 df -> find_header df col test = Ok (header_row df col test).
Proof.
  intros Hc. unfold find_header, header_row.
  apply first_header_find; [assumption|]. apply seq_below. lia.
Qed.

Lemma find_header_empty df col test :
  len df = 0 -> find_header df col test = Ok None.
Proof. intros H. unfold find_header. now rewrite H. Qed.

Lemma find_seq_first (f : nat -> bool) a n h :
  find f (seq a n) = Some h ->
  a <= h < a + n /\ f h = true /\ forall i, a <= i < h -> f i = false.
Proof.
  revert a. induction n as [|n IH]; intros a; cbn [seq find]; [discriminate|].
  destruct (f a) eqn:Fa.
  - intros [= <-]. repeat split; try lia. assumption.
  - intros H. apply IH in H. destruct H as (Hb & Hh & Hlt).
    repeat split; try lia; [assumption|].
    intros i Hi. destruct (Nat.eq_dec i a) as [->|Hne]; [assumption|].
    apply Hlt. lia.
Qed.

Lemma find_seq_none (f : nat -> bool) a n :
  (forall i, a <= i < a + n -> f i = false) -> find f (seq a n) = None.
Proof.
  revert a. induction n as [|n IH]; intros a H; cbn [seq find]; [reflexivity|].
  rewrite (H a) by lia. apply IH. intros i Hi. apply H. lia.
Qed.

Lemma header_row_first df col test h :
  header_row df col test = Some h ->
  h < len df /\ is_header df col test h = true
  /\ forall i, i < h -> is_header df col test i = false.
Proof.
  unfold header_row. intros H. apply find_seq_first in H.
  destruct H as (Hb & Hh & Hlt). repeat split; try lia; [assumption|].
  intros i Hi. apply Hlt. lia.
Qed.

Lemma header_row_none df col test :
  (forall i, i < len df -> is_header df col test i = false) ->
  header_row df col test = None.
Proof.
  intros H. unfold header_row. apply find_seq_none.
  intros i Hi. apply H. lia.
Qed.

(** ** The sections and the whole parse, in a frame of width 2 or more *)

Lemma home_section_rows df acc :
  1 < shape1 df ->
  home_section df acc = Ok (acc ++ map (home_record df) (home_rows df)).
Proof.
  intros Hw. unfold home_section, find_row_index, home_rows, section_rows.
  rewrite find_header_ok by lia. cbn [bind].
  change (fun s => String.eqb s "home") with (is_keyword "home").
  destruct (header_row df 0 (is_keyword "home")) as [h|].
  - apply home_loop_scanned; [assumption|apply rows_below_in_frame].
  - cbn. now rewrite app_nil_r.
Qed.

Lemma bangalore_section_rows df acc :
  1 < shape1 df ->
  bangalore_section df acc
  = Ok (acc ++ map (bangalore_record df) (bangalore_rows df)).
Proof.
  intros Hw.
  unfold bangalore_section, find_row_index, bangalore_rows, section_rows.
  rewrite find_header_ok by lia. cbn [bind].
  change (fun s => String.eqb s "bangalore") with (is_keyword "bangalore").
  destruct (header_row df 0 (is_keyword "bangalore")) as [h|].
  - apply bangalore_loop_scanned; [assumption|apply rows_below_in_frame].
  - cbn. now rewrite app_nil_r.
Qed.

Lemma funds_section_rows df acc :
  funds_section df acc = Ok (acc ++ map (fund_record df) (fund_rows df)).
Proof.
  unfold funds_section, fund_rows, section_rows.
  destruct (7 <? shape1 df) eqn:Hw; [|cbn; now rewrite app_nil_r].
  apply Nat.ltb_lt in Hw. rewrite find_header_ok by lia. cbn [bind].
  change (fun s => String.eqb s "funds") with (is_keyword "funds").
  destruct (header_row df 7 (is_keyword "funds")) as [h|].
  - apply funds_loop_scanned; [assumption|apply rows_below_in_frame].
  - cbn. now rewrite app_nil_r.
Qed.

Lemma loans_home_section_rows df acc :
  loans_home_section df acc
  = Ok (acc ++ map (loan_record df) (loan_rows df)).
Proof.
  unfold loans_home_section, loan_rows, section_rows.
  destruct (10 <? shape1 df) eqn:Hw; [|cbn; now rewrite app_nil_r].
  apply Nat.ltb_lt in Hw. rewrite find_header_ok by lia. cbn [bind].
  change (fun s => startswith s "loans/interest") with is_loans_header.
  destruct (header_row df 10 is_loans_header) as [h|].
  - apply loans_home_loop_scanned; [assumption|apply rows_below_in_frame].
  - cbn. now rewrite app_nil_r.
Qed.

Lemma loans_friends_section_rows df acc :
  loans_friends_section df acc
  = Ok (acc ++ map (friend_record df) (friend_rows df)).
Proof.
  unfold loans_friends_section, friend_rows, section_rows.
  destruct (10 <? shape1 df) eqn:Hw; [|cbn; now rewrite app_nil_r].
  apply Nat.ltb_lt in Hw. rewrite find_header_ok by lia. cbn [bind].
  change (fun s => startswith s "friends side") with is_friends_side.
  destruct (header_row df 10 is_friends_side) as [h|].
  - apply loans_friends_loop_scanned; [assumption|apply rows_below_in_frame].
  - cbn. now rewrite app_nil_r.
Qed.

(** In a frame with a value column the parser returns, and returns one
    record per scanned row. *)
Lemma parse_month_sheet_records df :
  1 < shape1 df -> parse_month_sheet df = Ok (records_of df).
Proof.
  intros Hw. unfold parse_month_sheet, records_of.
  rewrite home_section_rows by assumption. cbn [bind app].
  rewrite bangalore_section_rows by assumption. cbn [bind].
  rewrite funds_section_rows, loans_home_section_rows,
    loans_friends_section_rows.
  reflexivity.
Qed.

(** ** Two frames read alike *)

Lemma bind_same {A B} (m : result A) (k1 k2 : A -> result B) :
  (forall a, k1 a = k2 a) -> bind m k1 = bind m k2.
Proof. intros H. destruct m; cbn; [apply H|reflexivity]. Qed.

(** Peels the reads and tests that both sides of the goal share. *)
Ltac same_reads :=
  repeat first
    [ reflexivity
    | apply bind_same; intros ?
    | match goal with
      | |- (if ?b then _ else _) = (if ?b then _ else _) => destruct b
      end ].

Section Alike.

Variables (cols : list nat) (df1 df2 : DataFrame number).
Hypothesis same_width : shape1 df1 = shape1 df2.

Lemma alike_tail i ixs :
  reads_alike cols df1 df2 (i :: ixs) -> reads_alike cols df1 df2 ixs.
Proof. intros H j c Hj Hc. apply H; [now right|assumption]. Qed.

Lemma first_header_alike col test ixs :
  In col cols -> reads_alike cols df1 df2 ixs ->
  first_header df1 col test ixs = first_header df2 col test ixs.
Proof.
  intros Hc. induction ixs as [|i ixs IH]; intros H; [reflexivity|].
  cbn [first_header]. rewrite (H i col) by (auto; now left).
  same_reads. apply IH. eapply alike_tail, H.
Qed.

Lemma home_loop_alike ixs acc :
  In 0 cols -> In 1 cols -> In 2 cols -> reads_alike cols df1 df2 ixs ->
  home_loop df1 ixs acc = home_loop df2 ixs acc.
Proof.
  intros H0 H1 H2. revert acc.
  induction ixs as [|i ixs IH]; intros acc H; [reflexivity|].
  cbn [home_loop]. unfold read_planned, read_actual.
  rewrite same_width.
  rewrite (H i 0), (H i 1), (H i 2) by (auto; now left).
  same_reads. apply IH. eapply alike_tail, H.
Qed.

Lemma bangalore_loop_alike ixs acc :
  In 0 cols -> In 1 cols -> In 2 cols -> reads_alike cols df1 df2 ixs ->
  bangalore_loop df1 ixs acc = bangalore_loop df2 ixs acc.
Proof.
  intros H0 H1 H2. revert acc.
  induction ixs as [|i ixs IH]; intros acc H; [reflexivity|].
  cbn [bangalore_loop]. unfold read_planned, read_actual.
  rewrite same_width.
  rewrite (H i 0), (H i 1), (H i 2) by (auto; now left).
  same_reads. apply IH. eapply alike_tail, H.
Qed.

Lemma funds_loop_alike ixs acc :
  In 7 cols -> In 8 cols -> reads_alike cols df1 df2 ixs ->
  funds_loop df1 ixs acc = funds_loop df2 ixs acc.
Proof.
  intros H7 H8. revert acc.
  induction ixs as [|i ixs IH]; intros acc H; [reflexivity|].
  cbn [funds_loop]. unfold read_amount.
  rewrite same_width.
  rewrite (H i 7), (H i 8) by (auto; now left).
  same_reads; apply IH; eapply alike_tail, H.
Qed.

Lemma loans_home_loop_alike ixs acc :
  In 10 cols -> In 11 cols -> reads_alike cols df1 df2 ixs ->
  loans_home_loop df1 ixs acc = loans_home_loop df2 ixs acc.
Proof.
  intros H10 H11. revert acc.
  induction ixs as [|i ixs IH]; intros acc H; [reflexivity|].
  cbn [loans_home_loop]. unfold read_amount.
  rewrite same_width.
  rewrite (H i 10), (H i 11) by (auto; now left).
  same_reads; apply IH; eapply alike_tail, H.
Qed.

Lemma loans_friends_loop_alike ixs acc :
  In 10 cols -> In 11 cols -> reads_alike cols df1 df2 ixs ->
  loans_friends_loop df1 ixs acc = loans_friends_loop df2 ixs acc.
Proof.
  intros H10 H11. revert acc.
  induction ixs as [|i ixs IH]; intros acc H; [reflexivity|].
  cbn [loans_friends_loop]. unfold read_amount.
  rewrite same_width.
  rewrite (H i 10), (H i 11) by (auto; now left).
  same_reads; apply IH; eapply alike_tail, H.
Qed.

End Alike.

(** ** A blank name ends a loop *)

Lemma home_loop_blank df pre b rest acc :
  iat df b 0 = Ok NaN ->
  home_loop df (pre ++ b :: rest) acc = home_loop df pre acc.
Proof.
  intros Hb. revert acc.
  induction pre as [|i pre IH]; intros acc; cbn [app home_loop].
  - now rewrite Hb.
  - same_reads. apply IH.
Qed.

Lemma bangalore_loop_blank df pre b rest acc :
  iat df b 0 = Ok NaN ->
  bangalore_loop df (pre ++ b :: rest) acc = bangalore_loop df pre acc.
Proof.
  intros Hb. revert acc.
  induction pre as [|i pre IH]; intros acc; cbn [app bangalore_loop].
  - now rewrite Hb.
  - same_reads. apply IH.
Qed.

Lemma funds_loop_blank df pre b rest acc :
  iat df b 7 = Ok NaN ->
  funds_loop df (pre ++ b :: rest) acc = funds_loop df pre acc.
Proof.
  intros Hb. revert acc.
  induction pre as [|i pre IH]; intros acc; cbn [app funds_loop].
  - now rewrite Hb.
  - same_reads; apply IH.
Qed.

Lemma loans_home_loop_blank df pre b rest acc :
  iat df b 10 = Ok NaN ->
  loans_home_loop df (pre ++ b :: rest) acc = loans_home_loop df pre acc.
Proof.
  intros Hb. revert acc.
  induction pre as [|i pre IH]; intros acc; cbn [app loans_home_loop].
  - now rewrite Hb.
  - same_reads. apply IH.
Qed.

Lemma loans_friends_loop_blank df pre b rest acc :
  iat df b 10 = Ok NaN ->
  loans_friends_loop df (pre ++ b :: rest) acc
  = loans_friends_loop df pre acc.
Proof.
  intros Hb. revert acc.
  induction pre as [|i pre IH]; intros acc; cbn [app loans_friends_loop].
  - now rewrite Hb.
  - same_reads. apply IH.
Qed.

(** ** The frame cut above a row *)

Lemma len_cut_above b df : b <= len df -> len (cut_above b df) = b.
Proof. intros H. unfold len, cut_above. cbn. now apply firstn_length_le. Qed.

Lemma iat_cut_above b df i c :
  i < b -> b <= len df -> iat (cut_above b df) i c = iat df i c.
Proof.
  intros Hi Hb. unfold iat. rewrite len_cut_above by assumption.
  assert (H1 : (i <? b) = true) by (apply Nat.ltb_lt; lia).
  assert (H2 : (i <? len df) = true) by (apply Nat.ltb_lt; lia).
  rewrite H1, H2. unfold cell_at, cut_above. cbn [rows shape1].
  now rewrite nth_firstn, H1.
Qed.

Lemma rows_below_split df h b :
  h < b < len df ->
  rows_below df h
  = seq (h + 1) (b - (h + 1)) ++ b :: seq (b + 1) (len df - (b + 1)).
Proof.
  intros H. unfold rows_below.
  replace (len df - (h + 1)) with ((b - (h + 1)) + S (len df - (b + 1)))
    by lia.
  rewrite seq_app. cbn [seq]. repeat f_equal; lia.
Qed.

Lemma rows_below_cut_above df h b :
  b <= len df -> rows_below (cut_above b df) h = seq (h + 1) (b - (h + 1)).
Proof. intros H. unfold rows_below. now rewrite len_cut_above. Qed.

Lemma first_header_app df col test l1 l2 :
  first_header df col test (l1 ++ l2)
  = (r <- first_header df col test l1 ;;
     match r with
     | Some h => Ok (Some h)
     | None => first_header df col test l2
     end).
Proof.
  induction l1 as [|i l1 IH]; [reflexivity|].
  cbn [app first_header]. destruct (iat df i col) as [x|e]; [|reflexivity].
  cbn [bind]. now destruct (isinstance_str x && _).
Qed.

Lemma first_header_in df col test l h :
  first_header df col test l = Ok (Some h) -> In h l.
Proof.
  induction l as [|i l IH]; cbn [first_header]; [discriminate|].
  destruct (iat df i col) as [x|e]; [|discriminate]. cbn [bind].
  destruct (isinstance_str x && _).
  - intros [= <-]. now left.
  - intros H. right. now apply IH.
Qed.

Lemma find_header_in_frame df col test h :
  find_header df col test = Ok (Some h) -> h < len df /\ col < shape1 df.
Proof.
  unfold find_header. intros H. split.
  - apply first_header_in, in_seq in H. lia.
  - destruct (len df) as [|n]; [discriminate|].
    cbn [seq first_header] in H.
    destruct (iat df 0 col) as [x|e] eqn:E; [|discriminate].
    now apply iat_inv in E.
Qed.

Lemma find_header_cut_above df col test h b :
  find_header df col test = Ok (Some h) -> h < b -> b <= len df ->
  find_header (cut_above b df) col test = Ok (Some h).
Proof.
  unfold find_header. intros H Hh Hb. rewrite len_cut_above by assumption.
  rewrite (first_header_alike [col] (cut_above b df) df col test (seq 0 b)).
  2: now left.
  2: { intros i c Hi _. apply in_seq in Hi. apply iat_cut_above; lia. }
  replace (len df) with (b + (len df - b)) in H by lia.
  rewrite seq_app, first_header_app in H.
  destruct (first_header df col test (seq 0 b)) as [[h'|]|e];
    cbn [bind] in H; try discriminate.
  - assumption.
  - apply first_header_in, in_seq in H. lia.
Qed.

Lemma home_section_cut_above df h b acc :
  find_row_index df 0 "home" = Ok (Some h) ->
  h < b < len df -> iat df b 0 = Ok NaN ->
  home_section df acc = home_section (cut_above b df) acc.
Proof.
  intros Hh Hb Hna. unfold home_section, find_row_index in *.
  rewrite (find_header_cut_above df _ _ h b), Hh by (assumption || lia).
  cbn [bind]. rewrite rows_below_cut_above by lia.
  rewrite (rows_below_split df h b) by assumption.
  rewrite home_loop_blank by assumption. symmetry.
  apply (home_loop_alike [0; 1; 2]); cbn [cut_above shape1 In]; auto.
  intros i c Hi _. apply in_seq in Hi. apply iat_cut_above; lia.
Qed.

Lemma bangalore_section_cut_above df h b acc :
  find_row_index df 0 "bangalore" = Ok (Some h) ->
  h < b < len df -> iat df b 0 = Ok NaN ->
  bangalore_section df acc = bangalore_section (cut_above b df) acc.
Proof.
  intros Hh Hb Hna. unfold bangalore_section, find_row_index in *.
  rewrite (find_header_cut_above df _ _ h b), Hh by (assumption || lia).
  cbn [bind]. rewrite rows_below_cut_above by lia.
  rewrite (rows_below_split df h b) by assumption.
  rewrite bangalore_loop_blank by assumption. symmetry.
  apply (bangalore_loop_alike [0; 1; 2]); cbn [cut_above shape1 In]; auto.
  intros i c Hi _. apply in_seq in Hi. apply iat_cut_above; lia.
Qed.

Lemma funds_section_cut_above df h b acc :
  find_header df 7 (fun s => String.eqb s "funds") = Ok (Some h) ->
  h < b < len df -> iat df b 7 = Ok NaN ->
  funds_section df acc = funds_section (cut_above b df) acc.
Proof.
  intros Hh Hb Hna. unfold funds_section.
  cbn [cut_above shape1]. destruct (7 <? shape1 df); [|reflexivity].
  rewrite (find_header_cut_above df _ _ h b), Hh by (assumption || lia).
  cbn [bind]. rewrite rows_below_cut_above by lia.
  rewrite (rows_below_split df h b) by assumption.
  rewrite funds_loop_blank by assumption. symmetry.
  apply (funds_loop_alike [7; 8]); cbn [cut_above shape1 In]; auto.
  intros i c Hi _. apply in_seq in Hi. apply iat_cut_above; lia.
Qed.

Lemma loans_home_section_cut_above df h b acc :
  find_header df 10 (fun s => startswith s "loans/interest") = Ok (Some h) ->
  h < b < len df -> iat df b 10 = Ok NaN ->
  loans_home_section df acc = loans_home_section (cut_above b df) acc.
Proof.
  intros Hh Hb Hna. unfold loans_home_section.
  cbn [cut_above shape1]. destruct (10 <? shape1 df); [|reflexivity].
  rewrite (find_header_cut_above df _ _ h b), Hh by (assumption || lia).
  cbn [bind]. rewrite rows_below_cut_above by lia.
  rewrite (rows_below_split df h b) by assumption.
  rewrite loans_home_loop_blank by assumption. symmetry.
  apply (loans_home_loop_alike [10; 11]); cbn [cut_above shape1 In]; auto.
  intros i c Hi _. apply in_seq in Hi. apply iat_cut_above; lia.
Qed.

Lemma loans_friends_section_cut_above df h b acc :
  find_header df 10 (fun s => startswith s "friends side") = Ok (Some h) ->
  h < b < len df -> iat df b 10 = Ok NaN ->
  loans_friends_section df acc = loans_friends_section (cut_above b df) acc.
Proof.
  intros Hh Hb Hna. unfold loans_friends_section.
  cbn [cut_above shape1]. destruct (10 <? shape1 df); [|reflexivity].
  rewrite (find_header_cut_above df _ _ h b), Hh by (assumption || lia).
  cbn [bind]. rewrite rows_below_cut_above by lia.
  rewrite (rows_below_split df h b) by assumption.
  rewrite loans_friends_loop_blank by assumption. symmetry.
  apply (loans_friends_loop_alike [10; 11]); cbn [cut_above shape1 In]; auto.
  intros i c Hi _. apply in_seq in Hi. apply iat_cut_above; lia.
Qed.

(** ** Frames that agree on the parser's columns *)

Lemma agree_on_iat cols df1 df2 :
  agree_on cols df1 df2 ->
  forall i c, In c cols -> iat df1 i c = iat df2 i c.
Proof.
  intros (Hl & Hs & Hc) i c Hin. unfold iat. rewrite <- Hl, <- Hs.
  destruct (i <? len df1) eqn:Hi; [|reflexivity].
  destruct (c <? shape1 df1) eqn:Hw; [|reflexivity].
  cbn. f_equal. apply Nat.ltb_lt in Hi, Hw. now apply Hc.
Qed.

Lemma find_header_agree cols df1 df2 col test :
  agree_on cols df1 df2 -> In col cols ->
  find_header df1 col test = find_header df2 col test.
Proof.
  intros H Hin. unfold find_header.
  destruct H as (Hl & Hs & Hc) eqn:E. rewrite <- Hl.
  apply (first_header_alike cols); [assumption|].
  intros i c _ Hc'. now apply (agree_on_iat cols).
Qed.

Lemma rows_below_agree cols df1 df2 h :
  agree_on cols df1 df2 -> rows_below df1 h = rows_below df2 h.
Proof. intros (Hl & _). unfold rows_below. now rewrite Hl. Qed.

Ltac parser_column := unfold parser_columns; cbn [In]; tauto.

Lemma home_section_agree df1 df2 acc :
  agree_on parser_columns df1 df2 ->
  home_section df1 acc = home_section df2 acc.
Proof.
  intros H. unfold home_section, find_row_index.
  rewrite (find_header_agree parser_columns df1 df2) by
    (assumption || parser_column).
  apply bind_same. intros [h|]; [|reflexivity].
  rewrite (rows_below_agree parser_columns df1 df2) by assumption.
  apply (home_loop_alike parser_columns);
    try parser_column; [apply H|].
  intros i c _ Hc. now apply (agree_on_iat parser_columns).
Qed.

Lemma bangalore_section_agree df1 df2 acc :
  agree_on parser_columns df1 df2 ->
  bangalore_section df1 acc = bangalore_section df2 acc.
Proof.
  intros H. unfold bangalore_section, find_row_index.
  rewrite (find_header_agree parser_columns df1 df2) by
    (assumption || parser_column).
  apply bind_same. intros [h|]; [|reflexivity].
  rewrite (rows_below_agree parser_columns df1 df2) by assumption.
  apply (bangalore_loop_alike parser_columns);
    try parser_column; [apply H|].
  intros i c _ Hc. now apply (agree_on_iat parser_columns).
Qed.

Lemma funds_section_agree df1 df2 acc :
  agree_on parser_columns df1 df2 ->
  funds_section df1 acc = funds_section df2 acc.
Proof.
  intros H. unfold funds_section.
  rewrite (find_header_agree parser_columns df1 df2) by
    (assumption || parser_column).
  replace (shape1 df1) with (shape1 df2) by (symmetry; apply H).
  destruct (7 <? shape1 df2); [|reflexivity].
  apply bind_same. intros [h|]; [|reflexivity].
  rewrite (rows_below_agree parser_columns df1 df2) by assumption.
  apply (funds_loop_alike parser_columns);
    try parser_column; [apply H|].
  intros i c _ Hc. now apply (agree_on_iat parser_columns).
Qed.

Lemma loans_home_section_agree df1 df2 acc :
  agree_on parser_columns df1 df2 ->
  loans_home_section df1 acc = loans_home_section df2 acc.
Proof.
  intros H. unfold loans_home_section.
  rewrite (find_header_agree parser_columns df1 df2) by
    (assumption || parser_column).
  replace (shape1 df1) with (shape1 df2) by (symmetry; apply H).
  destruct (10 <? shape1 df2); [|reflexivity].
  apply bind_same. intros [h|]; [|reflexivity].
  rewrite (rows_below_agree parser_columns df1 df2) by assumption.
  apply (loans_home_loop_alike parser_columns);
    try parser_column; [apply H|].
  intros i c _ Hc. now apply (agree_on_iat parser_columns).
Qed.

Lemma loans_friends_section_agree df1 df2 acc :
  agree_on parser_columns df1 df2 ->
  loans_friends_section df1 acc = loans_friends_section df2 acc.
Proof.
  intros H. unfold loans_friends_section.
  rewrite (find_header_agree parser_columns df1 df2) by
    (assumption || parser_column).
  replace (shape1 df1) with (shape1 df2) by (symmetry; apply H).
  destruct (10 <? shape1 df2); [|reflexivity].
  apply bind_same. intros [h|]; [|reflexivity].
  rewrite (rows_below_agree parser_columns df1 df2) by assumption.
  apply (loans_friends_loop_alike parser_columns);
    try parser_column; [apply H|].
  intros i c _ Hc. now apply (agree_on_iat parser_columns).
Qed.

(** ** The aggregation *)

Lemma append_each_map {A B} (row : A -> B) xs rows :
  append_each row xs rows = rows ++ map row xs.
Proof.
  unfold append_each. revert rows.
  induction xs as [|x xs IH]; intros rows; cbn [fold_left map].
  - now rewrite app_nil_r.
  - rewrite IH. now rewrite <- app_assoc.
Qed.

Lemma sheet_step_tagged c f l r name df :
  sheet_step (c, f, l, r) (name, df)
  = (p <- parse_month_sheet df ;;
     let '(categories, funds, loans_home, loans_friends) := p in
     Ok (c ++ map (tag_category name) categories,
         f ++ map (tag_fund name) funds,
         l ++ map (tag_loan name) loans_home,
         r ++ map (tag_friend name) loans_friends)).
Proof.
  unfold sheet_step. apply bind_same. intros [[[cs fs] ls] rs].
  now rewrite !append_each_map.
Qed.

Lemma sheets_loop_tagged sheets c f l r :
  sheets_loop sheets (c, f, l, r)
  = (ps <- parse_all sheets ;;
     Ok (c ++ flat_map (fun '(name, (c, _, _, _)) =>
                          map (tag_category name) c) ps,
         f ++ flat_map (fun '(name, (_, f, _, _)) =>
                          map (tag_fund name) f) ps,
         l ++ flat_map (fun '(name, (_, _, l, _)) =>
                          map (tag_loan name) l) ps,
         r ++ flat_map (fun '(name, (_, _, _, l)) =>
                          map (tag_friend name) l) ps)).
Proof.
  revert c f l r.
  induction sheets as [|[name df] sheets IH]; intros c f l r.
  - cbn. now rewrite !app_nil_r.
  - cbn [sheets_loop parse_all]. rewrite sheet_step_tagged.
    destruct (parse_month_sheet df) as [[[[cs fs] ls] rs]|e];
      [|reflexivity].
    cbn [bind]. rewrite IH.
    destruct (parse_all sheets) as [ps|e]; [|reflexivity].
    cbn [bind flat_map]. now rewrite <- !app_assoc.
Qed.

(** ** Keyword rows *)

Lemma first_header_hit df col test l h :
  first_header df col test l = Ok (Some h) ->
  exists s, iat df h col = Ok (Text s) /\ test (lower (strip s)) = true.
Proof.
  induction l as [|i l IH]; cbn [first_header]; [discriminate|].
  destruct (iat df i col) as [x|e] eqn:E; [|discriminate]. cbn [bind].
  destruct x as [s| |]; cbn [isinstance_str andb str]; try exact IH.
  destruct (test (lower (strip s))) eqn:T; [|exact IH].
  intros [= <-]. now exists s.
Qed.

Lemma funds_loop_skip df k ks funds x :
  iat df k 7 = Ok x -> isna x = false ->
  lower (strip (str x)) = "planned payments"
  \/ lower (strip (str x)) = "salary" ->
  funds_loop df (k :: ks) funds = funds_loop df ks funds.
Proof.
  intros Hx Hna Hkw. cbn [funds_loop]. rewrite Hx. cbn [bind].
  rewrite Hna. now destruct Hkw as [-> | ->].
Qed.

Lemma home_loop_at_bangalore df g ixs acc :
  find_row_index df 0 "bangalore" = Ok (Some g) ->
  home_loop df (g :: ixs) acc = Ok acc.
Proof.
  intros Hg. apply first_header_hit in Hg. destruct Hg as (s & Hs & Hkw).
  apply String.eqb_eq in Hkw.
  cbn [home_loop]. rewrite Hs. cbn [bind isna str]. now rewrite Hkw.
Qed.

Lemma home_loop_cut df pre b rest acc :
  (forall acc', home_loop df (b :: rest) acc' = Ok acc') ->
  home_loop df (pre ++ b :: rest) acc = home_loop df pre acc.
Proof.
  intros Hb. revert acc.
  induction pre as [|i pre IH]; intros acc.
  - apply Hb.
  - cbn [app home_loop]. same_reads. apply IH.
Qed.

Lemma home_section_up_to_bangalore df h g acc :
  find_row_index df 0 "home" = Ok (Some h) ->
  find_row_index df 0 "bangalore" = Ok (Some g) -> h < g ->
  home_section df acc = home_loop df (seq (h + 1) (g - (h + 1))) acc.
Proof.
  intros Hh Hg Hlt. unfold home_section. rewrite Hh. cbn [bind].
  assert (Hin : g < len df) by (apply (find_header_in_frame _ _ _ _ Hg)).
  rewrite (rows_below_split df h g) by lia.
  apply home_loop_cut. intros acc'. now apply home_loop_at_bangalore.
Qed.

Lemma bangalore_loop_prefixed df ixs acc out :
  bangalore_loop df ixs acc = Ok out ->
  exists new, out = acc ++ new
    /\ Forall (fun r => exists j, In j ixs
         /\ Category r = ("Bangalore - " ++ name_of df j 0)%string) new.
Proof.
  revert acc. induction ixs as [|j js IH]; intros acc; cbn [bangalore_loop].
  - intros [= <-]. exists []. now rewrite app_nil_r.
  - destruct (iat df j 0) as [x|e] eqn:E; [|discriminate]. cbn [bind].
    destruct (isna x); [intros [= <-]; exists []; now rewrite app_nil_r|].
    destruct (in_set _ bangalore_stop);
      [intros [= <-]; exists []; now rewrite app_nil_r|].
    destruct (read_planned df j) as [p|e]; [|discriminate]. cbn [bind].
    destruct (read_actual df j) as [a|e]; [|discriminate]. cbn [bind].
    intros H. apply IH in H. destruct H as (new & -> & HF).
    exists (mkCategory ("Bangalore - " ++ strip (str x))%string p a :: new).
    split; [now rewrite <- app_assoc|].
    constructor.
    + exists j. split; [now left|]. cbn [Category]. unfold name_of.
      apply iat_inv in E. now destruct E as (_ & _ & ->).
    + eapply Forall_impl; [|exact HF].
      intros r (j' & Hj' & Hr). exists j'. split; [now right|assumption].
Qed.

Lemma bangalore_section_prefixed df acc out :
  bangalore_section df acc = Ok out ->
  exists new, out = acc ++ new
    /\ Forall (fun r => exists j, j < len df
         /\ Category r = ("Bangalore - " ++ name_of df j 0)%string) new.
Proof.
  unfold bangalore_section.
  destruct (find_row_index df 0 "bangalore") as [[g|]|e]; cbn [bind];
    try discriminate.
  - intros H. apply bangalore_loop_prefixed in H.
    destruct H as (new & -> & HF). exists new. split; [reflexivity|].
    eapply Forall_impl; [|exact HF].
    intros r (j & Hj & Hr). exists j. split; [|assumption].
    pose proof (rows_below_in_frame df g) as HB.
    rewrite Forall_forall in HB. now apply HB.
  - intros [= <-]. exists []. now rewrite app_nil_r.
Qed.

Lemma scanned_seq df col stop a n :
  exists e, a <= e <= a + n
    /\ scanned df col stop (seq a n) = seq a (e - a)
    /\ (forall i, a <= i < e -> ends_scan df col stop i = false)
    /\ (e < a + n -> ends_scan df col stop e = true).
Proof.
  revert a. induction n as [|n IH]; intros a.
  - exists a. rewrite Nat.sub_diag. cbn. repeat split; intros; lia.
  - cbn [seq scanned]. destruct (ends_scan df col stop a) eqn:Ea.
    + exists a. rewrite Nat.sub_diag. cbn.
      repeat split; intros; try lia. assumption.
    + destruct (IH (S a)) as (e & He & Hs & Hlt & Hend).
      exists e. repeat split; try lia.
      * rewrite Hs. replace (e - a) with (S (e - S a)) by lia. reflexivity.
      * intros i Hi. destruct (Nat.eq_dec i a) as [->|Hne]; [assumption|].
        apply Hlt. lia.
      * intros H. apply Hend. lia.
Qed.

Lemma section_rows_run df col test stop h :
  header_row df col test = Some h ->
  exists e, h < e <= len df
    /\ section_rows df col test stop = seq (h + 1) (e - (h + 1))
    /\ (forall i, h < i < e -> ends_scan df col stop i = false)
    /\ (e < len df -> ends_scan df col stop e = true).
Proof.
  intros Hh. unfold section_rows, rows_below. rewrite Hh.
  apply header_row_first in Hh. destruct Hh as (Hlt & _).
  destruct (scanned_seq df col stop (h + 1) (len df - (h + 1)))
    as (e & He & Hs & Hno & Hend).
  exists e. repeat split; try lia.
  - assumption.
  - intros i Hi. apply Hno. lia.
  - intros H. apply Hend. lia.
Qed.

Lemma Forall2_map_right {A B} (P : A -> B -> Prop) (f : A -> B) l :
  (forall a, P a (f a)) -> Forall2 P l (map f l).
Proof. intros H. induction l; cbn; constructor; auto. Qed.

Lemma find_header_none df col test :
  col < shape1 df \/ len df = 0 ->
  (forall i, i < len df -> is_header df col test i = false) ->
  find_header df col test = Ok None.
Proof.
  intros [Hc|He] H.
  - rewrite find_header_ok by assumption. now rewrite header_row_none.
  - now apply find_header_empty.
Qed.

(** Without any header, a frame that has a column (or no row) parses to
    four empty lists. *)
Lemma no_header_no_record df :
  0 < shape1 df \/ len df = 0 ->
  (forall i, i < len df ->
     is_header df 0 (is_keyword "home") i = false
     /\ is_header df 0 (is_keyword "bangalore") i = false
     /\ is_header df 7 (is_keyword "funds") i = false
     /\ is_header df 10 is_loans_header i = false
     /\ is_header df 10 is_friends_side i = false) ->
  parse_month_sheet df = Ok ([], [], [], []).
Proof.
  intros Hw H.
  unfold parse_month_sheet, home_section, bangalore_section, funds_section,
    loans_home_section, loans_friends_section, find_row_index.
  rewrite (find_header_none df 0 (fun s => String.eqb s "home"))
    by (assumption || (intros i Hi; apply (H i Hi))).
  cbn [bind].
  rewrite (find_header_none df 0 (fun s => String.eqb s "bangalore"))
    by (assumption || (intros i Hi; apply (H i Hi))).
  cbn [bind].
  destruct (7 <? shape1 df) eqn:H7.
  - apply Nat.ltb_lt in H7.
    rewrite (find_header_none df 7 (fun s => String.eqb s "funds"))
      by ((now left) || (intros i Hi; apply (H i Hi))).
    cbn [bind].
    destruct (10 <? shape1 df) eqn:H10; [|reflexivity].
    apply Nat.ltb_lt in H10.
    rewrite (find_header_none df 10 (fun s => startswith s "loans/interest"))
      by ((now left) || (intros i Hi; apply (H i Hi))).
    rewrite (find_header_none df 10 (fun s => startswith s "friends side"))
      by ((now left) || (intros i Hi; apply (H i Hi))).
    reflexivity.
  - apply Nat.ltb_ge in H7.
    assert (H10 : (10 <? shape1 df) = false) by (apply Nat.ltb_ge; lia).
    now rewrite H10.
Qed.

(** ** Frames with fewer than two columns *)

Lemma read_planned_no_column df i :
  shape1 df <= 1 -> read_planned df i = Raise IndexError.
Proof.
  intros Hw. unfold read_planned. now rewrite iat_no_column by assumption.
Qed.

Lemma home_loop_one_column df ixs acc :
  shape1 df = 1 -> Forall (fun i => i < len df) ixs ->
  home_loop df ixs acc
  = match scanned df 0 is_home_stop ixs with
    | [] => Ok acc
    | _ :: _ => Raise IndexError
    end.
Proof.
  intros Hw HF. destruct HF as [|i ixs Hi _]; [reflexivity|].
  cbn [home_loop scanned]. rewrite (iat_ok df i 0) by lia. cbn [bind].
  unfold ends_scan, name_of, is_home_stop.
  destruct (isna (cell_at df i 0)); [reflexivity|]. cbn [orb].
  destruct (in_set _ home_stop); [reflexivity|].
  now rewrite read_planned_no_column by lia.
Qed.

Lemma bangalore_loop_one_column df ixs acc :
  shape1 df = 1 -> Forall (fun i => i < len df) ixs ->
  bangalore_loop df ixs acc
  = match scanned df 0 is_bangalore_stop ixs with
    | [] => Ok acc
    | _ :: _ => Raise IndexError
    end.
Proof.
  intros Hw HF. destruct HF as [|i ixs Hi _]; [reflexivity|].
  cbn [bangalore_loop scanned]. rewrite (iat_ok df i 0) by lia. cbn [bind].
  unfold ends_scan, name_of, is_bangalore_stop.
  destruct (isna (cell_at df i 0)); [reflexivity|]. cbn [orb].
  destruct (in_set _ bangalore_stop); [reflexivity|].
  now rewrite read_planned_no_column by lia.
Qed.

(** With one column the parser returns only when no category row is
    scanned. *)
Lemma parse_month_sheet_one_column df :
  shape1 df = 1 ->
  parse_month_sheet df
  = match home_rows df, bangalore_rows df with
    | [], [] => Ok ([], [], [], [])
    | _, _ => Raise IndexError
    end.
Proof.
  intros Hw.
  unfold parse_month_sheet, home_section, bangalore_section, funds_section,
    loans_home_section, loans_friends_section, find_row_index,
    home_rows, bangalore_rows, section_rows.
  rewrite !find_header_ok by lia. rewrite Hw. cbn [bind Nat.ltb Nat.leb].
  change (fun s => String.eqb s "home") with (is_keyword "home").
  change (fun s => String.eqb s "bangalore") with (is_keyword "bangalore").
  assert (Hhome : forall acc,
    match header_row df 0 (is_keyword "home") with
    | Some start => home_loop df (rows_below df start) acc
    | None => Ok acc
    end
    = match
        match header_row df 0 (is_keyword "home") with
        | Some h => scanned df 0 is_home_stop (rows_below df h)
        | None => []
        end
      with
      | [] => Ok acc
      | _ :: _ => Raise IndexError
      end).
  { intros acc. destruct (header_row df 0 (is_keyword "home")) as [h|];
      [|reflexivity].
    apply home_loop_one_column; [assumption|apply rows_below_in_frame]. }
  assert (Hbang : forall acc,
    match header_row df 0 (is_keyword "bangalore") with
    | Some start => bangalore_loop df (rows_below df start) acc
    | None => Ok acc
    end
    = match
        match header_row df 0 (is_keyword "bangalore") with
        | Some h => scanned df 0 is_bangalore_stop (rows_below df h)
        | None => []
        end
      with
      | [] => Ok acc
      | _ :: _ => Raise IndexError
      end).
  { intros acc. destruct (header_row df 0 (is_keyword "bangalore")) as [h|];
      [|reflexivity].
    apply bangalore_loop_one_column; [assumption|apply rows_below_in_frame]. }
  rewrite Hhome.
  destruct (match header_row df 0 (is_keyword "home") with
            | Some h => scanned df 0 is_home_stop (rows_below df h)
            | None => []
            end); [|reflexivity].
  cbn [bind]. rewrite Hbang.
  now destruct (match header_row df 0 (is_keyword "bangalore") with
                | Some h => scanned df 0 is_bangalore_stop (rows_below df h)
                | None => []
                end).
Qed.

(** With no column the parser returns only on the frame without rows. *)
Lemma parse_month_sheet_no_column df :
  shape1 df = 0 ->
  parse_month_sheet df
  = if len df =? 0 then Ok ([], [], [], []) else Raise IndexError.
Proof.
  intros Hw.
  unfold parse_month_sheet, home_section, bangalore_section, funds_section,
    loans_home_section, loans_friends_section, find_row_index, find_header.
  rewrite Hw. destruct (len df) as [|n]; [reflexivity|].
  cbn [seq first_header Nat.eqb]. now rewrite iat_no_column by lia.
Qed.

(** Whatever the width, a parse that returns gives one record per
    scanned row. *)
Lemma parse_month_sheet_ok_records df p :
  parse_month_sheet df = Ok p -> p = records_of df.
Proof.
  intros H.
  destruct (shape1 df) as [|[|w]] eqn:Hw.
  - rewrite parse_month_sheet_no_column in H by assumption.
    destruct (len df =? 0) eqn:Hl; [|discriminate].
    apply Nat.eqb_eq in Hl. injection H as <-.
    unfold records_of, home_rows, bangalore_rows, fund_rows, loan_rows,
      friend_rows, section_rows, header_row.
    now rewrite Hl, Hw.
  - rewrite parse_month_sheet_one_column in H by assumption.
    unfold records_of, fund_rows, loan_rows, friend_rows. rewrite Hw.
    destruct (home_rows df); [|discriminate].
    destruct (bangalore_rows df); [|discriminate].
    now injection H as <-.
  - rewrite parse_month_sheet_records in H by lia. now injection H.
Qed.

(** The parser raises exactly on the frames with rows and no column, and
    on the frames of one column with a scanned category row. *)
Lemma parse_month_sheet_raises_iff df :
  parse_month_sheet df = Raise IndexError
  <-> (shape1 df = 0 /\ 0 < len df)
      \/ (shape1 df = 1 /\ (home_rows df <> [] \/ bangalore_rows df <> [])).
Proof.
  destruct (shape1 df) as [|[|w]] eqn:Hw.
  - rewrite parse_month_sheet_no_column by assumption.
    destruct (len df) as [|n]; cbn [Nat.eqb]; split.
    + discriminate.
    + intros [[_ H]|[H _]]; [lia|discriminate].
    + intros _. left. split; [reflexivity|lia].
    + reflexivity.
  - rewrite parse_month_sheet_one_column by assumption.
    destruct (home_rows df) as [|i l]; [destruct (bangalore_rows df)|];
      split; try discriminate; try reflexivity.
    + intros [[H _]|[_ [H|H]]]; [discriminate|now elim H|now elim H].
    + intros _. right. split; [reflexivity|]. right. discriminate.
    + intros _. right. split; [reflexivity|]. left. discriminate.
  - rewrite parse_month_sheet_records by lia. split; [discriminate|].
    intros [[H _]|[H _]]; discriminate.
Qed.

(* ================================================================= *)
(** * The claims that hold of every frame *)

(** The text cells of the value columns, in general: in a frame that has
    a value column (width 2 or more) the parser returns, with one record
    per scanned row of each section, in row order, each under the trimmed
    name of its row (behind "Bangalore - " in the secondary section).
    Where the Actual cell of a category row is text, the Actual field is
    [None] (line 73 tests [isinstance(actual_cell, str)]); where the
    Planned cell of a category row, the amount cell of a fund row or the
    outstanding cell of a loan row is text, the field holds that text
    (lines 70, 93, 123, 144 and 163 test [pd.isna] only). *)
Lemma text_cells_by_column df :
  1 < shape1 df ->
  exists ch cb fu lh lf,
    parse_month_sheet df = Ok (ch ++ cb, fu, lh, lf)
    /\ Forall2 (fun i r =>
         Category r = name_of df i 0
         /\ (forall s, iat df i 2 = Ok (Text s) -> Actual r = None)
         /\ (forall s, iat df i 1 = Ok (Text s) -> Planned r = Some (Text s)))
       (home_rows df) ch
    /\ Forall2 (fun i r =>
         Category r = ("Bangalore - " ++ name_of df i 0)%string
         /\ (forall s, iat df i 2 = Ok (Text s) -> Actual r = None)
         /\ (forall s, iat df i 1 = Ok (Text s) -> Planned r = Some (Text s)))
       (bangalore_rows df) cb
    /\ Forall2 (fun k r =>
         Fund r = name_of df k 7
         /\ (forall s, iat df k 8 = Ok (Text s) -> Amount r = Some (Text s)))
       (fund_rows df) fu
    /\ Forall2 (fun k r =>
         Loan r = name_of df k 10
         /\ (forall s, iat df k 11 = Ok (Text s) ->
               Loan_Outstanding r = Some (Text s)))
       (loan_rows df) lh
    /\ Forall2 (fun k r =>
         Friend r = name_of df k 10
         /\ (forall s, iat df k 11 = Ok (Text s) ->
               Friend_Outstanding r = Some (Text s)))
       (friend_rows df) lf.
Proof.
  intros Hw.
  exists (map (home_record df) (home_rows df)),
         (map (bangalore_record df) (bangalore_rows df)),
         (map (fund_record df) (fund_rows df)),
         (map (loan_record df) (loan_rows df)),
         (map (friend_record df) (friend_rows df)).
  split; [now apply parse_month_sheet_records|].
  repeat split; apply Forall2_map_right; intros i;
    repeat split; intros s Hs; apply iat_inv in Hs;
    destruct Hs as (_ & Hc & Hs); apply Nat.ltb_lt in Hc;
    cbn [home_record bangalore_record fund_record loan_record friend_record
         Actual Planned Amount Loan_Outstanding Friend_Outstanding];
    rewrite <- Hs; try rewrite Hc; reflexivity.
Qed.

(** C4: in each of the five section scans, a blank name cell in a row [b]
    below the section's header ends the scan there: the section yields
    exactly what it yields on the frame cut just above row [b], whatever
    the rows at and after [b] hold. *)
Theorem blank_name_ends_scan df h b :
  h < b < len df ->
  (find_row_index df 0 "home" = Ok (Some h) -> iat df b 0 = Ok NaN ->
   forall acc, home_section df acc = home_section (cut_above b df) acc)
  /\ (find_row_index df 0 "bangalore" = Ok (Some h) ->
      iat df b 0 = Ok NaN ->
      forall acc,
        bangalore_section df acc = bangalore_section (cut_above b df) acc)
  /\ (find_header df 7 (fun s => String.eqb s "funds") = Ok (Some h) ->
      iat df b 7 = Ok NaN ->
      forall acc, funds_section df acc = funds_section (cut_above b df) acc)
  /\ (find_header df 10 (fun s => startswith s "loans/interest")
      = Ok (Some h) ->
      iat df b 10 = Ok NaN ->
      forall acc,
        loans_home_section df acc = loans_home_section (cut_above b df) acc)
  /\ (find_header df 10 (fun s => startswith s "friends side")
      = Ok (Some h) ->
      iat df b 10 = Ok NaN ->
      forall acc,
        loans_friends_section df acc
        = loans_friends_section (cut_above b df) acc).
Proof.
  intros Hb. repeat split; intros Hh Hna acc.
  - now apply (home_section_cut_above df h b).
  - now apply (bangalore_section_cut_above df h b).
  - now apply (funds_section_cut_above df h b).
  - now apply (loans_home_section_cut_above df h b).
  - now apply (loans_friends_section_cut_above df h b).
Qed.

(** C8: for every ordered sequence of named sheets, [load_workbook]
    returns what the specification's aggregation returns: each table is
    the concatenation, in sheet order, of the sheets' parse results, every
    record tagged with its sheet's name as Month (and a parse that raises
    makes the whole load raise).  For three sheets A, B, C that parse, the
    tables are the rows of A tagged with A's name, then those of B, then
    those of C. *)
Theorem load_workbook_order :
  (forall sheets, load_workbook sheets = aggregate_spec sheets)
  /\ (forall a b c (A B C : DataFrame number)
        ca fa la ra cb fb lb rb cc fc lc rc,
       parse_month_sheet A = Ok (ca, fa, la, ra) ->
       parse_month_sheet B = Ok (cb, fb, lb, rb) ->
       parse_month_sheet C = Ok (cc, fc, lc, rc) ->
       load_workbook [(a, A); (b, B); (c, C)]
       = Ok (map (tag_category a) ca ++ map (tag_category b) cb
               ++ map (tag_category c) cc,
             map (tag_fund a) fa ++ map (tag_fund b) fb
               ++ map (tag_fund c) fc,
             map (tag_loan a) la ++ map (tag_loan b) lb
               ++ map (tag_loan c) lc,
             map (tag_friend a) ra ++ map (tag_friend b) rb
               ++ map (tag_friend c) rc)).
Proof.
  assert (G : forall sheets, load_workbook sheets = aggregate_spec sheets).
  { intros sheets. unfold load_workbook, aggregate_spec.
    now rewrite sheets_loop_tagged. }
  split; [exact G|].
  intros a b c A B C ca fa la ra cb fb lb rb cc fc lc rc HA HB HC.
  rewrite G. unfold aggregate_spec. cbn [parse_all].
  rewrite HA, HB, HC. cbn [bind flat_map]. now rewrite !app_nil_r.
Qed.

(** C10: two frames with the same number of rows and of columns that
    agree on every cell of columns 0, 1, 2, 7, 8, 10 and 11 parse alike:
    the same four lists, or the same exception. *)
Theorem parse_column_locality df1 df2 :
  len df1 = len df2 -> shape1 df1 = shape1 df2 ->
  (forall i c, i < len df1 -> c < shape1 df1 ->
     In c [0; 1; 2; 7; 8; 10; 11] -> cell_at df1 i c = cell_at df2 i c) ->
  parse_month_sheet df1 = parse_month_sheet df2.
Proof.
  intros Hl Hs Hc.
  assert (H : agree_on parser_columns df1 df2) by (repeat split; assumption).
  unfold parse_month_sheet.
  rewrite (home_section_agree df1 df2) by assumption.
  apply bind_same. intros categories.
  rewrite (bangalore_section_agree df1 df2) by assumption.
  apply bind_same. intros categories'.
  rewrite (funds_section_agree df1 df2) by assumption.
  apply bind_same. intros funds.
  rewrite (loans_home_section_agree df1 df2) by assumption.
  apply bind_same. intros loans_home.
  now rewrite (loans_friends_section_agree df1 df2) by assumption.
Qed.

End Properties.

(* ================================================================= *)
(** * The scenarios, and the claims with a scenario *)

(** C1 (fails on the code): on the frame of one column that holds 'home'
    above the name 'Rent', [parse_month_sheet] raises [IndexError]
    instead of returning four collections: the Planned cell of the row is
    read from column 1 without asking whether the frame has one. *)
Theorem parse_month_sheet_one_column_raises :
  shape1 df_narrow_home = 1
  /\ iat df_narrow_home 0 0 = Ok (Text "home")
  /\ iat df_narrow_home 1 0 = Ok (Text "Rent")
  /\ parse_month_sheet df_narrow_home = Raise IndexError.
Proof. repeat split. Qed.

(** A frame built by hand with a row and no column, which no sheet read
    from a workbook gives: it holds no header cell, in any column and for
    any keyword, and [parse_month_sheet] raises [IndexError] on it, the
    search of column 0 reading a cell that is not there. *)
Lemma parse_month_sheet_no_column_raises :
  len df_no_columns = 1
  /\ shape1 df_no_columns = 0
  /\ (forall col test i, is_header df_no_columns col test i = false)
  /\ parse_month_sheet df_no_columns = Raise IndexError.
Proof.
  repeat split. intros col test i. unfold is_header, cell_at.
  cbn [rows df_no_columns].
  destruct i as [|[|i]]; destruct col; reflexivity.
Qed.

(** C3: a sheet read from a workbook has a column whenever it has a row
    (the sheet without any cell is read as the frame of no row and no
    column).  For every such frame without 'home' or 'bangalore' in
    column 0, without 'funds' in column 7 and without a cell of column 10
    that starts with 'loans/interest' or 'friends side', each read
    trimmed and lowercased, [parse_month_sheet] returns four empty lists
    and raises nothing. *)
Theorem no_header_four_empty_lists (number : Type) (NS : NumberStr number)
    (df : DataFrame number) :
  len df = 0 \/ 0 < shape1 df ->
  (forall i, i < len df ->
     is_header df 0 (is_keyword "home") i = false
     /\ is_header df 0 (is_keyword "bangalore") i = false) ->
  (forall i, i < len df -> is_header df 7 (is_keyword "funds") i = false) ->
  (forall i, i < len df ->
     is_header df 10 is_loans_header i = false
     /\ is_header df 10 is_friends_side i = false) ->
  parse_month_sheet df = Ok ([], [], [], []).
Proof.
  intros Hw H0 H7 H10. apply no_header_no_record; [tauto|].
  intros i Hi. specialize (H0 i Hi). specialize (H7 i Hi).
  specialize (H10 i Hi). tauto.
Qed.

Lemma no_header_four_empty_lists_witness :
  parse_month_sheet df_no_headers = Ok ([], [], [], [])
  /\ parse_month_sheet df_empty_sheet = Ok ([], [], [], []).
Proof.
  split.
  - apply no_header_four_empty_lists.
    + right. cbn. lia.
    + intros i Hi. cbn in Hi.
      destruct i as [|[|i]]; [split; reflexivity ..|lia].
    + intros i Hi. cbn in Hi. destruct i as [|[|i]]; [reflexivity ..|lia].
    + intros i Hi. cbn in Hi.
      destruct i as [|[|i]]; [split; reflexivity ..|lia].
  - apply no_header_four_empty_lists.
    + left. reflexivity.
    + intros i Hi. cbn in Hi. lia.
    + intros i Hi. cbn in Hi. lia.
    + intros i Hi. cbn in Hi. lia.
Defined.

(** C9 (fails on the code): in the frame of one column that holds 'home'
    above the name 'Rent' twice, rows 1 and 2 are the scanned rows of the
    primary section and bear the same name, and [parse_month_sheet]
    raises [IndexError] instead of emitting a record for each. *)
Theorem duplicate_names_one_column_raises :
  home_rows df_narrow_twice = [1; 2]
  /\ name_of df_narrow_twice 1 0 = name_of df_narrow_twice 2 0
  /\ parse_month_sheet df_narrow_twice = Raise IndexError.
Proof. repeat split. Qed.

(** C2 (fails on the code): on a sheet whose Planned, Amount and
    Outstanding cells hold text, every row is emitted under its name, and
    the text is kept in the record's amount field, not replaced by
    [None]; of the value columns only Actual, read on the same rows,
    drops its text. *)
Lemma text_amount_is_kept :
  iat df_text_values 1 1 = Ok (Text "tbd")
  /\ iat df_text_values 1 8 = Ok (Text "none")
  /\ iat df_text_values 1 11 = Ok (Text "closed")
  /\ iat df_text_values 3 11 = Ok (Text "soon")
  /\ parse_month_sheet df_text_values
     = Ok ([mkCategory "Rent" (Some (Text "tbd")) None;
            mkCategory "Bangalore - Power" (Some (Text "n/a")) None],
           [mkFund "Car" (Some (Text "none"))],
           [mkLoan "Mortgage" (Some (Text "closed"))],
           [mkFriend "Alex" (Some (Text "soon"))])
  /\ Planned (mkCategory "Rent" (Some (Text "tbd" : cell Z)) None) <> None
  /\ Amount (mkFund "Car" (Some (Text "none" : cell Z))) <> None
  /\ Loan_Outstanding (mkLoan "Mortgage" (Some (Text "closed" : cell Z)))
     <> None
  /\ Friend_Outstanding (mkFriend "Alex" (Some (Text "soon" : cell Z)))
     <> None.
Proof. repeat split; discriminate. Qed.

Lemma blank_name_ends_scan_witness :
  home_section df_blank_row [] = home_section (cut_above 2 df_blank_row) []
  /\ bangalore_section df_blank_row []
     = bangalore_section (cut_above 5 df_blank_row) []
  /\ funds_section df_blank_row [] = funds_section (cut_above 2 df_blank_row) []
  /\ loans_home_section df_blank_row []
     = loans_home_section (cut_above 2 df_blank_row) []
  /\ loans_friends_section df_blank_row []
     = loans_friends_section (cut_above 5 df_blank_row) [].
Proof.
  assert (R2 : 0 < 2 < len df_blank_row) by (cbn; lia).
  assert (R5 : 3 < 5 < len df_blank_row) by (cbn; lia).
  destruct (blank_name_ends_scan df_blank_row 0 2 R2)
    as (Hhome & _ & Hfunds & Hloans & _).
  destruct (blank_name_ends_scan df_blank_row 3 5 R5)
    as (_ & Hbang & _ & _ & Hfriends).
  split; [|split; [|split; [|split]]].
  - apply Hhome; reflexivity.
  - apply Hbang; reflexivity.
  - apply Hfunds; reflexivity.
  - apply Hloans; reflexivity.
  - apply Hfriends; reflexivity.
Defined.

Lemma load_workbook_order_witness :
  load_workbook
    [("Jan-25", df_categories); ("Feb-25", df_funds); ("Mar-25", df_loans)]
  = Ok ([mkCategoryRow "Jan-25" "Rent"
           (Some (Number 1000%Z)) (Some (Number 1200%Z));
         mkCategoryRow "Jan-25" "Food" (Some (Number 500%Z)) None;
         mkCategoryRow "Jan-25" "Bangalore - Power"
           (Some (Number 200%Z)) (Some (Number 250%Z))],
        [mkFundRow "Feb-25" "Emergency" (Some (Number 2000%Z));
         mkFundRow "Feb-25" "Car" (Some (Number 1000%Z))],
        [mkLoanRow "Mar-25" "Mortgage" (Some (Number 15000%Z))],
        [mkFriendRow "Mar-25" "Alex" (Some (Number 300%Z))]).
Proof.
  eapply eq_trans.
  - apply (proj2 load_workbook_order); reflexivity.
  - reflexivity.
Defined.

Lemma parse_column_locality_witness :
  parse_month_sheet df_categories_noted
  = parse_month_sheet df_categories_plain.
Proof.
  apply parse_column_locality; [reflexivity|reflexivity|].
  intros i c Hi Hc Hin. cbn in Hi.
  destruct i as [|[|[|i]]]; [| | |lia];
    cbn in Hin; intuition (subst; reflexivity).
Defined.

(** C5: in the Funds scan a row whose trimmed, lowercased name is
    'planned payments' or 'salary' yields no record and does not end the
    scan, which goes on with the rows after it; and the sheet with column
    7 = Funds, Planned Payments, Emergency, Salary, Car and column 8 =
    blank, 5000, 2000, 50000, 1000 parses to the funds Emergency 2000 and
    Car 1000. *)
Theorem funds_reserved_rows_skipped :
  (forall (number : Type) (NS : NumberStr number) (df : DataFrame number)
      k ks funds x,
     iat df k 7 = Ok x -> isna x = false ->
     lower (strip (str x)) = "planned payments"
     \/ lower (strip (str x)) = "salary" ->
     funds_loop df (k :: ks) funds = funds_loop df ks funds)
  /\ parse_month_sheet df_funds
     = Ok ([],
           [mkFund "Emergency" (Some (Number 2000%Z));
            mkFund "Car" (Some (Number 1000%Z))],
           [], []).
Proof.
  split; [|reflexivity].
  intros number NS df k ks funds x. apply funds_loop_skip.
Qed.

Lemma funds_reserved_rows_skipped_witness :
  funds_loop df_funds [1; 2; 3; 4] [] = funds_loop df_funds [2; 3; 4] []
  /\ funds_loop df_funds [3; 4] [mkFund "Emergency" (Some (Number 2000%Z))]
     = funds_loop df_funds [4] [mkFund "Emergency" (Some (Number 2000%Z))].
Proof.
  split.
  - apply (proj1 funds_reserved_rows_skipped Z _ df_funds 1 [2; 3; 4] []
             (Text "Planned Payments")); [reflexivity|reflexivity|].
    left. reflexivity.
  - apply (proj1 funds_reserved_rows_skipped Z _ df_funds 3 [4] _
             (Text "Salary")); [reflexivity|reflexivity|].
    right. reflexivity.
Defined.

(** C6: every record the secondary-location section appends is named
    "Bangalore - " followed by the trimmed name of a row; the primary scan
    returns on reaching the 'bangalore' header row, so that it covers at
    most the rows strictly between the two headers; and the sheet with
    column 0 = Home, Rent, Food, Bangalore, Power, Funds parses to the
    categories Rent 1000/1200, Food 500/None and Bangalore - Power
    200/250, in that order. *)
Theorem bangalore_prefix_and_stop :
  (forall (number : Type) (NS : NumberStr number) (df : DataFrame number)
      acc out,
     bangalore_section df acc = Ok out ->
     exists new, out = acc ++ new
       /\ Forall (fun r => exists j, j < len df
            /\ Category r = ("Bangalore - " ++ name_of df j 0)%string) new)
  /\ (forall (number : Type) (NS : NumberStr number) (df : DataFrame number)
        g ixs acc,
       find_row_index df 0 "bangalore" = Ok (Some g) ->
       home_loop df (g :: ixs) acc = Ok acc)
  /\ (forall (number : Type) (NS : NumberStr number) (df : DataFrame number)
        h g acc,
       find_row_index df 0 "home" = Ok (Some h) ->
       find_row_index df 0 "bangalore" = Ok (Some g) -> h < g ->
       home_section df acc = home_loop df (seq (h + 1) (g - (h + 1))) acc)
  /\ parse_month_sheet df_categories
     = Ok ([mkCategory "Rent" (Some (Number 1000%Z)) (Some (Number 1200%Z));
            mkCategory "Food" (Some (Number 500%Z)) None;
            mkCategory "Bangalore - Power"
              (Some (Number 200%Z)) (Some (Number 250%Z))],
           [], [], []).
Proof.
  split; [|split; [|split]].
  - intros number NS df acc out. apply bangalore_section_prefixed.
  - intros number NS df g ixs acc. apply home_loop_at_bangalore.
  - intros number NS df h g acc. apply home_section_up_to_bangalore.
  - reflexivity.
Qed.

Lemma bangalore_prefix_and_stop_witness :
  (exists new,
     [mkCategory "Bangalore - Power"
        (Some (Number 200%Z)) (Some (Number 250%Z))] = [] ++ new
     /\ Forall (fun r => exists j, j < len df_categories
          /\ Category r
             = ("Bangalore - " ++ name_of df_categories j 0)%string) new)
  /\ home_loop df_categories [3; 4; 5] [] = Ok []
  /\ home_section df_categories [] = home_loop df_categories [1; 2] [].
Proof.
  destruct bangalore_prefix_and_stop as (Hprefix & Hstop & Hupto & _).
  split; [|split].
  - apply (Hprefix Z _ df_categories). reflexivity.
  - apply (Hstop Z _ df_categories 3). reflexivity.
  - apply (Hupto Z _ df_categories 0 3); [reflexivity|reflexivity|lia].
Defined.

(** C7: the home-loans scan starts below the first cell of column 10
    whose trimmed, lowercased text starts with 'loans/interest' and
    emits the rows below it up to, and without, the first row whose name
    is blank or starts with 'friends side'; the friend-loans scan starts
    below the first cell of column 10 whose text starts with 'friends
    side' and emits the rows below it up to the first blank name, no
    keyword stopping it; and the sheet with column 10 = Loans/Interest -
    Home Side, Mortgage, Friends Side, Alex and column 11 = blank, 15000,
    blank, 300 parses to the home loan Mortgage 15000 and the friend loan
    Alex 300. *)
Theorem loans_scans :
  (forall (number : Type) (NS : NumberStr number) (df : DataFrame number) h,
     find_header df 10 (fun s => startswith s "loans/interest")
     = Ok (Some h) ->
     is_header df 10 is_loans_header h = true
     /\ (forall i, i < h -> is_header df 10 is_loans_header i = false)
     /\ exists e, h < e <= len df
          /\ (forall i, h < i < e ->
                isna (cell_at df i 10) = false
                /\ startswith (lower (name_of df i 10)) "friends side"
                   = false)
          /\ (e < len df ->
                isna (cell_at df e 10) = true
                \/ startswith (lower (name_of df e 10)) "friends side"
                   = true)
          /\ loans_home_section df []
             = Ok (map (loan_record df) (seq (h + 1) (e - (h + 1)))))
  /\ (forall (number : Type) (NS : NumberStr number) (df : DataFrame number)
        h,
       find_header df 10 (fun s => startswith s "friends side")
       = Ok (Some h) ->
       is_header df 10 is_friends_side h = true
       /\ (forall i, i < h -> is_header df 10 is_friends_side i = false)
       /\ exists e, h < e <= len df
            /\ (forall i, h < i < e -> isna (cell_at df i 10) = false)
            /\ (e < len df -> isna (cell_at df e 10) = true)
            /\ loans_friends_section df []
               = Ok (map (friend_record df) (seq (h + 1) (e - (h + 1)))))
  /\ parse_month_sheet df_loans
     = Ok ([], [],
           [mkLoan "Mortgage" (Some (Number 15000%Z))],
           [mkFriend "Alex" (Some (Number 300%Z))]).
Proof.
  split; [|split; [|reflexivity]].
  - intros number NS df h Hh.
    destruct (find_header_in_frame _ _ _ _ Hh) as (Hlen & Hw).
    rewrite find_header_ok in Hh by assumption. injection Hh as Hh.
    change (fun s => startswith s "loans/interest") with is_loans_header
      in Hh.
    destruct (header_row_first _ _ _ _ Hh) as (_ & Hhd & Hfirst).
    split; [assumption|]. split; [assumption|].
    destruct (section_rows_run df 10 is_loans_header is_friends_side h Hh)
      as (e & He & Hrows & Hno & Hend).
    exists e. split; [assumption|]. split; [|split].
    + intros i Hi. specialize (Hno i Hi). unfold ends_scan in Hno.
      apply orb_false_elim in Hno. exact Hno.
    + intros H. specialize (Hend H). unfold ends_scan in Hend.
      apply orb_true_iff in Hend. exact Hend.
    + rewrite loans_home_section_rows. unfold loan_rows.
      apply Nat.ltb_lt in Hw. rewrite Hw, Hrows. reflexivity.
  - intros number NS df h Hh.
    destruct (find_header_in_frame _ _ _ _ Hh) as (Hlen & Hw).
    rewrite find_header_ok in Hh by assumption. injection Hh as Hh.
    change (fun s => startswith s "friends side") with is_friends_side
      in Hh.
    destruct (header_row_first _ _ _ _ Hh) as (_ & Hhd & Hfirst).
    split; [assumption|]. split; [assumption|].
    destruct (section_rows_run df 10 is_friends_side no_stop h Hh)
      as (e & He & Hrows & Hno & Hend).
    exists e. split; [assumption|]. split; [|split].
    + intros i Hi. specialize (Hno i Hi). unfold ends_scan, no_stop in Hno.
      now rewrite orb_false_r in Hno.
    + intros H. specialize (Hend H). unfold ends_scan, no_stop in Hend.
      now rewrite orb_false_r in Hend.
    + rewrite loans_friends_section_rows. unfold friend_rows.
      apply Nat.ltb_lt in Hw. rewrite Hw, Hrows. reflexivity.
Qed.

Lemma loans_scans_witness :
  (is_header df_loans 10 is_loans_header 0 = true
   /\ (forall i, i < 0 -> is_header df_loans 10 is_loans_header i = false)
   /\ exists e, 0 < e <= len df_loans
        /\ (forall i, 0 < i < e ->
              isna (cell_at df_loans i 10) = false
              /\ startswith (lower (name_of df_loans i 10)) "friends side"
                 = false)
        /\ (e < len df_loans ->
              isna (cell_at df_loans e 10) = true
              \/ startswith (lower (name_of df_loans e 10)) "friends side"
                 = true)
        /\ loans_home_section df_loans []
           = Ok (map (loan_record df_loans) (seq (0 + 1) (e - (0 + 1)))))
  /\ (is_header df_loans 10 is_friends_side 2 = true
      /\ (forall i, i < 2 -> is_header df_loans 10 is_friends_side i = false)
      /\ exists e, 2 < e <= len df_loans
           /\ (forall i, 2 < i < e -> isna (cell_at df_loans i 10) = false)
           /\ (e < len df_loans -> isna (cell_at df_loans e 10) = true)
           /\ loans_friends_section df_loans []
              = Ok (map (friend_record df_loans)
                      (seq (2 + 1) (e - (2 + 1))))).
Proof.
  destruct loans_scans as (Hhome & Hfriends & _).
  split.
  - apply (Hhome Z _ df_loans 0). reflexivity.
  - apply (Hfriends Z _ df_loans 2). reflexivity.
Defined.

(* ================================================================= *)
(** * Further properties of the parser and of the aggregation *)

Section ParserProperties.

Context {number : Type} {NS : NumberStr number}.
Implicit Types (df : DataFrame number) (x : cell number).

(** ** Trimmed text *)

Lemma lstrip_head (s : string) :
  lstrip s = EmptyString
  \/ exists a r, lstrip s = String a r /\ isspace a = false.
Proof.
  induction s as [|a s IH]; cbn [lstrip]; [now left|].
  destruct (isspace a) eqn:E; [exact IH|].
  right. now exists a, s.
Qed.

Lemma rstrip_idempotent (s : string) : rstrip (rstrip s) = rstrip s.
Proof.
  induction s as [|a s IH]; [reflexivity|]. cbn [rstrip].
  destruct (rstrip s) as [|b r] eqn:E.
  - destruct (isspace a) eqn:Ea; [reflexivity|].
    cbn [rstrip]. now rewrite Ea.
  - change (rstrip (String a (String b r))) with
      (match rstrip (String b r) with
       | EmptyString =>
           if isspace a then EmptyString else String a EmptyString
       | String c r' => String a (String c r')
       end).
    now rewrite IH.
Qed.

Lemma rstrip_keeps_head (a : ascii) (s : string) :
  isspace a = false -> exists r, rstrip (String a s) = String a r.
Proof.
  intros Ea. cbn [rstrip]. destruct (rstrip s) as [|b r].
  - rewrite Ea. now exists EmptyString.
  - now exists (String b r).
Qed.

Lemma lstrip_strip (s : string) : lstrip (strip s) = strip s.
Proof.
  unfold strip. destruct (lstrip_head s) as [E|(a & r & E & Ea)]; rewrite E.
  - reflexivity.
  - destruct (rstrip_keeps_head a r Ea) as (r' & Er). rewrite Er.
    cbn [lstrip]. now rewrite Ea.
Qed.

Lemma strip_idempotent (s : string) : strip (strip s) = strip s.
Proof.
  unfold strip at 1. rewrite lstrip_strip. unfold strip.
  apply rstrip_idempotent.
Qed.

(** ** Membership in a scan *)

Lemma scanned_in df col stop ixs i :
  In i (scanned df col stop ixs) ->
  In i ixs /\ ends_scan df col stop i = false.
Proof.
  induction ixs as [|j ixs IH]; cbn [scanned]; [contradiction|].
  destruct (ends_scan df col stop j) eqn:E; [contradiction|].
  intros [<-|H].
  - split; [now left|assumption].
  - destruct (IH H) as (Hin & He). split; [now right|assumption].
Qed.

Lemma section_rows_in df col test stop i :
  In i (section_rows df col test stop) ->
  i < len df /\ ends_scan df col stop i = false.
Proof.
  unfold section_rows. destruct (header_row df col test) as [h|];
    [|contradiction].
  intros H. apply scanned_in in H. destruct H as (Hin & He).
  split; [|assumption].
  pose proof (rows_below_in_frame df h) as HB.
  rewrite Forall_forall in HB. now apply HB.
Qed.

Lemma in_scanned_seq df col stop a n i :
  In i (scanned df col stop (seq a n))
  <-> a <= i < a + n
      /\ forall j, a <= j <= i -> ends_scan df col stop j = false.
Proof.
  destruct (scanned_seq df col stop a n) as (e & He & Hs & Hno & Hend).
  rewrite Hs, in_seq. split.
  - intros Hi. split; [lia|]. intros j Hj. apply Hno. lia.
  - intros (Hi & Hj). split; [lia|].
    destruct (Nat.lt_ge_cases i e) as [Hlt|Hge]; [lia|].
    assert (He' : e < a + n) by lia.
    specialize (Hend He'). rewrite Hj in Hend by lia. discriminate.
Qed.

Lemma in_section_rows df col test stop h i :
  header_row df col test = Some h ->
  In i (section_rows df col test stop)
  <-> h < i < len df
      /\ forall j, h < j <= i -> ends_scan df col stop j = false.
Proof.
  intros Hh. unfold section_rows, rows_below. rewrite Hh.
  rewrite in_scanned_seq. split.
  - intros (Hi & Hj). split; [lia|]. intros j H. apply Hj. lia.
  - intros (Hi & Hj). split; [lia|]. intros j H. apply Hj. lia.
Qed.

Lemma present_cases x :
  present x = None \/ exists y, present x = Some y /\ isna y = false.
Proof. destruct x; cbn; [right; eauto|right; eauto|now left]. Qed.

Lemma numeric_cases x :
  numeric x = None \/ exists n, numeric x = Some (Number n).
Proof. destruct x; cbn; [now left|right; eauto|now left]. Qed.

(** ** The header search *)

(** X1: [find_row_index] and the three inline header searches return the
    first row of the column whose cell is text that matches once trimmed
    and lowercased, [None] when no row does, and raise [IndexError]
    exactly when the frame has a row and not that column. *)
Theorem find_header_first df col test :
  (forall h, find_header df col test = Ok (Some h) <->
     h < len df /\ col < shape1 df
     /\ is_header df col test h = true
     /\ forall i, i < h -> is_header df col test i = false)
  /\ (find_header df col test = Ok None <->
        (col < shape1 df \/ len df = 0)
        /\ forall i, i < len df -> is_header df col test i = false)
  /\ (find_header df col test = Raise IndexError <->
        shape1 df <= col /\ 0 < len df).
Proof.
  destruct (Nat.lt_ge_cases col (shape1 df)) as [Hc|Hc].
  - rewrite find_header_ok by assumption.
    destruct (header_row df col test) as [h'|] eqn:Hh.
    + destruct (header_row_first _ _ _ _ Hh) as (Hlen & Hhd & Hfirst).
      split; [|split].
      * intros h. split.
        -- intros [= <-]. auto.
        -- intros (Hl & _ & Hd & Hf). f_equal. f_equal.
           destruct (Nat.lt_trichotomy h h') as [H|[H|H]];
             [|symmetry; assumption|].
           ++ rewrite (Hfirst h H) in Hd. discriminate.
           ++ rewrite (Hf h' H) in Hhd. discriminate.
      * split; [discriminate|]. intros (_ & Hno).
        rewrite (Hno h' Hlen) in Hhd. discriminate.
      * split; [discriminate|]. intros (H & _). lia.
    + split; [|split].
      * intros h. split; [discriminate|]. intros (Hl & _ & Hd & _).
        unfold header_row in Hh.
        pose proof (find_none _ _ Hh h) as Hn.
        rewrite Hn in Hd; [discriminate|]. apply in_seq. lia.
      * split; [|reflexivity]. intros _. split; [now left|].
        intros i Hi. unfold header_row in Hh.
        apply (find_none _ _ Hh). apply in_seq. lia.
      * split; [discriminate|]. intros (H & _). lia.
  - unfold find_header. destruct (len df) as [|n] eqn:Hl.
    + cbn. split; [|split].
      * intros h. split; [discriminate|]. intros (H & _). lia.
      * split; [|reflexivity]. intros _. split; [now right|].
        intros i Hi. lia.
      * split; [discriminate|]. intros (_ & H). lia.
    + cbn [seq first_header]. rewrite iat_no_column by assumption.
      cbn [bind]. split; [|split].
      * intros h. split; [discriminate|]. intros (_ & H & _). lia.
      * split; [discriminate|]. intros ([H|H] & _); [lia|discriminate].
      * split; [|reflexivity]. intros _. split; [assumption|lia].
Qed.

(** ** What the parser returns *)

(** X2: [parse_month_sheet] raises, and then [IndexError], exactly on the
    frames that have rows and no column, and on the frames of one column
    in which a category row is scanned under 'home' or 'bangalore'; with
    two columns or more it never raises. *)
Theorem parse_month_sheet_raises_exactly df :
  (parse_month_sheet df = Raise IndexError
   <-> (shape1 df = 0 /\ 0 < len df)
       \/ (shape1 df = 1
           /\ (home_rows df <> [] \/ bangalore_rows df <> [])))
  /\ (1 < shape1 df -> exists p, parse_month_sheet df = Ok p).
Proof.
  split.
  - apply parse_month_sheet_raises_iff.
  - intros Hw. exists (records_of df). now apply parse_month_sheet_records.
Qed.

(** X3: whenever [parse_month_sheet] returns, whatever the width, it
    returns one record per scanned row of each section, in row order: the
    primary categories, then the secondary ones, the funds that are not
    skipped, the home loans and the friend loans. *)
Theorem parse_month_sheet_one_record_per_row df c f l r :
  parse_month_sheet df = Ok (c, f, l, r) ->
  c = map (home_record df) (home_rows df)
        ++ map (bangalore_record df) (bangalore_rows df)
  /\ f = map (fund_record df) (fund_rows df)
  /\ l = map (loan_record df) (loan_rows df)
  /\ r = map (friend_record df) (friend_rows df)
  /\ List.length c
     = List.length (home_rows df) + List.length (bangalore_rows df).
Proof.
  intros H. apply parse_month_sheet_ok_records in H.
  unfold records_of in H. injection H as -> -> -> ->.
  repeat split. now rewrite length_app, !length_map.
Qed.

(** X4: a frame that has a column (or no row) and no header cell in
    columns 0, 7 and 10 parses to four empty lists. *)
Theorem parse_month_sheet_without_headers df :
  0 < shape1 df \/ len df = 0 ->
  (forall i, i < len df ->
     is_header df 0 (is_keyword "home") i = false
     /\ is_header df 0 (is_keyword "bangalore") i = false
     /\ is_header df 7 (is_keyword "funds") i = false
     /\ is_header df 10 is_loans_header i = false
     /\ is_header df 10 is_friends_side i = false) ->
  parse_month_sheet df = Ok ([], [], [], []).
Proof. intros Hw H. now apply no_header_no_record. Qed.

(** X5: in the records the parser returns no amount is NaN: Planned,
    Amount and Outstanding are [None] or a cell that is not blank, and
    Actual is [None] or a number, never text. *)
Theorem value_fields_never_blank df c f l r :
  parse_month_sheet df = Ok (c, f, l, r) ->
  Forall (fun rec =>
            (Planned rec = None
             \/ exists x, Planned rec = Some x /\ isna x = false)
            /\ (Actual rec = None
                \/ exists n, Actual rec = Some (Number n))) c
  /\ Forall (fun rec =>
               Amount rec = None
               \/ exists x, Amount rec = Some x /\ isna x = false) f
  /\ Forall (fun rec =>
               Loan_Outstanding rec = None
               \/ exists x, Loan_Outstanding rec = Some x /\ isna x = false) l
  /\ Forall (fun rec =>
               Friend_Outstanding rec = None
               \/ exists x, Friend_Outstanding rec = Some x
                            /\ isna x = false) r.
Proof.
  intros H. apply parse_month_sheet_ok_records in H.
  unfold records_of in H. injection H as -> -> -> ->.
  repeat split.
  - apply Forall_app. split; apply Forall_map, Forall_forall; intros i _;
      cbn [home_record bangalore_record Planned Actual];
      (split; [apply present_cases|]);
      destruct (2 <? shape1 df); (apply numeric_cases || now left).
  - apply Forall_map, Forall_forall. intros i _. cbn [fund_record Amount].
    destruct (8 <? shape1 df); [apply present_cases|now left].
  - apply Forall_map, Forall_forall. intros i _.
    cbn [loan_record Loan_Outstanding].
    destruct (11 <? shape1 df); [apply present_cases|now left].
  - apply Forall_map, Forall_forall. intros i _.
    cbn [friend_record Friend_Outstanding].
    destruct (11 <? shape1 df); [apply present_cases|now left].
Qed.

(** X6: every name the parser returns is trimmed: stripping it again
    changes nothing, and a secondary-location name is "Bangalore - "
    before a trimmed name. *)
Theorem names_are_trimmed df c f l r :
  parse_month_sheet df = Ok (c, f, l, r) ->
  Forall (fun rec =>
            strip (Category rec) = Category rec
            \/ exists n, Category rec = ("Bangalore - " ++ n)%string
                         /\ strip n = n) c
  /\ Forall (fun rec => strip (Fund rec) = Fund rec) f
  /\ Forall (fun rec => strip (Loan rec) = Loan rec) l
  /\ Forall (fun rec => strip (Friend rec) = Friend rec) r.
Proof.
  intros H. apply parse_month_sheet_ok_records in H.
  unfold records_of in H. injection H as -> -> -> ->.
  repeat split.
  - apply Forall_app. split; apply Forall_map, Forall_forall; intros i _.
    + left. apply strip_idempotent.
    + right. exists (name_of df i 0). split; [reflexivity|].
      apply strip_idempotent.
  - apply Forall_map, Forall_forall. intros i _. apply strip_idempotent.
  - apply Forall_map, Forall_forall. intros i _. apply strip_idempotent.
  - apply Forall_map, Forall_forall. intros i _. apply strip_idempotent.
Qed.

(** X7: no record bears a keyword that ends or skips its scan: no primary
    category is named, in any case, bangalore, funds, salary, loans/interest
    - home side, friends side or loans/interest; no secondary category one
    of these but bangalore; no fund planned payments or salary; no home
    loan a name that starts with friends side. *)
Theorem keywords_are_never_names df c f l r :
  parse_month_sheet df = Ok (c, f, l, r) ->
  exists ch cb,
    c = ch ++ cb
    /\ Forall (fun rec => in_set (lower (Category rec)) home_stop = false) ch
    /\ Forall (fun rec =>
                 exists n, Category rec = ("Bangalore - " ++ n)%string
                   /\ in_set (lower n) bangalore_stop = false) cb
    /\ Forall (fun rec => in_set (lower (Fund rec)) funds_skip = false) f
    /\ Forall (fun rec =>
                 startswith (lower (Loan rec)) "friends side" = false) l.
Proof.
  intros H. apply parse_month_sheet_ok_records in H.
  unfold records_of in H. injection H as -> -> -> ->.
  exists (map (home_record df) (home_rows df)),
         (map (bangalore_record df) (bangalore_rows df)).
  split; [reflexivity|]. repeat split.
  - apply Forall_map, Forall_forall. intros i Hi.
    apply section_rows_in in Hi. destruct Hi as (_ & He).
    apply orb_false_elim in He. exact (proj2 He).
  - apply Forall_map, Forall_forall. intros i Hi.
    apply section_rows_in in Hi. destruct Hi as (_ & He).
    apply orb_false_elim in He.
    exists (name_of df i 0). split; [reflexivity|exact (proj2 He)].
  - apply Forall_map, Forall_forall. intros i Hi. unfold fund_rows in Hi.
    destruct (7 <? shape1 df); [|contradiction].
    apply filter_In in Hi. destruct Hi as (_ & Hk).
    unfold kept_fund, is_funds_skip in Hk.
    now apply negb_true_iff in Hk.
  - apply Forall_map, Forall_forall. intros i Hi. unfold loan_rows in Hi.
    destruct (10 <? shape1 df); [|contradiction].
    apply section_rows_in in Hi. destruct Hi as (_ & He).
    apply orb_false_elim in He. exact (proj2 He).
Qed.

(** X8: a frame too narrow for a band gives no record of it, and one too
    narrow for a value column gives records without that value: up to 7
    columns no fund, up to 10 no loan; with 8 columns every Amount is
    [None], with 11 every Outstanding, with 2 every Actual. *)
Theorem narrow_frames df c f l r :
  parse_month_sheet df = Ok (c, f, l, r) ->
  (shape1 df <= 7 -> f = [])
  /\ (shape1 df <= 10 -> l = [] /\ r = [])
  /\ (shape1 df <= 8 -> Forall (fun rec => Amount rec = None) f)
  /\ (shape1 df <= 11 ->
        Forall (fun rec => Loan_Outstanding rec = None) l
        /\ Forall (fun rec => Friend_Outstanding rec = None) r)
  /\ (shape1 df <= 2 -> Forall (fun rec => Actual rec = None) c).
Proof.
  intros H. apply parse_month_sheet_ok_records in H.
  unfold records_of in H. injection H as -> -> -> ->.
  split; [|split; [|split; [|split]]]; intros Hw; apply Nat.ltb_ge in Hw.
  - unfold fund_rows. now rewrite Hw.
  - unfold loan_rows, friend_rows. now rewrite Hw.
  - apply Forall_map, Forall_forall. intros i _. cbn [fund_record Amount].
    now rewrite Hw.
  - split; apply Forall_map, Forall_forall; intros i _;
      cbn [loan_record friend_record Loan_Outstanding Friend_Outstanding];
      now rewrite Hw.
  - apply Forall_app. split; apply Forall_map, Forall_forall; intros i _;
      cbn [home_record bangalore_record Actual]; now rewrite Hw.
Qed.

End ParserProperties.

Section ScanProperties.

Context {number : Type} {NS : NumberStr number}.
Implicit Types (df : DataFrame number) (x : cell number).

(** X9: a name cell that holds only white space is not a blank cell: in
    each of the five scans the row gives a record, with the empty name
    (after "Bangalore - " in the secondary section), and the scan goes on
    with the rows below. *)
Theorem whitespace_name_is_a_row df i ixs s :
  strip s = EmptyString ->
  (iat df i 0 = Ok (Text s) -> 1 < shape1 df ->
     (forall acc, home_loop df (i :: ixs) acc
                  = home_loop df ixs (acc ++ [home_record df i]))
     /\ Category (home_record df i) = EmptyString
     /\ (forall acc, bangalore_loop df (i :: ixs) acc
                     = bangalore_loop df ixs (acc ++ [bangalore_record df i]))
     /\ Category (bangalore_record df i) = "Bangalore - ")
  /\ (iat df i 7 = Ok (Text s) ->
        (forall acc, funds_loop df (i :: ixs) acc
                     = funds_loop df ixs (acc ++ [fund_record df i]))
        /\ Fund (fund_record df i) = EmptyString)
  /\ (iat df i 10 = Ok (Text s) ->
        (forall acc, loans_home_loop df (i :: ixs) acc
                     = loans_home_loop df ixs (acc ++ [loan_record df i]))
        /\ Loan (loan_record df i) = EmptyString
        /\ (forall acc, loans_friends_loop df (i :: ixs) acc
                        = loans_friends_loop df ixs
                            (acc ++ [friend_record df i]))
        /\ Friend (friend_record df i) = EmptyString).
Proof.
  intros Hs. split; [|split].
  - intros Hx Hw. apply iat_inv in Hx. destruct Hx as (Hi & _ & Hx).
    assert (Hn : name_of df i 0 = EmptyString)
      by (unfold name_of; now rewrite <- Hx).
    repeat split.
    + intros acc. rewrite home_loop_step by assumption.
      unfold ends_scan. now rewrite Hn, <- Hx.
    + exact Hn.
    + intros acc. rewrite bangalore_loop_step by assumption.
      unfold ends_scan. now rewrite Hn, <- Hx.
    + cbn [bangalore_record Category]. now rewrite Hn.
  - intros Hx. apply iat_inv in Hx. destruct Hx as (Hi & Hw & Hx).
    assert (Hn : name_of df i 7 = EmptyString)
      by (unfold name_of; now rewrite <- Hx).
    split; [|exact Hn].
    intros acc. rewrite funds_loop_step by assumption.
    unfold ends_scan, kept_fund. now rewrite Hn, <- Hx.
  - intros Hx. apply iat_inv in Hx. destruct Hx as (Hi & Hw & Hx).
    assert (Hn : name_of df i 10 = EmptyString)
      by (unfold name_of; now rewrite <- Hx).
    repeat split.
    + intros acc. rewrite loans_home_loop_step by assumption.
      unfold ends_scan. now rewrite Hn, <- Hx.
    + exact Hn.
    + intros acc. rewrite loans_friends_loop_step by assumption.
      unfold ends_scan. now rewrite Hn, <- Hx.
    + exact Hn.
Qed.

Lemma header_is_text df col test h :
  header_row df col test = Some h ->
  exists s, cell_at df h col = Text s /\ test (lower (strip s)) = true.
Proof.
  intros Hh. apply header_row_first in Hh. destruct Hh as (_ & Hd & _).
  unfold is_header in Hd. destruct (cell_at df h col) as [s| |];
    try discriminate.
  exists s. split; [reflexivity|exact Hd].
Qed.

Lemma find_row_index_header df col keyword h :
  find_row_index df col keyword = Ok (Some h) ->
  col < shape1 df /\ header_row df col (is_keyword keyword) = Some h.
Proof.
  unfold find_row_index. intros H.
  destruct (find_header_in_frame _ _ _ _ H) as (_ & Hc).
  rewrite find_header_ok in H by assumption.
  split; [assumption|]. now injection H.
Qed.

(** X10: when the 'bangalore' header stands above the 'home' header and no
    row between them ends the Bangalore scan, that scan runs on through
    the Home section: the 'home' header row and every primary category row
    are Bangalore rows too, and the parser returns every primary category
    twice, once under its name and once behind "Bangalore - ". *)
Theorem bangalore_above_home df g h :
  find_row_index df 0 "bangalore" = Ok (Some g) ->
  find_row_index df 0 "home" = Ok (Some h) ->
  g < h ->
  (forall j, g < j < h -> ends_scan df 0 is_bangalore_stop j = false) ->
  incl (h :: home_rows df) (bangalore_rows df)
  /\ forall c f l r,
       parse_month_sheet df = Ok (c, f, l, r) ->
       forall i, In i (home_rows df) ->
         In (home_record df i) c /\ In (bangalore_record df i) c.
Proof.
  intros Hg Hh Hlt Hgap.
  apply find_row_index_header in Hg, Hh.
  destruct Hg as (_ & Hg). destruct Hh as (_ & Hh).
  assert (Hhome : ends_scan df 0 is_bangalore_stop h = false).
  { destruct (header_is_text _ _ _ _ Hh) as (s & Hs & Hk).
    apply String.eqb_eq in Hk.
    unfold ends_scan, name_of. rewrite Hs. cbn [isna str orb].
    now rewrite Hk. }
  assert (Hsub : forall j,
            ends_scan df 0 is_home_stop j = false ->
            ends_scan df 0 is_bangalore_stop j = false).
  { intros j Hj. unfold ends_scan in *.
    apply orb_false_elim in Hj. destruct Hj as (Hna & Hst).
    rewrite Hna. cbn [orb]. unfold is_home_stop, home_stop, in_set in Hst.
    cbn [existsb] in Hst. apply orb_false_elim in Hst. exact (proj2 Hst). }
  assert (Hincl : incl (h :: home_rows df) (bangalore_rows df)).
  { intros i Hi. unfold bangalore_rows.
    apply (in_section_rows df 0 _ _ g i Hg).
    destruct (header_row_first _ _ _ _ Hh) as (Hlen & _).
    destruct Hi as [<-|Hi].
    - split; [lia|]. intros j Hj.
      destruct (Nat.eq_dec j h) as [->|Hne]; [assumption|].
      apply Hgap. lia.
    - unfold home_rows in Hi.
      apply (in_section_rows df 0 _ _ h i Hh) in Hi.
      destruct Hi as (Hr & Hno). split; [lia|]. intros j Hj.
      destruct (Nat.lt_trichotomy j h) as [H|[->|H]].
      + apply Hgap. lia.
      + assumption.
      + apply Hsub, Hno. lia. }
  split; [exact Hincl|].
  intros c f l r Hp i Hi. apply parse_month_sheet_ok_records in Hp.
  unfold records_of in Hp. injection Hp as -> -> -> ->.
  split; apply in_or_app; [left|right]; apply in_map.
  - assumption.
  - apply Hincl. now right.
Qed.

(** ** The aggregation *)

Lemma load_workbook_parse_all (sheets : list (string * DataFrame number)) :
  load_workbook sheets
  = (ps <- parse_all sheets ;;
     Ok (flat_map (fun '(name, (c, _, _, _)) => map (tag_category name) c) ps,
         flat_map (fun '(name, (_, f, _, _)) => map (tag_fund name) f) ps,
         flat_map (fun '(name, (_, _, l, _)) => map (tag_loan name) l) ps,
         flat_map (fun '(name, (_, _, _, l)) => map (tag_friend name) l) ps)).
Proof. unfold load_workbook. now rewrite sheets_loop_tagged. Qed.

Lemma parse_all_app (s1 s2 : list (string * DataFrame number)) :
  parse_all (s1 ++ s2)
  = (p1 <- parse_all s1 ;; p2 <- parse_all s2 ;; Ok (p1 ++ p2)).
Proof.
  induction s1 as [|[name df] s1 IH]; cbn [app parse_all].
  - cbn [bind]. now destruct (parse_all s2).
  - destruct (parse_month_sheet df) as [p|e]; [|reflexivity]. cbn [bind].
    rewrite IH. destruct (parse_all s1) as [p1|e]; [|reflexivity].
    cbn [bind]. now destruct (parse_all s2).
Qed.

Lemma parse_all_raises (sheets : list (string * DataFrame number)) :
  parse_all sheets = Raise IndexError
  <-> Exists (fun sheet => parse_month_sheet (snd sheet) = Raise IndexError)
        sheets.
Proof.
  induction sheets as [|[name df] sheets IH]; cbn [parse_all].
  - split; [discriminate|]. intros H. inversion H.
  - destruct (parse_month_sheet df) as [p|[]] eqn:E; cbn [bind].
    + destruct (parse_all sheets) as [ps|[]]; cbn [bind].
      * split; [discriminate|]. intros H. inversion H as [? ? H1|? ? H1]; subst.
        -- cbn [snd] in H1. congruence.
        -- apply IH in H1. discriminate.
      * split; [|reflexivity]. intros _. right. now apply IH.
    + split; [|reflexivity]. intros _. now left.
Qed.

(** X11: loading a workbook made of two runs of sheets gives the tables
    of the first run followed by those of the second, and raises as soon
    as one of the two loads raises. *)
Theorem load_workbook_app (s1 s2 : list (string * DataFrame number)) :
  (forall c1 f1 l1 r1 c2 f2 l2 r2,
     load_workbook s1 = Ok (c1, f1, l1, r1) ->
     load_workbook s2 = Ok (c2, f2, l2, r2) ->
     load_workbook (s1 ++ s2)
     = Ok (c1 ++ c2, f1 ++ f2, l1 ++ l2, r1 ++ r2))
  /\ (load_workbook (s1 ++ s2) = Raise IndexError
      <-> load_workbook s1 = Raise IndexError
          \/ load_workbook s2 = Raise IndexError).
Proof.
  rewrite !load_workbook_parse_all, parse_all_app.
  destruct (parse_all s1) as [p1|[]]; destruct (parse_all s2) as [p2|[]];
    cbn [bind]; split; try discriminate; try (intros; discriminate).
  - intros c1 f1 l1 r1 c2 f2 l2 r2 [= <- <- <- <-] [= <- <- <- <-].
    now rewrite !flat_map_app.
  - split; [discriminate|]. intros [H|H]; discriminate.
  - split; auto.
  - split; auto.
  - split; auto.
Qed.

(** X12: [load_workbook] raises exactly when [parse_month_sheet] raises on
    one of the sheets: one sheet that does not parse loses the whole
    workbook, and no partial table is returned. *)
Theorem load_workbook_raises_exactly
    (sheets : list (string * DataFrame number)) :
  (load_workbook sheets = Raise IndexError
   <-> Exists (fun sheet => parse_month_sheet (snd sheet) = Raise IndexError)
         sheets)
  /\ (Forall (fun sheet => 1 < shape1 (snd sheet)) sheets ->
      exists t, load_workbook sheets = Ok t).
Proof.
  split.
  - rewrite <- parse_all_raises, load_workbook_parse_all.
    destruct (parse_all sheets) as [ps|[]]; cbn [bind];
      split; try discriminate; reflexivity.
  - intros HF. rewrite load_workbook_parse_all.
    destruct (parse_all sheets) as [ps|[]] eqn:E; cbn [bind]; [eauto|].
    apply parse_all_raises in E. apply Exists_exists in E.
    destruct E as (sheet & Hin & Hr).
    rewrite Forall_forall in HF. specialize (HF sheet Hin).
    rewrite parse_month_sheet_records in Hr by assumption. discriminate.
Qed.

Lemma parse_all_names (sheets : list (string * DataFrame number)) ps :
  parse_all sheets = Ok ps -> map fst ps = map fst sheets.
Proof.
  revert ps. induction sheets as [|[name df] sheets IH]; intros ps;
    cbn [parse_all].
  - now intros [= <-].
  - destruct (parse_month_sheet df) as [p|e]; [|discriminate]. cbn [bind].
    destruct (parse_all sheets) as [ps'|e]; [|discriminate]. cbn [bind].
    intros [= <-]. cbn [map fst]. f_equal. now apply IH.
Qed.

(** X13: every row of the four tables [load_workbook] returns is tagged
    with the name of one of the workbook's sheets. *)
Theorem load_workbook_months (sheets : list (string * DataFrame number))
    c f l r :
  load_workbook sheets = Ok (c, f, l, r) ->
  Forall (fun row => In (cat_Month row) (map fst sheets)) c
  /\ Forall (fun row => In (fund_Month row) (map fst sheets)) f
  /\ Forall (fun row => In (loan_Month row) (map fst sheets)) l
  /\ Forall (fun row => In (friend_Month row) (map fst sheets)) r.
Proof.
  rewrite load_workbook_parse_all.
  destruct (parse_all sheets) as [ps|e] eqn:E; [|discriminate].
  cbn [bind]. intros [= <- <- <- <-].
  rewrite <- (parse_all_names _ _ E).
  repeat split; apply Forall_forall; intros row Hrow;
    apply in_flat_map in Hrow;
    destruct Hrow as ([name [[[cs fs] ls] rs]] & Hin & Hrow);
    apply in_map_iff in Hrow; destruct Hrow as (rec & <- & _);
    apply in_map_iff; exists (name, (cs, fs, ls, rs)); split;
    (reflexivity || assumption).
Qed.

End ScanProperties.

(* ================================================================= *)
(** * Properties of [month_to_datetime] *)

Lemma day_of_first_of_month (m : string) :
  day_candidates ("1-" ++ m) = [(1, String "-" m)].
Proof. reflexivity. Qed.

Lemma days_in_month_positive (y m : nat) : 28 <= days_in_month y m.
Proof.
  unfold days_in_month.
  do 12 (destruct m as [|m]; [try destruct (is_leap y); lia|]). lia.
Qed.

Lemma digit_value_bound (a : ascii) : is_digit a = true -> digit_value a <= 9.
Proof.
  unfold is_digit, digit_value. intros H.
  apply andb_true_iff in H. destruct H as (_ & H).
  apply Nat.leb_le in H. lia.
Qed.

Lemma digits_spec (n : nat) (s : string) (y : nat) (rest : string) :
  digits n s = Some (y, rest) ->
  String.length s = n + String.length rest /\ y < 10 ^ n.
Proof.
  revert s y. induction n as [|n IH]; intros s y; cbn [digits].
  - intros [= <- <-]. cbn. lia.
  - destruct s as [|a r]; [discriminate|].
    destruct (is_digit a) eqn:Ha; [|discriminate].
    destruct (digits n r) as [[v r']|] eqn:E; [|discriminate].
    intros [= <- <-]. destruct (IH _ _ E) as (Hl & Hv).
    apply digit_value_bound in Ha. cbn [String.length Nat.pow].
    split; [lia|nia].
Qed.

Lemma index_from_range (k : nat) (s : string) (l : list string) (j : nat) :
  index_from k s l = Some j -> k <= j < k + List.length l.
Proof.
  revert k. induction l as [|x l IH]; intros k; cbn [index_from];
    [discriminate|].
  destruct (String.eqb s x).
  - intros [= <-]. cbn [List.length]. lia.
  - intros H. apply IH in H. cbn [List.length]. lia.
Qed.

Lemma abbreviated_month_spec (m : string) (k : nat) (rest : string) :
  abbreviated_month m = Some (k, rest) ->
  1 <= k <= 12
  /\ exists a b c, m = String a (String b (String c rest)).
Proof.
  unfold abbreviated_month.
  destruct m as [|a [|b [|c r]]]; try discriminate.
  destruct (index_from 1 _ month_abbr) as [j|] eqn:E; [|discriminate].
  intros [= <- <-]. apply index_from_range in E. cbn in E.
  split; [lia|]. now exists a, b, c.
Qed.

Lemma literal_dash_spec (s r : string) :
  literal_dash s = Some r -> s = String "-" r.
Proof.
  unfold literal_dash. destruct s as [|a s']; [discriminate|].
  destruct (Ascii.eqb a "-") eqn:E; [|discriminate].
  apply Ascii.eqb_eq in E. now intros [= <-]; subst.
Qed.

(** [strptime] on '1-' before a label. *)
Lemma strptime_first_of_month (four_digits : bool) (m : string) :
  strptime four_digits ("1-" ++ m)
  = match abbreviated_month m with
    | Some (k, r2) =>
        match literal_dash r2 with
        | Some r3 =>
            match digits (if four_digits then 4 else 2) r3 with
            | Some (y, rest) =>
                if negb (String.eqb rest EmptyString) then None
                else
                  let year :=
                    if four_digits then y
                    else if y <=? 68 then y + 2000 else y + 1900 in
                  if year =? 0 then None else Some (mkDatetime year k 1)
            | None => None
            end
        | None => None
        end
    | None => None
    end.
Proof.
  unfold strptime. rewrite day_of_first_of_month.
  cbn [first_match]. unfold month_and_year.
  change (literal_dash (String "-" m)) with (Some m). cbv beta iota.
  destruct (abbreviated_month m) as [[k r2]|]; [|reflexivity].
  destruct (literal_dash r2) as [r3|]; [|reflexivity].
  destruct (digits _ r3) as [[y rest]|]; [|reflexivity].
  destruct (negb (String.eqb rest EmptyString)); [reflexivity|].
  cbv zeta.
  assert (H : forall yr, (days_in_month yr k <? 1) = false).
  { intros yr. apply Nat.ltb_ge. pose proof (days_in_month_positive yr k).
    lia. }
  now rewrite H, orb_false_r.
Qed.

Lemma string_length_zero (s : string) :
  String.eqb s EmptyString = true -> String.length s = 0.
Proof. now destruct s. Qed.

Lemma digits_two (d1 d2 : ascii) (r : string) :
  is_digit d1 = true -> is_digit d2 = true ->
  digits 2 (String d1 (String d2 r))
  = Some (10 * digit_value d1 + digit_value d2, r).
Proof.
  intros H1 H2. cbn [digits]. rewrite H1, H2. cbn [Nat.pow].
  f_equal. f_equal. lia.
Qed.

Lemma digits_four (d1 d2 d3 d4 : ascii) (r : string) :
  is_digit d1 = true -> is_digit d2 = true ->
  is_digit d3 = true -> is_digit d4 = true ->
  digits 4 (String d1 (String d2 (String d3 (String d4 r))))
  = Some (1000 * digit_value d1 + 100 * digit_value d2
          + 10 * digit_value d3 + digit_value d4, r).
Proof.
  intros H1 H2 H3 H4. cbn [digits]. rewrite H1, H2, H3, H4. cbn [Nat.pow].
  f_equal. f_equal. lia.
Qed.


Lemma digits_two_inv (s : string) (y : nat) (rest : string) :
  digits 2 s = Some (y, rest) ->
  exists d1 d2,
    s = String d1 (String d2 rest)
    /\ is_digit d1 = true /\ is_digit d2 = true
    /\ y = 10 * digit_value d1 + digit_value d2.
Proof.
  destruct s as [|d1 [|d2 r]]; cbn [digits].
  - discriminate.
  - now destruct (is_digit d1).
  - destruct (is_digit d1) eqn:H1; [|discriminate].
    destruct (is_digit d2) eqn:H2; [|discriminate].
    intros [= <- <-]. exists d1, d2. cbn [Nat.pow].
    repeat split; try assumption. lia.
Qed.

Lemma digits_four_inv (s : string) (y : nat) (rest : string) :
  digits 4 s = Some (y, rest) ->
  exists d1 d2 d3 d4,
    s = String d1 (String d2 (String d3 (String d4 rest)))
    /\ is_digit d1 = true /\ is_digit d2 = true
    /\ is_digit d3 = true /\ is_digit d4 = true
    /\ y = 1000 * digit_value d1 + 100 * digit_value d2
           + 10 * digit_value d3 + digit_value d4.
Proof.
  destruct s as [|d1 [|d2 [|d3 [|d4 r]]]]; cbn [digits];
    try discriminate;
    destruct (is_digit d1) eqn:H1; try discriminate;
    try (destruct (is_digit d2) eqn:H2; try discriminate);
    try (destruct (is_digit d3) eqn:H3; try discriminate);
    try (destruct (is_digit d4) eqn:H4; try discriminate).
  intros [= <- <-]. exists d1, d2, d3, d4. cbn [Nat.pow].
  repeat split; try assumption. lia.
Qed.

Lemma index_from_nth (k : nat) (s : string) (l : list string) (j : nat) :
  index_from k s l = Some j -> k <= j /\ nth_error l (j - k) = Some s.
Proof.
  revert k. induction l as [|x l IH]; intros k; cbn [index_from];
    [discriminate|].
  destruct (String.eqb s x) eqn:E.
  - intros [= <-]. apply String.eqb_eq in E. subst x.
    rewrite Nat.sub_diag. split; [lia|reflexivity].
  - intros H. apply IH in H. destruct H as (Hk & Hn).
    split; [lia|]. replace (j - k) with (S (j - S k)) by lia. exact Hn.
Qed.

Lemma index_from_month (k : nat) (s : string) :
  1 <= k -> nth_error month_abbr (k - 1) = Some s ->
  index_from 1 s month_abbr = Some k.
Proof.
  intros Hk. destruct k as [|k]; [lia|].
  cbn [Nat.sub]. rewrite Nat.sub_0_r. unfold month_abbr.
  do 12 (destruct k as [|k]; [intros [= <-]; reflexivity|]).
  destruct k; discriminate.
Qed.

(** The labels [month_to_datetime] reads, and the date of each. *)
Lemma timestamp_label (m : string) (t : datetime) :
  month_to_datetime m = Timestamp t <-> month_label m t.
Proof.
  split.
  - unfold month_to_datetime. rewrite !strptime_first_of_month.
    destruct (abbreviated_month m) as [[k r2]|] eqn:Em; [|discriminate].
    unfold abbreviated_month in Em.
    destruct m as [|a [|b [|c r]]]; try discriminate.
    destruct (index_from 1 _ month_abbr) as [j|] eqn:Ei; [|discriminate].
    injection Em as -> ->. apply index_from_nth in Ei.
    destruct Ei as (Hk & Hn).
    destruct (literal_dash r2) as [r3|] eqn:Ed; [|discriminate].
    apply literal_dash_spec in Ed. subst r2.
    assert (Four :
      match digits 4 r3 with
      | Some (y, rest) =>
          if negb (String.eqb rest EmptyString) then None
          else if y =? 0 then None else Some (mkDatetime y k 1)
      | None => None
      end = Some t ->
      month_label (String a (String b (String c (String "-" r3)))) t).
    { destruct (digits 4 r3) as [[y rest]|] eqn:E4; [|discriminate].
      destruct (String.eqb rest EmptyString) eqn:Hr; cbn [negb];
        [|discriminate].
      apply String.eqb_eq in Hr. subst rest.
      destruct (y =? 0) eqn:E0; [discriminate|]. intros [= <-].
      apply Nat.eqb_neq in E0.
      destruct (digits_four_inv _ _ _ E4)
        as (d1 & d2 & d3 & d4 & -> & H1 & H2 & H3 & H4 & Hy).
      exists a, b, c, (String d1 (String d2 (String d3 (String d4 "")))).
      cbn [dt_day dt_month dt_year]. repeat split; try assumption.
      right. exists d1, d2, d3, d4. repeat split; assumption. }
    destruct (digits 2 r3) as [[y2 rest2]|] eqn:E2.
    + destruct (String.eqb rest2 EmptyString) eqn:Hr2; cbn [negb].
      * cbv zeta.
        replace ((if y2 <=? 68 then y2 + 2000 else y2 + 1900) =? 0)
          with false by (symmetry; apply Nat.eqb_neq;
                         destruct (y2 <=? 68); lia).
        intros [= <-]. apply String.eqb_eq in Hr2. subst rest2.
        destruct (digits_two_inv _ _ _ E2) as (d1 & d2 & -> & H1 & H2 & ->).
        exists a, b, c, (String d1 (String d2 "")).
        cbn [dt_day dt_month dt_year]. repeat split; try assumption.
        left. exists d1, d2. repeat split; assumption.
      * intros H. apply Four.
        destruct (digits 4 r3) as [[y4 rest4]|]; [|discriminate].
        destruct (negb (String.eqb rest4 EmptyString)); [discriminate|].
        cbv zeta in H. destruct (y4 =? 0); [discriminate|].
        now injection H as <-.
    + intros H. apply Four.
      destruct (digits 4 r3) as [[y4 rest4]|]; [|discriminate].
      destruct (negb (String.eqb rest4 EmptyString)); [discriminate|].
      cbv zeta in H. destruct (y4 =? 0); [discriminate|].
      now injection H as <-.
  - intros (a & b & c & yr & -> & Hk & Hn & Hd & Hy).
    destruct t as [year k d]. cbn [dt_day dt_month dt_year] in *. subst d.
    apply index_from_month in Hn; [|assumption].
    assert (Hab : forall r,
      abbreviated_month (String a (String b (String c r))) = Some (k, r)).
    { intros r. unfold abbreviated_month. now rewrite Hn. }
    unfold month_to_datetime. rewrite !strptime_first_of_month, Hab.
    destruct Hy as [(d1 & d2 & -> & H1 & H2 & ->)
                   |(d1 & d2 & d3 & d4 & -> & H1 & H2 & H3 & H4 & -> & H0)].
    + change (literal_dash (String "-" (String d1 (String d2 EmptyString))))
        with (Some (String d1 (String d2 EmptyString))).
      cbv beta iota.
      rewrite digits_two by assumption. cbn [String.eqb negb]. cbv zeta.
      replace (_ =? 0) with false; [reflexivity|].
      symmetry. apply Nat.eqb_neq. destruct (_ <=? 68); lia.
    + change (literal_dash
                (String "-" (String d1 (String d2 (String d3
                   (String d4 EmptyString))))))
        with (Some (String d1 (String d2 (String d3
                (String d4 EmptyString))))).
      cbv beta iota.
      rewrite digits_two, digits_four by assumption.
      cbn [String.eqb negb]. cbv zeta.
      apply Nat.eqb_neq in H0. now rewrite H0.
Qed.

Lemma month_label_bounds (m : string) (t : datetime) :
  month_label m t ->
  dt_month t <= 12
  /\ ((String.length m = 6 /\ 1969 <= dt_year t <= 2068)
      \/ (String.length m = 8 /\ 1 <= dt_year t < 10 ^ 4)).
Proof.
  intros (a & b & c & yr & -> & Hk & Hn & Hd & Hy).
  split.
  - assert (H : dt_month t - 1 < List.length month_abbr)
      by (apply nth_error_Some; now rewrite Hn).
    cbn in H. lia.
  - destruct Hy as [(d1 & d2 & -> & H1 & H2 & Hy)
                   |(d1 & d2 & d3 & d4 & -> & H1 & H2 & H3 & H4 & Hy & H0)].
    + left. split; [reflexivity|].
      apply digit_value_bound in H1, H2. rewrite Hy.
      destruct (_ <=? 68) eqn:E;
        [apply Nat.leb_le in E|apply Nat.leb_gt in E]; lia.
    + right. split; [reflexivity|].
      apply digit_value_bound in H1, H2, H3, H4. cbn [Nat.pow]. lia.
Qed.


(** X14: [month_to_datetime] returns a date exactly for the labels made
    of three characters that are, lowercased, one of 'jan' to 'dec', a
    dash, and two digits or four digits other than 0000.  The date is
    then the first day of that month, in the year 20yy for yy up to 68
    and 19yy from 69 on, or in the year the four digits write: the label
    is six characters long and the year 1969 to 2068, or eight and the
    year 1 to 9999.  Every other label, a full month name such as the
    docstring's 'July-25' among them, gives [NaT]. *)
Theorem month_to_datetime_shape (m : string) (t : datetime) :
  (month_to_datetime m = Timestamp t <-> month_label m t)
  /\ (month_to_datetime m = Timestamp t ->
      dt_day t = 1
      /\ 1 <= dt_month t <= 12
      /\ ((String.length m = 6 /\ 1969 <= dt_year t <= 2068)
          \/ (String.length m = 8 /\ 1 <= dt_year t < 10 ^ 4))).
Proof.
  split; [apply timestamp_label|].
  intros H. apply timestamp_label in H.
  destruct (month_label_bounds m t H) as (Hk & Hy).
  destruct H as (a & b & c & yr & _ & H1 & _ & Hd & _).
  repeat split; assumption.
Qed.

Lemma month_to_datetime_shape_witness :
  month_label "Jul-25" (mkDatetime 2025 7 1)
  /\ month_label "jul-1999" (mkDatetime 1999 7 1)
  /\ forall t, month_to_datetime "July-25" <> Timestamp t.
Proof.
  split; [|split].
  - apply (proj1 (month_to_datetime_shape "Jul-25" _)). reflexivity.
  - apply (proj1 (month_to_datetime_shape "jul-1999" _)). reflexivity.
  - intros t H.
    destruct (proj2 (month_to_datetime_shape "July-25" t) H)
      as (_ & _ & [(L & _)|(L & _)]); discriminate L.
Defined.

(** X15: a label made of a month's three-letter abbreviation, in any
    case, a dash and two digits is read as the first of that month, in
    20yy when yy is at most 68 and in 19yy otherwise; with four digits it
    is read in that year, except 0000, which gives [NaT]. *)
Theorem month_to_datetime_reads_label (a b c d1 d2 : ascii) (k : nat) :
  abbreviated_month (String a (String b (String c EmptyString)))
  = Some (k, EmptyString) ->
  is_digit d1 = true -> is_digit d2 = true ->
  month_to_datetime
    (String a (String b (String c (String "-"
       (String d1 (String d2 EmptyString))))))
  = Timestamp
      (mkDatetime
         (if 10 * digit_value d1 + digit_value d2 <=? 68
          then 10 * digit_value d1 + digit_value d2 + 2000
          else 10 * digit_value d1 + digit_value d2 + 1900) k 1)
  /\ forall d3 d4,
       is_digit d3 = true -> is_digit d4 = true ->
       month_to_datetime
         (String a (String b (String c (String "-"
            (String d1 (String d2 (String d3 (String d4 EmptyString))))))))
       = if 1000 * digit_value d1 + 100 * digit_value d2
            + 10 * digit_value d3 + digit_value d4 =? 0
         then NaT
         else Timestamp
                (mkDatetime
                   (1000 * digit_value d1 + 100 * digit_value d2
                    + 10 * digit_value d3 + digit_value d4) k 1).
Proof.
  intros Hm H1 H2.
  assert (Hab : forall r,
    abbreviated_month (String a (String b (String c r))) = Some (k, r)).
  { intros r. unfold abbreviated_month in *.
    destruct (index_from 1 _ month_abbr) as [j|]; [|discriminate].
    now injection Hm as ->. }
  split.
  - unfold month_to_datetime. rewrite strptime_first_of_month, Hab.
    change (literal_dash (String "-" (String d1 (String d2 EmptyString))))
      with (Some (String d1 (String d2 EmptyString))).
    cbv beta iota.
    rewrite digits_two by assumption. cbn [String.eqb negb]. cbv zeta.
    replace (_ =? 0) with false; [reflexivity|].
    symmetry. apply Nat.eqb_neq. destruct (_ <=? 68); lia.
  - intros d3 d4 H3 H4. unfold month_to_datetime.
    rewrite !strptime_first_of_month, Hab.
    change (literal_dash
              (String "-" (String d1 (String d2 (String d3
                 (String d4 EmptyString))))))
      with (Some (String d1 (String d2 (String d3 (String d4 EmptyString))))).
    cbv beta iota.
    rewrite digits_two, digits_four by assumption.
    cbn [String.eqb negb]. cbv zeta.
    now destruct (_ =? 0).
Qed.

Lemma month_to_datetime_reads_label_witness :
  month_to_datetime "Sep-99" = Timestamp (mkDatetime 1999 9 1)
  /\ month_to_datetime "Sep-2031" = Timestamp (mkDatetime 2031 9 1).
Proof.
  destruct (month_to_datetime_reads_label "S" "e" "p" "9" "9" 9
              eq_refl eq_refl eq_refl) as (H2 & _).
  destruct (month_to_datetime_reads_label "S" "e" "p" "2" "0" 9
              eq_refl eq_refl eq_refl) as (_ & H4).
  split; [exact H2|]. exact (H4 "3"%char "1"%char eq_refl eq_refl).
Defined.

Lemma lower_char_idempotent (a : ascii) :
  lower_char (lower_char a) = lower_char a.
Proof. destruct a as [[] [] [] [] [] [] [] []]; reflexivity. Qed.

Lemma lower_char_dash (a : ascii) :
  Ascii.eqb (lower_char a) "-" = Ascii.eqb a "-".
Proof. destruct a as [[] [] [] [] [] [] [] []]; reflexivity. Qed.

Lemma lower_char_digit (a : ascii) :
  is_digit (lower_char a) = is_digit a
  /\ (is_digit a = true -> lower_char a = a).
Proof. destruct a as [[] [] [] [] [] [] [] []]; split; easy. Qed.

Lemma abbreviated_month_lower (m : string) :
  abbreviated_month (lower m)
  = match abbreviated_month m with
    | Some (k, r) => Some (k, lower r)
    | None => None
    end.
Proof.
  destruct m as [|a [|b [|c r]]]; try reflexivity.
  cbn [lower abbreviated_month]. rewrite !lower_char_idempotent.
  now destruct (index_from 1 _ month_abbr).
Qed.

Lemma literal_dash_lower (s : string) :
  literal_dash (lower s)
  = match literal_dash s with
    | Some r => Some (lower r)
    | None => None
    end.
Proof.
  destruct s as [|a r]; [reflexivity|].
  cbn [lower literal_dash]. rewrite lower_char_dash.
  now destruct (Ascii.eqb a "-").
Qed.

Lemma digits_lower (n : nat) (s : string) :
  digits n (lower s)
  = match digits n s with
    | Some (y, r) => Some (y, lower r)
    | None => None
    end.
Proof.
  revert s. induction n as [|n IH]; intros s; [reflexivity|].
  destruct s as [|a r]; [reflexivity|]. cbn [lower digits].
  destruct (lower_char_digit a) as (Hd & Hsame). rewrite Hd.
  destruct (is_digit a) eqn:Ha; [|reflexivity].
  rewrite (Hsame eq_refl), IH. now destruct (digits n r) as [[v r']|].
Qed.

Lemma lower_empty (s : string) :
  String.eqb (lower s) EmptyString = String.eqb s EmptyString.
Proof. now destruct s. Qed.

Lemma strptime_lower (four_digits : bool) (m : string) :
  strptime four_digits ("1-" ++ lower m) = strptime four_digits ("1-" ++ m).
Proof.
  rewrite !strptime_first_of_month, abbreviated_month_lower.
  destruct (abbreviated_month m) as [[k r2]|]; [|reflexivity].
  rewrite literal_dash_lower.
  destruct (literal_dash r2) as [r3|]; [|reflexivity].
  rewrite digits_lower.
  destruct (digits _ r3) as [[y rest]|]; [|reflexivity].
  now rewrite lower_empty.
Qed.

(** X16: [month_to_datetime] does not look at the case of the label: a
    label and its lowercased form give the same result. *)
Theorem month_to_datetime_ignores_case (m : string) :
  month_to_datetime (lower m) = month_to_datetime m.
Proof. unfold month_to_datetime. now rewrite !strptime_lower. Qed.

(* ================================================================= *)
(** * Properties of the pages *)

Section AppProperties.

Context {number : Type} {NS : NumberStr number}.
Implicit Types (ss : SessionState number) (credentials : option Credentials).

(** ** The log-in layer *)

Lemma login_block_step credentials ss u p clicked :
  exists ss',
    login_block (SecretsFile credentials) ss u p clicked
    = LoginRun ss' (is_logged_in ss')
    /\ is_logged_in ss'
       = is_logged_in ss
         || good_attempt credentials (mkLoginAttempt u p clicked)
    /\ new_cat_data ss' = new_cat_data ss
    /\ new_funds_data ss' = new_funds_data ss
    /\ new_loans_home ss' = new_loans_home ss
    /\ new_loans_friends ss' = new_loans_friends ss.
Proof.
  unfold login_block, good_attempt, username_secret, password_secret.
  cbn [attempt_clicked attempt_username attempt_password].
  destruct ss as [[[|]|] cs fs hs rs];
    destruct clicked;
    destruct credentials as [[u0 p0]|];
    cbn [logged_in is_logged_in set_logged_in negb andb orb
         new_cat_data new_funds_data new_loans_home new_loans_friends
         cred_username cred_password];
    try (eexists; split;
         [apply (f_equal2 LoginRun); reflexivity|repeat split; reflexivity]);
    destruct (String.eqb u _); destruct (String.eqb p _);
    cbn [logged_in is_logged_in set_logged_in negb andb orb
         new_cat_data new_funds_data new_loans_home new_loans_friends];
    eexists; (split;
      [apply (f_equal2 LoginRun); reflexivity|repeat split; reflexivity]).
Qed.

(** X17: with no secrets configured, the case the comment above line 431
    gives 'admin' and 'password' to, every run of the authentication
    layer of [main] ends in the exception of the membership test of line
    436, whatever the form holds, and the session is never logged in by
    it.  With secrets configured, the layer lets a run go on exactly when
    the session is logged in after it, and the session is logged in after
    a sequence of runs exactly when it was before, or one of the runs had
    the Login button clicked on the configured user name and password
    ('admin' and 'password' for what the configuration leaves out): a
    wrong form never logs in, nothing logs out, and the data kept in the
    session is not touched. *)
Theorem login_gate :
  (forall ss u p clicked,
     login_block NoSecrets ss u p clicked = SecretsNotFound)
  /\ (forall attempts ss, login_runs NoSecrets attempts ss = ss)
  /\ (forall credentials ss u p clicked,
        exists ss',
          login_block (SecretsFile credentials) ss u p clicked
          = LoginRun ss' (is_logged_in ss')
          /\ new_cat_data ss' = new_cat_data ss
          /\ new_funds_data ss' = new_funds_data ss
          /\ new_loans_home ss' = new_loans_home ss
          /\ new_loans_friends ss' = new_loans_friends ss)
  /\ (forall credentials attempts ss,
        is_logged_in (login_runs (SecretsFile credentials) attempts ss)
        = true
        <-> is_logged_in ss = true
            \/ Exists (fun a => good_attempt credentials a = true)
                 attempts).
Proof.
  split; [|split; [|split]].
  - reflexivity.
  - intros attempts. induction attempts as [|a attempts IH]; intros ss.
    + reflexivity.
    + unfold login_runs in *. cbn [fold_left login_block]. apply IH.
  - intros credentials ss u p clicked.
    destruct (login_block_step credentials ss u p clicked)
      as (ss' & H1 & _ & H3 & H4 & H5 & H6).
    exists ss'. repeat split; assumption.
  - intros credentials attempts.
    induction attempts as [|[u p clicked] attempts IH]; intros ss.
    + cbn. split; [now left|]. intros [H|H]; [assumption|inversion H].
    + unfold login_runs in *. cbn [fold_left].
      cbn [attempt_username attempt_password attempt_clicked].
      destruct (login_block_step credentials ss u p clicked)
        as (ss' & H1 & H2 & _).
      rewrite H1, IH, H2, orb_true_iff, Exists_cons. tauto.
Qed.

(** ** The upload section *)

Lemma merged_concat_into {A} (table : list A) (old : option (list A))
    (new_rows : list A) :
  merged table (concat_into old new_rows) = merged table old ++ new_rows.
Proof.
  unfold merged, concat_into. destruct old as [rows|].
  - now rewrite app_assoc.
  - reflexivity.
Qed.

Lemma load_one_sheet (name : string) (df : DataFrame number) c f l r :
  parse_month_sheet df = Ok (c, f, l, r) ->
  load_workbook [(name, df)]
  = Ok (map (tag_category name) c, map (tag_fund name) f,
        map (tag_loan name) l, map (tag_friend name) r).
Proof.
  intros H. rewrite load_workbook_parse_all. cbn [parse_all].
  rewrite H. cbn [bind flat_map]. now rewrite !app_nil_r.
Qed.

(** X18: the upload section saves the rows of the uploaded sheet only
    when the sheet parses, the month name is not empty and the save button
    is clicked; it then appends to the four session tables exactly the
    rows [load_workbook] returns for the workbook of that one sheet under
    that name.  In every other case the session state is left as it was,
    and a sheet on which the parser raises is reported as a failure. *)
Theorem upload_block_saves ss (df : DataFrame number) name clicked :
  (forall c f l r,
     load_workbook [(name, df)] = Ok (c, f, l, r) ->
     name <> EmptyString -> clicked = true ->
     upload_block ss (Some (Sheet df)) name clicked
     = (mkSessionState (logged_in ss)
          (concat_into (new_cat_data ss) c)
          (concat_into (new_funds_data ss) f)
          (concat_into (new_loans_home ss) l)
          (concat_into (new_loans_friends ss) r),
        Parsed (List.length c, List.length f, List.length l, List.length r)
          true))
  /\ (name = EmptyString \/ clicked = false ->
      fst (upload_block ss (Some (Sheet df)) name clicked) = ss)
  /\ (parse_month_sheet df = Raise IndexError ->
      upload_block ss (Some (Sheet df)) name clicked = (ss, UploadFailed))
  /\ fst (upload_block ss None name clicked) = ss
  /\ fst (upload_block ss (Some ReadFailed) name clicked) = ss.
Proof.
  split; [|split; [|split; [|split]]].
  - intros c f l r Hload Hname ->.
    unfold upload_block.
    destruct (parse_month_sheet df) as [[[[c0 f0] l0] r0]|e] eqn:Hp.
    + rewrite (load_one_sheet name df _ _ _ _ Hp) in Hload.
      injection Hload as <- <- <- <-.
      apply String.eqb_neq in Hname. rewrite Hname. cbn [negb].
      now rewrite !length_map.
    + rewrite load_workbook_parse_all in Hload. cbn [parse_all] in Hload.
      rewrite Hp in Hload. discriminate.
  - intros H. unfold upload_block.
    destruct (parse_month_sheet df) as [[[[c0 f0] l0] r0]|e]; [|reflexivity].
    destruct H as [-> | ->]; [reflexivity|].
    now destruct (negb (String.eqb name EmptyString)).
  - intros H. unfold upload_block. now rewrite H.
  - reflexivity.
  - reflexivity.
Qed.

(** ** The rows on the pages *)

Lemma with_month_dt_app {A} (Month : A -> string) (l1 l2 : list A) :
  with_month_dt Month (l1 ++ l2)
  = with_month_dt Month l1 ++ with_month_dt Month l2.
Proof. unfold with_month_dt. apply flat_map_app. Qed.

Lemma with_month_dt_tagged {A B} (Month : B -> string) (tag : A -> B)
    (name : string) (recs : list A) :
  (forall rec, Month (tag rec) = name) ->
  with_month_dt Month (map tag recs)
  = match month_to_datetime name with
    | Timestamp t => map (fun rec => (tag rec, t)) recs
    | NaT => []
    end.
Proof.
  intros H. unfold with_month_dt.
  induction recs as [|rec recs IH]; cbn [map flat_map].
  - now destruct (month_to_datetime name).
  - rewrite IH, H. now destruct (month_to_datetime name).
Qed.

Lemma with_month_dt_rows {A} (Month : A -> string) (df : list A) :
  map fst (with_month_dt Month df)
  = filter (fun row => readable_month (Month row)) df
  /\ Forall (fun '(row, t) => month_to_datetime (Month row) = Timestamp t)
       (with_month_dt Month df).
Proof.
  unfold with_month_dt, readable_month.
  induction df as [|row df (IH1 & IH2)]; cbn [flat_map filter map].
  - split; [reflexivity|constructor].
  - destruct (month_to_datetime (Month row)) as [t|] eqn:E; cbn [app map fst].
    + split; [now rewrite IH1|]. constructor; assumption.
    + split; assumption.
Qed.

Lemma with_month_dt_labels {A} (Month : A -> string) (df : list A) :
  map fst (with_month_dt Month df)
  = filter (fun row => readable_month (Month row)) df
  /\ Forall (fun '(row, t) =>
               month_to_datetime (Month row) = Timestamp t
               /\ month_label (Month row) t)
       (with_month_dt Month df).
Proof.
  destruct (with_month_dt_rows Month df) as (H1 & H2).
  split; [assumption|].
  eapply Forall_impl; [|exact H2]. intros [row t] H.
  split; [assumption|]. now apply timestamp_label.
Qed.

Lemma funds_block_cases (funds_df : list (@FundRow number)) ss :
  funds_block funds_df ss
  = match merged funds_df (new_funds_data ss) with
    | [] =>
        match new_funds_data ss with
        | None => NoFundsNotice
        | Some _ => MonthKeyError
        end
    | funds => FundsFrame (with_month_dt fund_Month funds)
    end.
Proof.
  unfold funds_block, merged.
  destruct funds_df as [|row0 rest]; destruct (new_funds_data ss) as [[|x l]|];
    reflexivity.
Qed.

(** X19: the Dashboard page shows its warning exactly when neither the
    workbook nor the session holds a category row.  Otherwise the frame
    it works on holds the category rows of the workbook followed by those
    kept in the session, in that order, less the rows whose Month
    [month_to_datetime] does not read: the Month of every row kept is a
    month's three-letter abbreviation, a dash and a year of two or four
    digits, and the row bears the first day of that month.  The funds
    block of the Funds & Loans page shows its notice exactly when the
    workbook has no fund and the session has no funds table; it raises
    [KeyError] at line 385 exactly when the workbook has no fund and the
    funds table of the session has no row, as after saving a sheet
    without funds; otherwise it filters the fund rows of the workbook and
    of the session in the same way. *)
Theorem rows_on_the_pages ss
    (cat_df : list (@CategoryRow number))
    (funds_df : list (@FundRow number)) :
  (main_dashboard_rows cat_df ss = None
   <-> cat_df = []
       /\ (new_cat_data ss = None \/ new_cat_data ss = Some []))
  /\ (forall rows,
        main_dashboard_rows cat_df ss = Some rows ->
        map fst rows
        = filter (fun row => readable_month (cat_Month row))
            (merged cat_df (new_cat_data ss))
        /\ Forall (fun '(row, t) =>
                     month_to_datetime (cat_Month row) = Timestamp t
                     /\ month_label (cat_Month row) t) rows)
  /\ (funds_block funds_df ss = NoFundsNotice
      <-> funds_df = [] /\ new_funds_data ss = None)
  /\ (funds_block funds_df ss = MonthKeyError
      <-> funds_df = [] /\ new_funds_data ss = Some [])
  /\ (forall rows,
        funds_block funds_df ss = FundsFrame rows ->
        map fst rows
        = filter (fun row => readable_month (fund_Month row))
            (merged funds_df (new_funds_data ss))
        /\ Forall (fun '(row, t) =>
                     month_to_datetime (fund_Month row) = Timestamp t
                     /\ month_label (fund_Month row) t) rows).
Proof.
  split; [|split; [|split; [|split]]].
  - unfold main_dashboard_rows, dashboard_rows, merged.
    destruct cat_df as [|row0 rest];
      destruct (new_cat_data ss) as [[|x l]|]; cbn [app];
      split; try discriminate; try tauto;
      intros (H1 & [H2|H2]); discriminate.
  - intros rows Hrows.
    assert (H : rows
                = with_month_dt cat_Month (merged cat_df (new_cat_data ss))).
    { unfold main_dashboard_rows, dashboard_rows in Hrows.
      destruct (merged cat_df (new_cat_data ss)); [discriminate|].
      congruence. }
    rewrite H. apply with_month_dt_labels.
  - unfold funds_block, merged.
    destruct funds_df as [|row0 rest];
      destruct (new_funds_data ss) as [[|x l]|]; cbn [app];
      split; try discriminate; try tauto;
      intros (H1 & H2); discriminate.
  - unfold funds_block, merged.
    destruct funds_df as [|row0 rest];
      destruct (new_funds_data ss) as [[|x l]|]; cbn [app];
      split; try discriminate; try tauto;
      intros (H1 & H2); discriminate.
  - intros rows Hrows.
    assert (H : rows
                = with_month_dt fund_Month
                    (merged funds_df (new_funds_data ss))).
    { rewrite funds_block_cases in Hrows.
      destruct (merged funds_df (new_funds_data ss));
        [destruct (new_funds_data ss); discriminate|].
      congruence. }
    rewrite H. apply with_month_dt_labels.
Qed.

(** X20: once a sheet is saved from the upload section under a month
    name, the next Dashboard page works on its categories, after all the
    rows it had before, when [month_to_datetime] reads the name, and on
    none of them when it does not.  The funds block of the Funds & Loans
    page does the same with the funds of the sheet, unless neither the
    workbook, nor the session, nor the sheet has a fund: it then raises
    [KeyError] at line 385, where it showed its notice, or raised, before
    the sheet was saved. *)
Theorem uploaded_sheet_on_the_pages ss (df : DataFrame number) name
    c f l r
    (cat_df : list (@CategoryRow number))
    (funds_df : list (@FundRow number)) :
  parse_month_sheet df = Ok (c, f, l, r) ->
  name <> EmptyString ->
  (c <> [] ->
   main_dashboard_rows cat_df
     (fst (upload_block ss (Some (Sheet df)) name true))
   = Some (with_month_dt cat_Month (merged cat_df (new_cat_data ss))
           ++ match month_to_datetime name with
              | Timestamp t => map (fun rec => (tag_category name rec, t)) c
              | NaT => []
              end))
  /\ funds_block funds_df
       (fst (upload_block ss (Some (Sheet df)) name true))
     = match merged funds_df (new_funds_data ss) ++ map (tag_fund name) f
       with
       | [] => MonthKeyError
       | _ :: _ =>
           FundsFrame
             (with_month_dt fund_Month (merged funds_df (new_funds_data ss))
              ++ match month_to_datetime name with
                 | Timestamp t => map (fun rec => (tag_fund name rec, t)) f
                 | NaT => []
                 end)
       end.
Proof.
  intros Hp Hname.
  unfold upload_block. rewrite Hp.
  apply String.eqb_neq in Hname. rewrite Hname. cbn [negb fst].
  change (fun c0 : CategoryRecord =>
            mkCategoryRow name (Category c0) (Planned c0) (Actual c0))
    with (@tag_category number name).
  change (fun f0 : FundRecord => mkFundRow name (Fund f0) (Amount f0))
    with (@tag_fund number name).
  split.
  - intros Hc. unfold main_dashboard_rows. cbn [new_cat_data].
    rewrite merged_concat_into. unfold dashboard_rows.
    destruct (merged cat_df (new_cat_data ss) ++ map (tag_category name) c)
      as [|row0 rest] eqn:E.
    + apply app_eq_nil in E. destruct E as (_ & E).
      apply map_eq_nil in E. contradiction.
    + rewrite <- E, with_month_dt_app.
      now rewrite (with_month_dt_tagged cat_Month (tag_category name) name).
  - rewrite funds_block_cases. cbn [new_funds_data].
    rewrite merged_concat_into.
    rewrite <- (with_month_dt_tagged fund_Month (tag_fund name) name f)
      by reflexivity.
    rewrite <- with_month_dt_app.
    now destruct (merged funds_df (new_funds_data ss) ++ map (tag_fund name) f).
Qed.

End AppProperties.

(* ================================================================= *)
(** * The further properties on the frames of the scenarios *)

Lemma parse_month_sheet_one_record_per_row_witness :
  exists c f l r,
    parse_month_sheet df_categories = Ok (c, f, l, r)
    /\ c = map (home_record df_categories) (home_rows df_categories)
           ++ map (bangalore_record df_categories)
                (bangalore_rows df_categories)
    /\ f = map (fund_record df_categories) (fund_rows df_categories)
    /\ l = map (loan_record df_categories) (loan_rows df_categories)
    /\ r = map (friend_record df_categories) (friend_rows df_categories)
    /\ List.length c
       = List.length (home_rows df_categories)
         + List.length (bangalore_rows df_categories).
Proof.
  do 4 eexists. split; [reflexivity|].
  exact (parse_month_sheet_one_record_per_row df_categories _ _ _ _ eq_refl).
Defined.

Lemma parse_month_sheet_without_headers_witness :
  parse_month_sheet df_no_headers = Ok ([], [], [], []).
Proof.
  apply parse_month_sheet_without_headers.
  - left. cbn. lia.
  - intros i Hi. cbn in Hi.
    destruct i as [|[|i]]; [repeat split; reflexivity ..|lia].
Defined.

Lemma value_fields_never_blank_witness :
  exists c f l r,
    parse_month_sheet df_text_values = Ok (c, f, l, r)
    /\ Forall (fun rec =>
                 (Planned rec = None
                  \/ exists x, Planned rec = Some x /\ isna x = false)
                 /\ (Actual rec = None
                     \/ exists n, Actual rec = Some (Number n))) c.
Proof.
  do 4 eexists. split; [reflexivity|].
  apply (proj1 (value_fields_never_blank df_text_values _ _ _ _ eq_refl)).
Defined.

Lemma names_are_trimmed_witness :
  exists c f l r,
    parse_month_sheet df_space_names = Ok (c, f, l, r)
    /\ Forall (fun rec => strip (Fund rec) = Fund rec) f.
Proof.
  do 4 eexists. split; [reflexivity|].
  apply (proj1 (proj2
           (names_are_trimmed df_space_names _ _ _ _ eq_refl))).
Defined.

Lemma keywords_are_never_names_witness :
  exists c f l r,
    parse_month_sheet df_blank_row = Ok (c, f, l, r)
    /\ exists ch cb,
         c = ch ++ cb
         /\ Forall (fun rec =>
                      in_set (lower (Category rec)) home_stop = false) ch
         /\ Forall (fun rec =>
                      exists n, Category rec = ("Bangalore - " ++ n)%string
                        /\ in_set (lower n) bangalore_stop = false) cb
         /\ Forall (fun rec =>
                      in_set (lower (Fund rec)) funds_skip = false) f
         /\ Forall (fun rec =>
                      startswith (lower (Loan rec)) "friends side" = false) l.
Proof.
  do 4 eexists. split; [reflexivity|].
  exact (keywords_are_never_names df_blank_row _ _ _ _ eq_refl).
Defined.

Lemma narrow_frames_witness :
  exists c f l r,
    parse_month_sheet df_categories = Ok (c, f, l, r)
    /\ f = [] /\ (l = [] /\ r = []).
Proof.
  do 4 eexists. split; [reflexivity|].
  destruct (narrow_frames df_categories _ _ _ _ eq_refl)
    as (H7 & H10 & _).
  split; [apply H7|apply H10]; cbn; lia.
Defined.

Lemma whitespace_name_is_a_row_witness :
  Category (home_record df_space_names 1) = EmptyString
  /\ Fund (fund_record df_space_names 1) = EmptyString
  /\ Friend (friend_record df_space_names 1) = EmptyString
  /\ funds_loop df_space_names [1; 2] []
     = funds_loop df_space_names [2] [fund_record df_space_names 1].
Proof.
  destruct (whitespace_name_is_a_row df_space_names 1 [2] "  " eq_refl)
    as (Hhome & Hfunds & Hloans).
  destruct (Hhome eq_refl) as (_ & Hc & _); [cbn; lia|].
  destruct (Hfunds eq_refl) as (Hf & Hn).
  destruct (Hloans eq_refl) as (_ & _ & _ & Hr).
  split; [exact Hc|]. split; [exact Hn|]. split; [exact Hr|].
  exact (Hf []).
Defined.

Lemma bangalore_above_home_witness :
  incl (2 :: home_rows df_bangalore_first) (bangalore_rows df_bangalore_first)
  /\ forall c f l r,
       parse_month_sheet df_bangalore_first = Ok (c, f, l, r) ->
       forall i, In i (home_rows df_bangalore_first) ->
         In (home_record df_bangalore_first i) c
         /\ In (bangalore_record df_bangalore_first i) c.
Proof.
  apply (bangalore_above_home df_bangalore_first 0 2);
    [reflexivity|reflexivity|lia|].
  intros j Hj. assert (j = 1) as -> by lia. reflexivity.
Defined.

Lemma load_workbook_app_witness :
  load_workbook ([("Jan-25", df_categories)] ++ [("Feb-25", df_funds)])
  = Ok ([mkCategoryRow "Jan-25" "Rent"
           (Some (Number 1000%Z)) (Some (Number 1200%Z));
         mkCategoryRow "Jan-25" "Food" (Some (Number 500%Z)) None;
         mkCategoryRow "Jan-25" "Bangalore - Power"
           (Some (Number 200%Z)) (Some (Number 250%Z))] ++ [],
        [] ++ [mkFundRow "Feb-25" "Emergency" (Some (Number 2000%Z));
               mkFundRow "Feb-25" "Car" (Some (Number 1000%Z))],
        [] ++ [], [] ++ []).
Proof.
  apply (proj1 (load_workbook_app [("Jan-25", df_categories)]
                  [("Feb-25", df_funds)])); reflexivity.
Defined.

Lemma load_workbook_months_witness :
  exists c f l r,
    load_workbook [("Jan-25", df_categories); ("Mar-25", df_loans)]
    = Ok (c, f, l, r)
    /\ Forall (fun row => In (cat_Month row) ["Jan-25"; "Mar-25"]) c
    /\ Forall (fun row => In (loan_Month row) ["Jan-25"; "Mar-25"]) l.
Proof.
  do 4 eexists. split; [reflexivity|].
  destruct (load_workbook_months
              [("Jan-25", df_categories); ("Mar-25", df_loans)]
              _ _ _ _ eq_refl) as (Hc & _ & Hl & _).
  split; [exact Hc|exact Hl].
Defined.

Lemma upload_block_saves_witness :
  exists c f l r,
    load_workbook [("Aug-25", df_loans)] = Ok (c, f, l, r)
    /\ upload_block fresh_session (Some (Sheet df_loans)) "Aug-25" true
       = (mkSessionState None (Some c) (Some f) (Some l) (Some r),
          Parsed (0, 0, 1, 1) true)
    /\ upload_block fresh_session (Some (Sheet df_narrow_home)) "Aug-25" true
       = (fresh_session, UploadFailed).
Proof.
  do 4 eexists. split; [reflexivity|]. split.
  - apply (proj1 (upload_block_saves fresh_session df_loans "Aug-25" true));
      [reflexivity|discriminate|reflexivity].
  - apply (proj1 (proj2 (proj2
             (upload_block_saves fresh_session df_narrow_home "Aug-25"
                true)))).
    reflexivity.
Defined.

Lemma uploaded_sheet_on_the_pages_witness :
  main_dashboard_rows []
    (fst (upload_block fresh_session (Some (Sheet df_categories))
            "August-25" true))
  = Some []
  /\ main_dashboard_rows []
       (fst (upload_block fresh_session (Some (Sheet df_categories))
               "Aug-25" true))
     = Some [(mkCategoryRow "Aug-25" "Rent"
                (Some (Number 1000%Z)) (Some (Number 1200%Z)),
              mkDatetime 2025 8 1);
             (mkCategoryRow "Aug-25" "Food" (Some (Number 500%Z)) None,
              mkDatetime 2025 8 1);
             (mkCategoryRow "Aug-25" "Bangalore - Power"
                (Some (Number 200%Z)) (Some (Number 250%Z)),
              mkDatetime 2025 8 1)]
  /\ funds_block []
       (fst (upload_block fresh_session (Some (Sheet df_categories))
               "Aug-25" true))
     = MonthKeyError
  /\ funds_block []
       (fst (upload_block fresh_session (Some (Sheet df_funds))
               "Aug-25" true))
     = FundsFrame
         [(mkFundRow "Aug-25" "Emergency" (Some (Number 2000%Z)),
           mkDatetime 2025 8 1);
          (mkFundRow "Aug-25" "Car" (Some (Number 1000%Z)),
           mkDatetime 2025 8 1)].
Proof.
  split; [|split; [|split]].
  - apply (proj1 (uploaded_sheet_on_the_pages fresh_session df_categories
                    "August-25" _ _ _ _ [] []
                    eq_refl ltac:(discriminate))).
    discriminate.
  - apply (proj1 (uploaded_sheet_on_the_pages fresh_session df_categories
                    "Aug-25" _ _ _ _ [] []
                    eq_refl ltac:(discriminate))).
    discriminate.
  - apply (proj2 (uploaded_sheet_on_the_pages fresh_session df_categories
                    "Aug-25" _ _ _ _ [] []
                    eq_refl ltac:(discriminate))).
  - apply (proj2 (uploaded_sheet_on_the_pages fresh_session df_funds
                    "Aug-25" _ _ _ _ [] []
                    eq_refl ltac:(discriminate))).
Defined.

Lemma find_header_first_witness :
  find_header df_loans 10 is_friends_side = Ok (Some 2)
  /\ find_header df_loans 10 (is_keyword "funds") = Ok None
  /\ find_header df_categories 10 is_friends_side = Raise IndexError.
Proof.
  split; [|split].
  - apply (proj1 (find_header_first df_loans 10 is_friends_side)).
    split; [cbn; lia|]. split; [cbn; lia|]. split; [reflexivity|].
    intros i Hi. destruct i as [|[|i]]; [reflexivity|reflexivity|lia].
  - apply (proj1 (proj2 (find_header_first df_loans 10 (is_keyword "funds")))).
    split; [left; cbn; lia|].
    intros i Hi. cbn in Hi.
    destruct i as [|[|[|[|i]]]]; [reflexivity ..|lia].
  - apply (proj2 (proj2 (find_header_first df_categories 10 is_friends_side))).
    cbn. lia.
Defined.

Lemma parse_month_sheet_raises_exactly_witness :
  parse_month_sheet df_narrow_home = Raise IndexError
  /\ parse_month_sheet df_no_columns = Raise IndexError
  /\ exists p, parse_month_sheet df_categories = Ok p.
Proof.
  split; [|split].
  - apply (proj1 (parse_month_sheet_raises_exactly df_narrow_home)).
    right. split; [reflexivity|]. left. discriminate.
  - apply (proj1 (parse_month_sheet_raises_exactly df_no_columns)).
    left. split; [reflexivity|]. cbn. lia.
  - apply (proj2 (parse_month_sheet_raises_exactly df_categories)).
    cbn. lia.
Defined.

Lemma load_workbook_raises_exactly_witness :
  load_workbook [("Jan-25", df_categories); ("Feb-25", df_narrow_home)]
  = Raise IndexError
  /\ exists t,
       load_workbook [("Jan-25", df_categories); ("Feb-25", df_funds)]
       = Ok t.
Proof.
  split.
  - apply (proj1 (load_workbook_raises_exactly
                    [("Jan-25", df_categories); ("Feb-25", df_narrow_home)])).
    right. left. reflexivity.
  - apply (proj2 (load_workbook_raises_exactly
                    [("Jan-25", df_categories); ("Feb-25", df_funds)])).
    repeat constructor.
Defined.

Lemma rows_on_the_pages_witness :
  map fst
    [(mkCategoryRow "Jan-25" "Rent" (Some (Number 1000%Z)) None,
      mkDatetime 2025 1 1)]
  = filter (fun row => readable_month (cat_Month row))
      (merged
         [mkCategoryRow "Jan-25" "Rent" (Some (Number 1000%Z)) None;
          mkCategoryRow "July-25" "Food" (Some (Number 500%Z)) None]
         (new_cat_data fresh_session))
  /\ funds_block []
       (mkSessionState None None (Some []) None None : SessionState Z)
     = MonthKeyError.
Proof.
  split.
  - apply (proj1 (proj2 (rows_on_the_pages fresh_session
                    [mkCategoryRow "Jan-25" "Rent"
                       (Some (Number 1000%Z)) None;
                     mkCategoryRow "July-25" "Food"
                       (Some (Number 500%Z)) None]
                    []))).
    reflexivity.
  - apply (proj1 (proj2 (proj2 (proj2
             (rows_on_the_pages
                (mkSessionState None None (Some []) None None)
                ([] : list (@CategoryRow Z)) []))))).
    split; reflexivity.
Defined.

Lemma login_gate_witness :
  login_block NoSecrets (fresh_session : SessionState Z)
    "admin" "password" true
  = SecretsNotFound
  /\ (is_logged_in
        (login_runs (SecretsFile None)
           [mkLoginAttempt "admin" "secret" true;
            mkLoginAttempt "admin" "password" true]
           (fresh_session : SessionState Z))
      = true).
Proof.
  split.
  - apply (proj1 (@login_gate Z)).
  - apply (proj2 (proj2 (proj2 (@login_gate Z)))).
    right. apply Exists_cons_tl, Exists_cons_hd. reflexivity.
Defined.
